(** * The lexer of tree-sitter-applescript

    A shallow embedding of [ts_lex] from [src/parser.c], the generated
    state-transition scanner of the AppleScript grammar, together with the
    loop that calls it token after token, and the properties of the token
    stream that follow from the state graph.

    The first part holds the definitions: the symbols, the [switch] over the
    129 lexer states, the lexer loop, the sequencer, and the notions that the
    statements use.  The second part holds the lemmas and theorems. *)

From Stdlib Require Import Ascii String.
From Stdlib Require Import ZArith List Bool Lia.
Import ListNotations.

Local Open Scope char_scope.
Local Open Scope Z_scope.

(** ** Symbols

    [enum ts_symbol_identifiers], preceded by the built-in end symbol
    (value 0). *)

Inductive TSSymbol : Set :=
| ts_builtin_sym_end
| sym_comment
| sym_string
| sym_number
| sym_keyword
| sym_operator
| sym_punctuation
| sym_identifier
| sym_source_file
| sym__item
| aux_sym_source_file_repeat1.

Definition symbol_id (s : TSSymbol) : Z :=
  match s with
  | ts_builtin_sym_end => 0
  | sym_comment => 1
  | sym_string => 2
  | sym_number => 3
  | sym_keyword => 4
  | sym_operator => 5
  | sym_punctuation => 6
  | sym_identifier => 7
  | sym_source_file => 8
  | sym__item => 9
  | aux_sym_source_file_repeat1 => 10
  end.

Definition TSSymbol_eqb (a b : TSSymbol) : bool := symbol_id a =? symbol_id b.

Definition ts_symbol_names (s : TSSymbol) : string :=
  match s with
  | ts_builtin_sym_end => "end"
  | sym_comment => "comment"
  | sym_string => "string"
  | sym_number => "number"
  | sym_keyword => "keyword"
  | sym_operator => "operator"
  | sym_punctuation => "punctuation"
  | sym_identifier => "identifier"
  | sym_source_file => "source_file"
  | sym__item => "_item"
  | aux_sym_source_file_repeat1 => "source_file_repeat1"
  end%string.

(** ** Characters

    The lexer reads code points ([int32_t lookahead]).  Character literals of
    the C source are written as Rocq characters and read as their code. *)

Definition char_code (c : ascii) : Z := Z.of_N (N_of_ascii c).
Coercion char_code : ascii >-> Z.

Notation "x !=? y" := (negb (Z.eqb x y)) (at level 70, no associativity).

(** ** The lexer macros

    The body of [ts_lex] is written with the macros [START_LEXER],
    [ADVANCE], [ADVANCE_MAP], [SKIP], [ACCEPT_TOKEN] and [END_STATE] of the
    header [tree_sitter/parser.h], which is not among the files of [src/]. *)

Definition TSStateId := Z.

(** Modelled from the spec: the three ways a state ends, by the missing
    macros [ADVANCE], [SKIP] and [END_STATE].  The scanner advances through
    the state graph consuming input units ([ADVANCE]), silently skips
    whitespace before a token ([SKIP], which also advances, and leaves the
    character out of the token), or stops and returns its result
    ([END_STATE]). *)
Inductive lex_action : Set :=
| ADVANCE (state_value : TSStateId)
| SKIP (state_value : TSStateId)
| END_STATE.

(** What one pass through the [switch] does: the symbol accepted on entry
    of the state, if any, and the action taken.  [None] is the [default:]
    branch, [return false]. *)
Definition lex_step : Set := option (option TSSymbol * lex_action).

(** Modelled from the spec: the missing macro [ACCEPT_TOKEN], by which an
    accepting state records the classified token that ends at the current
    position; the statements after it go on looking for a longer match. *)
Definition ACCEPT_TOKEN (symbol_value : TSSymbol) (k : lex_action) : lex_step :=
  Some (Some symbol_value, k).

(** A state that does not start with [ACCEPT_TOKEN]. *)
Definition NO_TOKEN (k : lex_action) : lex_step := Some (None, k).

(** One [character, state] pair of the array behind [ADVANCE_MAP]. *)
Definition entry (c : Z) (state_value : TSStateId) : Z * TSStateId :=
  (c, state_value).

(** Modelled from the spec: the missing macro [ADVANCE_MAP], a table of
    transitions: the first pair whose character is the lookahead gives the
    state to advance to; with no such pair the statements after the table
    run. *)
Fixpoint ADVANCE_MAP (lookahead : Z) (map : list (Z * TSStateId))
    (k : lex_action) : lex_action :=
  match map with
  | [] => k
  | (c, state_value) :: map' =>
      if c =? lookahead then ADVANCE state_value
      else ADVANCE_MAP lookahead map' k
  end.

(** ** The state graph: the [switch (state)] of [ts_lex] *)

Definition ts_lex_case (state : TSStateId) (eof : bool) (lookahead : Z) : lex_step :=
  match state with
  | 0 =>
      NO_TOKEN (
      if eof then ADVANCE 6 else
      ADVANCE_MAP lookahead [
        entry 34 2;
        entry "#" 1;
        entry "(" 18;
        entry "-" 15;
        entry "/" 16;
        entry "<" 16;
        entry ">" 16;
        entry "A" 32;
        entry "a" 32;
        entry "B" 126;
        entry "b" 126;
        entry "C" 19;
        entry "c" 19;
        entry "D" 51;
        entry "d" 51;
        entry "E" 65;
        entry "e" 65;
        entry "F" 21;
        entry "f" 21;
        entry "G" 69;
        entry "g" 69;
        entry "I" 48;
        entry "i" 48;
        entry "L" 82;
        entry "l" 82;
        entry "M" 36;
        entry "m" 36;
        entry "N" 83;
        entry "n" 83;
        entry "O" 127;
        entry "o" 127;
        entry "P" 99;
        entry "p" 99;
        entry "R" 38;
        entry "r" 38;
        entry "S" 29;
        entry "s" 29;
        entry "T" 40;
        entry "t" 40;
        entry "U" 79;
        entry "u" 79;
        entry "V" 22;
        entry "v" 22;
        entry "W" 50;
        entry "w" 50
      ] (
      if (("009" <=? lookahead) && (lookahead <=? "013")) ||
         (lookahead =? " ") then SKIP 0 else
      if (("'" <=? lookahead) && (lookahead <=? ")")) ||
         (lookahead =? ",") ||
         (lookahead =? ":") ||
         (lookahead =? "[") ||
         (lookahead =? "]") ||
         (lookahead =? "{") ||
         (lookahead =? "}") then ADVANCE 17 else
      if (("&" <=? lookahead) && (lookahead <=? "+")) ||
         (lookahead =? "=") ||
         (lookahead =? "^") ||
         (lookahead =? 0xac) ||
         (lookahead =? 0x2260) ||
         (lookahead =? 0x2264) ||
         (lookahead =? 0x2265) then ADVANCE 14 else
      if ("0" <=? lookahead) && (lookahead <=? "9") then ADVANCE 10 else
      if (("H" <=? lookahead) && (lookahead <=? "Z")) ||
         (lookahead =? "_") ||
         (("h" <=? lookahead) && (lookahead <=? "z")) then ADVANCE 128 else
      END_STATE))
  | 1 =>
      NO_TOKEN (
      if (lookahead =? "!") then ADVANCE 8 else
      END_STATE)
  | 2 =>
      NO_TOKEN (
      if (lookahead =? 34) then ADVANCE 9 else
      if (lookahead !=? 0) then ADVANCE 2 else
      END_STATE)
  | 3 =>
      NO_TOKEN (
      if (lookahead =? ")") then ADVANCE 7 else
      if (lookahead =? "*") then ADVANCE 3 else
      if (lookahead !=? 0) then ADVANCE 4 else
      END_STATE)
  | 4 =>
      NO_TOKEN (
      if (lookahead =? "*") then ADVANCE 3 else
      if (lookahead !=? 0) then ADVANCE 4 else
      END_STATE)
  | 5 =>
      NO_TOKEN (
      if ("0" <=? lookahead) && (lookahead <=? "9") then ADVANCE 11 else
      END_STATE)
  | 6 =>
      ACCEPT_TOKEN ts_builtin_sym_end (
      END_STATE)
  | 7 =>
      ACCEPT_TOKEN sym_comment (
      END_STATE)
  | 8 =>
      ACCEPT_TOKEN sym_comment (
      if (lookahead !=? 0) && (lookahead !=? "010") then ADVANCE 8 else
      END_STATE)
  | 9 =>
      ACCEPT_TOKEN sym_string (
      END_STATE)
  | 10 =>
      ACCEPT_TOKEN sym_number (
      if (lookahead =? ".") then ADVANCE 5 else
      if ("0" <=? lookahead) && (lookahead <=? "9") then ADVANCE 10 else
      END_STATE)
  | 11 =>
      ACCEPT_TOKEN sym_number (
      if ("0" <=? lookahead) && (lookahead <=? "9") then ADVANCE 11 else
      END_STATE)
  | 12 =>
      ACCEPT_TOKEN sym_keyword (
      if (lookahead =? "I") ||
         (lookahead =? "i") then ADVANCE 78 else
      if (("0" <=? lookahead) && (lookahead <=? "9")) ||
         (("A" <=? lookahead) && (lookahead <=? "Z")) ||
         (lookahead =? "_") ||
         (("a" <=? lookahead) && (lookahead <=? "z")) then ADVANCE 128 else
      END_STATE)
  | 13 =>
      ACCEPT_TOKEN sym_keyword (
      if (("0" <=? lookahead) && (lookahead <=? "9")) ||
         (("A" <=? lookahead) && (lookahead <=? "Z")) ||
         (lookahead =? "_") ||
         (("a" <=? lookahead) && (lookahead <=? "z")) then ADVANCE 128 else
      END_STATE)
  | 14 =>
      ACCEPT_TOKEN sym_operator (
      END_STATE)
  | 15 =>
      ACCEPT_TOKEN sym_operator (
      if (lookahead =? "-") then ADVANCE 8 else
      END_STATE)
  | 16 =>
      ACCEPT_TOKEN sym_operator (
      if (lookahead =? "=") then ADVANCE 14 else
      END_STATE)
  | 17 =>
      ACCEPT_TOKEN sym_punctuation (
      END_STATE)
  | 18 =>
      ACCEPT_TOKEN sym_punctuation (
      if (lookahead =? "*") then ADVANCE 4 else
      END_STATE)
  | 19 =>
      ACCEPT_TOKEN sym_identifier (
      if (lookahead =? "A") ||
         (lookahead =? "a") then ADVANCE 108 else
      if (lookahead =? "O") ||
         (lookahead =? "o") then ADVANCE 77 else
      if (("0" <=? lookahead) && (lookahead <=? "9")) ||
         (("B" <=? lookahead) && (lookahead <=? "Z")) ||
         (lookahead =? "_") ||
         (("b" <=? lookahead) && (lookahead <=? "z")) then ADVANCE 128 else
      END_STATE)
  | 20 =>
      ACCEPT_TOKEN sym_identifier (
      if (lookahead =? "A") ||
         (lookahead =? "a") then ADVANCE 114 else
      if (("0" <=? lookahead) && (lookahead <=? "9")) ||
         (("B" <=? lookahead) && (lookahead <=? "Z")) ||
         (lookahead =? "_") ||
         (("b" <=? lookahead) && (lookahead <=? "z")) then ADVANCE 128 else
      END_STATE)
  | 21 =>
      ACCEPT_TOKEN sym_identifier (
      if (lookahead =? "A") ||
         (lookahead =? "a") then ADVANCE 66 else
      if (lookahead =? "R") ||
         (lookahead =? "r") then ADVANCE 25 else
      if (("0" <=? lookahead) && (lookahead <=? "9")) ||
         (("B" <=? lookahead) && (lookahead <=? "Z")) ||
         (lookahead =? "_") ||
         (("b" <=? lookahead) && (lookahead <=? "z")) then ADVANCE 128 else
      END_STATE)
  | 22 =>
      ACCEPT_TOKEN sym_identifier (
      if (lookahead =? "A") ||
         (lookahead =? "a") then ADVANCE 71 else
      if (lookahead =? "E") ||
         (lookahead =? "e") then ADVANCE 105 else
      if (("0" <=? lookahead) && (lookahead <=? "9")) ||
         (("B" <=? lookahead) && (lookahead <=? "Z")) ||
         (lookahead =? "_") ||
         (("b" <=? lookahead) && (lookahead <=? "z")) then ADVANCE 128 else
      END_STATE)
  | 23 =>
      ACCEPT_TOKEN sym_identifier (
      if (lookahead =? "A") ||
         (lookahead =? "a") then ADVANCE 64 else
      if (("0" <=? lookahead) && (lookahead <=? "9")) ||
         (("B" <=? lookahead) && (lookahead <=? "Z")) ||
         (lookahead =? "_") ||
         (("b" <=? lookahead) && (lookahead <=? "z")) then ADVANCE 128 else
      END_STATE)
  | 24 =>
      ACCEPT_TOKEN sym_identifier (
      if (lookahead =? "A") ||
         (lookahead =? "a") then ADVANCE 57 else
      if (("0" <=? lookahead) && (lookahead <=? "9")) ||
         (("B" <=? lookahead) && (lookahead <=? "Z")) ||
         (lookahead =? "_") ||
         (("b" <=? lookahead) && (lookahead <=? "z")) then ADVANCE 128 else
      END_STATE)
  | 25 =>
      ACCEPT_TOKEN sym_identifier (
      if (lookahead =? "A") ||
         (lookahead =? "a") then ADVANCE 75 else
      if (lookahead =? "O") ||
         (lookahead =? "o") then ADVANCE 73 else
      if (("0" <=? lookahead) && (lookahead <=? "9")) ||
         (("B" <=? lookahead) && (lookahead <=? "Z")) ||
         (lookahead =? "_") ||
         (("b" <=? lookahead) && (lookahead <=? "z")) then ADVANCE 128 else
      END_STATE)
  | 26 =>
      ACCEPT_TOKEN sym_identifier (
      if (lookahead =? "A") ||
         (lookahead =? "a") then ADVANCE 117 else
      if (("0" <=? lookahead) && (lookahead <=? "9")) ||
         (("B" <=? lookahead) && (lookahead <=? "Z")) ||
         (lookahead =? "_") ||
         (("b" <=? lookahead) && (lookahead <=? "z")) then ADVANCE 128 else
      END_STATE)
  | 27 =>
      ACCEPT_TOKEN sym_identifier (
      if (lookahead =? "B") ||
         (lookahead =? "b") then ADVANCE 23 else
      if (("0" <=? lookahead) && (lookahead <=? "9")) ||
         (("A" <=? lookahead) && (lookahead <=? "Z")) ||
         (lookahead =? "_") ||
         (("a" <=? lookahead) && (lookahead <=? "z")) then ADVANCE 128 else
      END_STATE)
  | 28 =>
      ACCEPT_TOKEN sym_identifier (
      if (lookahead =? "C") ||
         (lookahead =? "c") then ADVANCE 23 else
      if (("0" <=? lookahead) && (lookahead <=? "9")) ||
         (("A" <=? lookahead) && (lookahead <=? "Z")) ||
         (lookahead =? "_") ||
         (("a" <=? lookahead) && (lookahead <=? "z")) then ADVANCE 128 else
      END_STATE)
  | 29 =>
      ACCEPT_TOKEN sym_identifier (
      if (lookahead =? "C") ||
         (lookahead =? "c") then ADVANCE 100 else
      if (lookahead =? "E") ||
         (lookahead =? "e") then ADVANCE 114 else
      if (("0" <=? lookahead) && (lookahead <=? "9")) ||
         (("A" <=? lookahead) && (lookahead <=? "Z")) ||
         (lookahead =? "_") ||
         (("a" <=? lookahead) && (lookahead <=? "z")) then ADVANCE 128 else
      END_STATE)
  | 30 =>
      ACCEPT_TOKEN sym_identifier (
      if (lookahead =? "C") ||
         (lookahead =? "c") then ADVANCE 26 else
      if (("0" <=? lookahead) && (lookahead <=? "9")) ||
         (("A" <=? lookahead) && (lookahead <=? "Z")) ||
         (lookahead =? "_") ||
         (("a" <=? lookahead) && (lookahead <=? "z")) then ADVANCE 128 else
      END_STATE)
  | 31 =>
      ACCEPT_TOKEN sym_identifier (
      if (lookahead =? "C") ||
         (lookahead =? "c") then ADVANCE 104 else
      if (("0" <=? lookahead) && (lookahead <=? "9")) ||
         (("A" <=? lookahead) && (lookahead <=? "Z")) ||
         (lookahead =? "_") ||
         (("a" <=? lookahead) && (lookahead <=? "z")) then ADVANCE 128 else
      END_STATE)
  | 32 =>
      ACCEPT_TOKEN sym_identifier (
      if (lookahead =? "D") ||
         (lookahead =? "d") then ADVANCE 34 else
      if (lookahead =? "N") ||
         (lookahead =? "n") then ADVANCE 33 else
      if (lookahead =? "P") ||
         (lookahead =? "p") then ADVANCE 94 else
      if (("0" <=? lookahead) && (lookahead <=? "9")) ||
         (("A" <=? lookahead) && (lookahead <=? "Z")) ||
         (lookahead =? "_") ||
         (("a" <=? lookahead) && (lookahead <=? "z")) then ADVANCE 128 else
      END_STATE)
  | 33 =>
      ACCEPT_TOKEN sym_identifier (
      if (lookahead =? "D") ||
         (lookahead =? "d") then ADVANCE 13 else
      if (("0" <=? lookahead) && (lookahead <=? "9")) ||
         (("A" <=? lookahead) && (lookahead <=? "Z")) ||
         (lookahead =? "_") ||
         (("a" <=? lookahead) && (lookahead <=? "z")) then ADVANCE 128 else
      END_STATE)
  | 34 =>
      ACCEPT_TOKEN sym_identifier (
      if (lookahead =? "D") ||
         (lookahead =? "d") then ADVANCE 62 else
      if (("0" <=? lookahead) && (lookahead <=? "9")) ||
         (("A" <=? lookahead) && (lookahead <=? "Z")) ||
         (lookahead =? "_") ||
         (("a" <=? lookahead) && (lookahead <=? "z")) then ADVANCE 128 else
      END_STATE)
  | 35 =>
      ACCEPT_TOKEN sym_identifier (
      if (lookahead =? "D") ||
         (lookahead =? "d") then ADVANCE 46 else
      if (("0" <=? lookahead) && (lookahead <=? "9")) ||
         (("A" <=? lookahead) && (lookahead <=? "Z")) ||
         (lookahead =? "_") ||
         (("a" <=? lookahead) && (lookahead <=? "z")) then ADVANCE 128 else
      END_STATE)
  | 36 =>
      ACCEPT_TOKEN sym_identifier (
      if (lookahead =? "E") ||
         (lookahead =? "e") then ADVANCE 13 else
      if (lookahead =? "I") ||
         (lookahead =? "i") then ADVANCE 109 else
      if (lookahead =? "O") ||
         (lookahead =? "o") then ADVANCE 33 else
      if (("0" <=? lookahead) && (lookahead <=? "9")) ||
         (("A" <=? lookahead) && (lookahead <=? "Z")) ||
         (lookahead =? "_") ||
         (("a" <=? lookahead) && (lookahead <=? "z")) then ADVANCE 128 else
      END_STATE)
  | 37 =>
      ACCEPT_TOKEN sym_identifier (
      if (lookahead =? "E") ||
         (lookahead =? "e") then ADVANCE 13 else
      if (("0" <=? lookahead) && (lookahead <=? "9")) ||
         (("A" <=? lookahead) && (lookahead <=? "Z")) ||
         (lookahead =? "_") ||
         (("a" <=? lookahead) && (lookahead <=? "z")) then ADVANCE 128 else
      END_STATE)
  | 38 =>
      ACCEPT_TOKEN sym_identifier (
      if (lookahead =? "E") ||
         (lookahead =? "e") then ADVANCE 92 else
      if (("0" <=? lookahead) && (lookahead <=? "9")) ||
         (("A" <=? lookahead) && (lookahead <=? "Z")) ||
         (lookahead =? "_") ||
         (("a" <=? lookahead) && (lookahead <=? "z")) then ADVANCE 128 else
      END_STATE)
  | 39 =>
      ACCEPT_TOKEN sym_identifier (
      if (lookahead =? "E") ||
         (lookahead =? "e") then ADVANCE 125 else
      if (("0" <=? lookahead) && (lookahead <=? "9")) ||
         (("A" <=? lookahead) && (lookahead <=? "Z")) ||
         (lookahead =? "_") ||
         (("a" <=? lookahead) && (lookahead <=? "z")) then ADVANCE 128 else
      END_STATE)
  | 40 =>
      ACCEPT_TOKEN sym_identifier (
      ADVANCE_MAP lookahead [
        entry "E" 72;
        entry "e" 72;
        entry "H" 41;
        entry "h" 41;
        entry "I" 74;
        entry "i" 74;
        entry "O" 13;
        entry "o" 13;
        entry "R" 120;
        entry "r" 120
      ] (
      if (("0" <=? lookahead) && (lookahead <=? "9")) ||
         (("A" <=? lookahead) && (lookahead <=? "Z")) ||
         (lookahead =? "_") ||
         (("a" <=? lookahead) && (lookahead <=? "z")) then ADVANCE 128 else
      END_STATE))
  | 41 =>
      ACCEPT_TOKEN sym_identifier (
      if (lookahead =? "E") ||
         (lookahead =? "e") then ADVANCE 76 else
      if (("0" <=? lookahead) && (lookahead <=? "9")) ||
         (("A" <=? lookahead) && (lookahead <=? "Z")) ||
         (lookahead =? "_") ||
         (("a" <=? lookahead) && (lookahead <=? "z")) then ADVANCE 128 else
      END_STATE)
  | 42 =>
      ACCEPT_TOKEN sym_identifier (
      if (lookahead =? "E") ||
         (lookahead =? "e") then ADVANCE 20 else
      if (("0" <=? lookahead) && (lookahead <=? "9")) ||
         (("A" <=? lookahead) && (lookahead <=? "Z")) ||
         (lookahead =? "_") ||
         (("a" <=? lookahead) && (lookahead <=? "z")) then ADVANCE 128 else
      END_STATE)
  | 43 =>
      ACCEPT_TOKEN sym_identifier (
      if (lookahead =? "E") ||
         (lookahead =? "e") then ADVANCE 106 else
      if (("0" <=? lookahead) && (lookahead <=? "9")) ||
         (("A" <=? lookahead) && (lookahead <=? "Z")) ||
         (lookahead =? "_") ||
         (("a" <=? lookahead) && (lookahead <=? "z")) then ADVANCE 128 else
      END_STATE)
  | 44 =>
      ACCEPT_TOKEN sym_identifier (
      if (lookahead =? "E") ||
         (lookahead =? "e") then ADVANCE 107 else
      if (lookahead =? "I") ||
         (lookahead =? "i") then ADVANCE 30 else
      if (("0" <=? lookahead) && (lookahead <=? "9")) ||
         (("A" <=? lookahead) && (lookahead <=? "Z")) ||
         (lookahead =? "_") ||
         (("a" <=? lookahead) && (lookahead <=? "z")) then ADVANCE 128 else
      END_STATE)
  | 45 =>
      ACCEPT_TOKEN sym_identifier (
      if (lookahead =? "E") ||
         (lookahead =? "e") then ADVANCE 102 else
      if (("0" <=? lookahead) && (lookahead <=? "9")) ||
         (("A" <=? lookahead) && (lookahead <=? "Z")) ||
         (lookahead =? "_") ||
         (("a" <=? lookahead) && (lookahead <=? "z")) then ADVANCE 128 else
      END_STATE)
  | 46 =>
      ACCEPT_TOKEN sym_identifier (
      if (lookahead =? "E") ||
         (lookahead =? "e") then ADVANCE 103 else
      if (("0" <=? lookahead) && (lookahead <=? "9")) ||
         (("A" <=? lookahead) && (lookahead <=? "Z")) ||
         (lookahead =? "_") ||
         (("a" <=? lookahead) && (lookahead <=? "z")) then ADVANCE 128 else
      END_STATE)
  | 47 =>
      ACCEPT_TOKEN sym_identifier (
      if (lookahead =? "G") ||
         (lookahead =? "g") then ADVANCE 13 else
      if (("0" <=? lookahead) && (lookahead <=? "9")) ||
         (("A" <=? lookahead) && (lookahead <=? "Z")) ||
         (lookahead =? "_") ||
         (("a" <=? lookahead) && (lookahead <=? "z")) then ADVANCE 128 else
      END_STATE)
  | 48 =>
      ACCEPT_TOKEN sym_identifier (
      ADVANCE_MAP lookahead [
        entry "G" 81;
        entry "g" 81;
        entry "F" 13;
        entry "N" 13;
        entry "S" 13;
        entry "T" 13;
        entry "f" 13;
        entry "n" 13;
        entry "s" 13;
        entry "t" 13
      ] (
      if (("0" <=? lookahead) && (lookahead <=? "9")) ||
         (("A" <=? lookahead) && (lookahead <=? "Z")) ||
         (lookahead =? "_") ||
         (("a" <=? lookahead) && (lookahead <=? "z")) then ADVANCE 128 else
      END_STATE))
  | 49 =>
      ACCEPT_TOKEN sym_identifier (
      if (lookahead =? "H") ||
         (lookahead =? "h") then ADVANCE 13 else
      if (("0" <=? lookahead) && (lookahead <=? "9")) ||
         (("A" <=? lookahead) && (lookahead <=? "Z")) ||
         (lookahead =? "_") ||
         (("a" <=? lookahead) && (lookahead <=? "z")) then ADVANCE 128 else
      END_STATE)
  | 50 =>
      ACCEPT_TOKEN sym_identifier (
      if (lookahead =? "H") ||
         (lookahead =? "h") then ADVANCE 59 else
      if (lookahead =? "I") ||
         (lookahead =? "i") then ADVANCE 115 else
      if (("0" <=? lookahead) && (lookahead <=? "9")) ||
         (("A" <=? lookahead) && (lookahead <=? "Z")) ||
         (lookahead =? "_") ||
         (("a" <=? lookahead) && (lookahead <=? "z")) then ADVANCE 128 else
      END_STATE)
  | 51 =>
      ACCEPT_TOKEN sym_identifier (
      if (lookahead =? "I") ||
         (lookahead =? "i") then ADVANCE 124 else
      if (("0" <=? lookahead) && (lookahead <=? "9")) ||
         (("A" <=? lookahead) && (lookahead <=? "Z")) ||
         (lookahead =? "_") ||
         (("a" <=? lookahead) && (lookahead <=? "z")) then ADVANCE 128 else
      END_STATE)
  | 52 =>
      ACCEPT_TOKEN sym_identifier (
      if (lookahead =? "I") ||
         (lookahead =? "i") then ADVANCE 114 else
      if (("0" <=? lookahead) && (lookahead <=? "9")) ||
         (("A" <=? lookahead) && (lookahead <=? "Z")) ||
         (lookahead =? "_") ||
         (("a" <=? lookahead) && (lookahead <=? "z")) then ADVANCE 128 else
      END_STATE)
  | 53 =>
      ACCEPT_TOKEN sym_identifier (
      if (lookahead =? "I") ||
         (lookahead =? "i") then ADVANCE 35 else
      if (("0" <=? lookahead) && (lookahead <=? "9")) ||
         (("A" <=? lookahead) && (lookahead <=? "Z")) ||
         (lookahead =? "_") ||
         (("a" <=? lookahead) && (lookahead <=? "z")) then ADVANCE 128 else
      END_STATE)
  | 54 =>
      ACCEPT_TOKEN sym_identifier (
      if (lookahead =? "I") ||
         (lookahead =? "i") then ADVANCE 93 else
      if (("0" <=? lookahead) && (lookahead <=? "9")) ||
         (("A" <=? lookahead) && (lookahead <=? "Z")) ||
         (lookahead =? "_") ||
         (("a" <=? lookahead) && (lookahead <=? "z")) then ADVANCE 128 else
      END_STATE)
  | 55 =>
      ACCEPT_TOKEN sym_identifier (
      if (lookahead =? "I") ||
         (lookahead =? "i") then ADVANCE 91 else
      if (("0" <=? lookahead) && (lookahead <=? "9")) ||
         (("A" <=? lookahead) && (lookahead <=? "Z")) ||
         (lookahead =? "_") ||
         (("a" <=? lookahead) && (lookahead <=? "z")) then ADVANCE 128 else
      END_STATE)
  | 56 =>
      ACCEPT_TOKEN sym_identifier (
      if (lookahead =? "I") ||
         (lookahead =? "i") then ADVANCE 78 else
      if (("0" <=? lookahead) && (lookahead <=? "9")) ||
         (("A" <=? lookahead) && (lookahead <=? "Z")) ||
         (lookahead =? "_") ||
         (("a" <=? lookahead) && (lookahead <=? "z")) then ADVANCE 128 else
      END_STATE)
  | 57 =>
      ACCEPT_TOKEN sym_identifier (
      if (lookahead =? "I") ||
         (lookahead =? "i") then ADVANCE 80 else
      if (("0" <=? lookahead) && (lookahead <=? "9")) ||
         (("A" <=? lookahead) && (lookahead <=? "Z")) ||
         (lookahead =? "_") ||
         (("a" <=? lookahead) && (lookahead <=? "z")) then ADVANCE 128 else
      END_STATE)
  | 58 =>
      ACCEPT_TOKEN sym_identifier (
      if (lookahead =? "I") ||
         (lookahead =? "i") then ADVANCE 64 else
      if (("0" <=? lookahead) && (lookahead <=? "9")) ||
         (("A" <=? lookahead) && (lookahead <=? "Z")) ||
         (lookahead =? "_") ||
         (("a" <=? lookahead) && (lookahead <=? "z")) then ADVANCE 128 else
      END_STATE)
  | 59 =>
      ACCEPT_TOKEN sym_identifier (
      if (lookahead =? "I") ||
         (lookahead =? "i") then ADVANCE 70 else
      if (("0" <=? lookahead) && (lookahead <=? "9")) ||
         (("A" <=? lookahead) && (lookahead <=? "Z")) ||
         (lookahead =? "_") ||
         (("a" <=? lookahead) && (lookahead <=? "z")) then ADVANCE 128 else
      END_STATE)
  | 60 =>
      ACCEPT_TOKEN sym_identifier (
      if (lookahead =? "I") ||
         (lookahead =? "i") then ADVANCE 86 else
      if (("0" <=? lookahead) && (lookahead <=? "9")) ||
         (("A" <=? lookahead) && (lookahead <=? "Z")) ||
         (lookahead =? "_") ||
         (("a" <=? lookahead) && (lookahead <=? "z")) then ADVANCE 128 else
      END_STATE)
  | 61 =>
      ACCEPT_TOKEN sym_identifier (
      if (lookahead =? "I") ||
         (lookahead =? "i") then ADVANCE 88 else
      if (("0" <=? lookahead) && (lookahead <=? "9")) ||
         (("A" <=? lookahead) && (lookahead <=? "Z")) ||
         (lookahead =? "_") ||
         (("a" <=? lookahead) && (lookahead <=? "z")) then ADVANCE 128 else
      END_STATE)
  | 62 =>
      ACCEPT_TOKEN sym_identifier (
      if (lookahead =? "I") ||
         (lookahead =? "i") then ADVANCE 118 else
      if (("0" <=? lookahead) && (lookahead <=? "9")) ||
         (("A" <=? lookahead) && (lookahead <=? "Z")) ||
         (lookahead =? "_") ||
         (("a" <=? lookahead) && (lookahead <=? "z")) then ADVANCE 128 else
      END_STATE)
  | 63 =>
      ACCEPT_TOKEN sym_identifier (
      if (lookahead =? "K") ||
         (lookahead =? "k") then ADVANCE 13 else
      if (("0" <=? lookahead) && (lookahead <=? "9")) ||
         (("A" <=? lookahead) && (lookahead <=? "Z")) ||
         (lookahead =? "_") ||
         (("a" <=? lookahead) && (lookahead <=? "z")) then ADVANCE 128 else
      END_STATE)
  | 64 =>
      ACCEPT_TOKEN sym_identifier (
      if (lookahead =? "L") ||
         (lookahead =? "l") then ADVANCE 13 else
      if (("0" <=? lookahead) && (lookahead <=? "9")) ||
         (("A" <=? lookahead) && (lookahead <=? "Z")) ||
         (lookahead =? "_") ||
         (("a" <=? lookahead) && (lookahead <=? "z")) then ADVANCE 128 else
      END_STATE)
  | 65 =>
      ACCEPT_TOKEN sym_identifier (
      ADVANCE_MAP lookahead [
        entry "L" 108;
        entry "l" 108;
        entry "N" 33;
        entry "n" 33;
        entry "R" 101;
        entry "r" 101;
        entry "X" 52;
        entry "x" 52
      ] (
      if (("0" <=? lookahead) && (lookahead <=? "9")) ||
         (("A" <=? lookahead) && (lookahead <=? "Z")) ||
         (lookahead =? "_") ||
         (("a" <=? lookahead) && (lookahead <=? "z")) then ADVANCE 128 else
      END_STATE))
  | 66 =>
      ACCEPT_TOKEN sym_identifier (
      if (lookahead =? "L") ||
         (lookahead =? "l") then ADVANCE 108 else
      if (("0" <=? lookahead) && (lookahead <=? "9")) ||
         (("A" <=? lookahead) && (lookahead <=? "Z")) ||
         (lookahead =? "_") ||
         (("a" <=? lookahead) && (lookahead <=? "z")) then ADVANCE 128 else
      END_STATE)
  | 67 =>
      ACCEPT_TOKEN sym_identifier (
      if (lookahead =? "L") ||
         (lookahead =? "l") then ADVANCE 114 else
      if (("0" <=? lookahead) && (lookahead <=? "9")) ||
         (("A" <=? lookahead) && (lookahead <=? "Z")) ||
         (lookahead =? "_") ||
         (("a" <=? lookahead) && (lookahead <=? "z")) then ADVANCE 128 else
      END_STATE)
  | 68 =>
      ACCEPT_TOKEN sym_identifier (
      if (lookahead =? "L") ||
         (lookahead =? "l") then ADVANCE 44 else
      if (("0" <=? lookahead) && (lookahead <=? "9")) ||
         (("A" <=? lookahead) && (lookahead <=? "Z")) ||
         (lookahead =? "_") ||
         (("a" <=? lookahead) && (lookahead <=? "z")) then ADVANCE 128 else
      END_STATE)
  | 69 =>
      ACCEPT_TOKEN sym_identifier (
      if (lookahead =? "L") ||
         (lookahead =? "l") then ADVANCE 84 else
      if (("0" <=? lookahead) && (lookahead <=? "9")) ||
         (("A" <=? lookahead) && (lookahead <=? "Z")) ||
         (lookahead =? "_") ||
         (("a" <=? lookahead) && (lookahead <=? "z")) then ADVANCE 128 else
      END_STATE)
  | 70 =>
      ACCEPT_TOKEN sym_identifier (
      if (lookahead =? "L") ||
         (lookahead =? "l") then ADVANCE 37 else
      if (("0" <=? lookahead) && (lookahead <=? "9")) ||
         (("A" <=? lookahead) && (lookahead <=? "Z")) ||
         (lookahead =? "_") ||
         (("a" <=? lookahead) && (lookahead <=? "z")) then ADVANCE 128 else
      END_STATE)
  | 71 =>
      ACCEPT_TOKEN sym_identifier (
      if (lookahead =? "L") ||
         (lookahead =? "l") then ADVANCE 121 else
      if (("0" <=? lookahead) && (lookahead <=? "9")) ||
         (("A" <=? lookahead) && (lookahead <=? "Z")) ||
         (lookahead =? "_") ||
         (("a" <=? lookahead) && (lookahead <=? "z")) then ADVANCE 128 else
      END_STATE)
  | 72 =>
      ACCEPT_TOKEN sym_identifier (
      if (lookahead =? "L") ||
         (lookahead =? "l") then ADVANCE 64 else
      if (("0" <=? lookahead) && (lookahead <=? "9")) ||
         (("A" <=? lookahead) && (lookahead <=? "Z")) ||
         (lookahead =? "_") ||
         (("a" <=? lookahead) && (lookahead <=? "z")) then ADVANCE 128 else
      END_STATE)
  | 73 =>
      ACCEPT_TOKEN sym_identifier (
      if (lookahead =? "M") ||
         (lookahead =? "m") then ADVANCE 13 else
      if (("0" <=? lookahead) && (lookahead <=? "9")) ||
         (("A" <=? lookahead) && (lookahead <=? "Z")) ||
         (lookahead =? "_") ||
         (("a" <=? lookahead) && (lookahead <=? "z")) then ADVANCE 128 else
      END_STATE)
  | 74 =>
      ACCEPT_TOKEN sym_identifier (
      if (lookahead =? "M") ||
         (lookahead =? "m") then ADVANCE 43 else
      if (("0" <=? lookahead) && (lookahead <=? "9")) ||
         (("A" <=? lookahead) && (lookahead <=? "Z")) ||
         (lookahead =? "_") ||
         (("a" <=? lookahead) && (lookahead <=? "z")) then ADVANCE 128 else
      END_STATE)
  | 75 =>
      ACCEPT_TOKEN sym_identifier (
      if (lookahead =? "M") ||
         (lookahead =? "m") then ADVANCE 39 else
      if (("0" <=? lookahead) && (lookahead <=? "9")) ||
         (("A" <=? lookahead) && (lookahead <=? "Z")) ||
         (lookahead =? "_") ||
         (("a" <=? lookahead) && (lookahead <=? "z")) then ADVANCE 128 else
      END_STATE)
  | 76 =>
      ACCEPT_TOKEN sym_identifier (
      if (lookahead =? "N") ||
         (lookahead =? "n") then ADVANCE 13 else
      if (("0" <=? lookahead) && (lookahead <=? "9")) ||
         (("A" <=? lookahead) && (lookahead <=? "Z")) ||
         (lookahead =? "_") ||
         (("a" <=? lookahead) && (lookahead <=? "z")) then ADVANCE 128 else
      END_STATE)
  | 77 =>
      ACCEPT_TOKEN sym_identifier (
      if (lookahead =? "N") ||
         (lookahead =? "n") then ADVANCE 110 else
      if (("0" <=? lookahead) && (lookahead <=? "9")) ||
         (("A" <=? lookahead) && (lookahead <=? "Z")) ||
         (lookahead =? "_") ||
         (("a" <=? lookahead) && (lookahead <=? "z")) then ADVANCE 128 else
      END_STATE)
  | 78 =>
      ACCEPT_TOKEN sym_identifier (
      if (lookahead =? "N") ||
         (lookahead =? "n") then ADVANCE 47 else
      if (("0" <=? lookahead) && (lookahead <=? "9")) ||
         (("A" <=? lookahead) && (lookahead <=? "Z")) ||
         (lookahead =? "_") ||
         (("a" <=? lookahead) && (lookahead <=? "z")) then ADVANCE 128 else
      END_STATE)
  | 79 =>
      ACCEPT_TOKEN sym_identifier (
      if (lookahead =? "N") ||
         (lookahead =? "n") then ADVANCE 119 else
      if (lookahead =? "S") ||
         (lookahead =? "s") then ADVANCE 37 else
      if (("0" <=? lookahead) && (lookahead <=? "9")) ||
         (("A" <=? lookahead) && (lookahead <=? "Z")) ||
         (lookahead =? "_") ||
         (("a" <=? lookahead) && (lookahead <=? "z")) then ADVANCE 128 else
      END_STATE)
  | 80 =>
      ACCEPT_TOKEN sym_identifier (
      if (lookahead =? "N") ||
         (lookahead =? "n") then ADVANCE 106 else
      if (("0" <=? lookahead) && (lookahead <=? "9")) ||
         (("A" <=? lookahead) && (lookahead <=? "Z")) ||
         (lookahead =? "_") ||
         (("a" <=? lookahead) && (lookahead <=? "z")) then ADVANCE 128 else
      END_STATE)
  | 81 =>
      ACCEPT_TOKEN sym_identifier (
      if (lookahead =? "N") ||
         (lookahead =? "n") then ADVANCE 90 else
      if (("0" <=? lookahead) && (lookahead <=? "9")) ||
         (("A" <=? lookahead) && (lookahead <=? "Z")) ||
         (lookahead =? "_") ||
         (("a" <=? lookahead) && (lookahead <=? "z")) then ADVANCE 128 else
      END_STATE)
  | 82 =>
      ACCEPT_TOKEN sym_identifier (
      if (lookahead =? "O") ||
         (lookahead =? "o") then ADVANCE 28 else
      if (("0" <=? lookahead) && (lookahead <=? "9")) ||
         (("A" <=? lookahead) && (lookahead <=? "Z")) ||
         (lookahead =? "_") ||
         (("a" <=? lookahead) && (lookahead <=? "z")) then ADVANCE 128 else
      END_STATE)
  | 83 =>
      ACCEPT_TOKEN sym_identifier (
      if (lookahead =? "O") ||
         (lookahead =? "o") then ADVANCE 114 else
      if (("0" <=? lookahead) && (lookahead <=? "9")) ||
         (("A" <=? lookahead) && (lookahead <=? "Z")) ||
         (lookahead =? "_") ||
         (("a" <=? lookahead) && (lookahead <=? "z")) then ADVANCE 128 else
      END_STATE)
  | 84 =>
      ACCEPT_TOKEN sym_identifier (
      if (lookahead =? "O") ||
         (lookahead =? "o") then ADVANCE 27 else
      if (("0" <=? lookahead) && (lookahead <=? "9")) ||
         (("A" <=? lookahead) && (lookahead <=? "Z")) ||
         (lookahead =? "_") ||
         (("a" <=? lookahead) && (lookahead <=? "z")) then ADVANCE 128 else
      END_STATE)
  | 85 =>
      ACCEPT_TOKEN sym_identifier (
      if (lookahead =? "O") ||
         (lookahead =? "o") then ADVANCE 95 else
      if (("0" <=? lookahead) && (lookahead <=? "9")) ||
         (("A" <=? lookahead) && (lookahead <=? "Z")) ||
         (lookahead =? "_") ||
         (("a" <=? lookahead) && (lookahead <=? "z")) then ADVANCE 128 else
      END_STATE)
  | 86 =>
      ACCEPT_TOKEN sym_identifier (
      if (lookahead =? "O") ||
         (lookahead =? "o") then ADVANCE 76 else
      if (("0" <=? lookahead) && (lookahead <=? "9")) ||
         (("A" <=? lookahead) && (lookahead <=? "Z")) ||
         (lookahead =? "_") ||
         (("a" <=? lookahead) && (lookahead <=? "z")) then ADVANCE 128 else
      END_STATE)
  | 87 =>
      ACCEPT_TOKEN sym_identifier (
      if (lookahead =? "O") ||
         (lookahead =? "o") then ADVANCE 96 else
      if (("0" <=? lookahead) && (lookahead <=? "9")) ||
         (("A" <=? lookahead) && (lookahead <=? "Z")) ||
         (lookahead =? "_") ||
         (("a" <=? lookahead) && (lookahead <=? "z")) then ADVANCE 128 else
      END_STATE)
  | 88 =>
      ACCEPT_TOKEN sym_identifier (
      if (lookahead =? "O") ||
         (lookahead =? "o") then ADVANCE 80 else
      if (("0" <=? lookahead) && (lookahead <=? "9")) ||
         (("A" <=? lookahead) && (lookahead <=? "Z")) ||
         (lookahead =? "_") ||
         (("a" <=? lookahead) && (lookahead <=? "z")) then ADVANCE 128 else
      END_STATE)
  | 89 =>
      ACCEPT_TOKEN sym_identifier (
      if (lookahead =? "O") ||
         (lookahead =? "o") then ADVANCE 97 else
      if (("0" <=? lookahead) && (lookahead <=? "9")) ||
         (("A" <=? lookahead) && (lookahead <=? "Z")) ||
         (lookahead =? "_") ||
         (("a" <=? lookahead) && (lookahead <=? "z")) then ADVANCE 128 else
      END_STATE)
  | 90 =>
      ACCEPT_TOKEN sym_identifier (
      if (lookahead =? "O") ||
         (lookahead =? "o") then ADVANCE 103 else
      if (("0" <=? lookahead) && (lookahead <=? "9")) ||
         (("A" <=? lookahead) && (lookahead <=? "Z")) ||
         (lookahead =? "_") ||
         (("a" <=? lookahead) && (lookahead <=? "z")) then ADVANCE 128 else
      END_STATE)
  | 91 =>
      ACCEPT_TOKEN sym_identifier (
      if (lookahead =? "P") ||
         (lookahead =? "p") then ADVANCE 114 else
      if (("0" <=? lookahead) && (lookahead <=? "9")) ||
         (("A" <=? lookahead) && (lookahead <=? "Z")) ||
         (lookahead =? "_") ||
         (("a" <=? lookahead) && (lookahead <=? "z")) then ADVANCE 128 else
      END_STATE)
  | 92 =>
      ACCEPT_TOKEN sym_identifier (
      if (lookahead =? "P") ||
         (lookahead =? "p") then ADVANCE 42 else
      if (lookahead =? "S") ||
         (lookahead =? "s") then ADVANCE 123 else
      if (lookahead =? "T") ||
         (lookahead =? "t") then ADVANCE 122 else
      if (("0" <=? lookahead) && (lookahead <=? "9")) ||
         (("A" <=? lookahead) && (lookahead <=? "Z")) ||
         (lookahead =? "_") ||
         (("a" <=? lookahead) && (lookahead <=? "z")) then ADVANCE 128 else
      END_STATE)
  | 93 =>
      ACCEPT_TOKEN sym_identifier (
      if (lookahead =? "P") ||
         (lookahead =? "p") then ADVANCE 116 else
      if (("0" <=? lookahead) && (lookahead <=? "9")) ||
         (("A" <=? lookahead) && (lookahead <=? "Z")) ||
         (lookahead =? "_") ||
         (("a" <=? lookahead) && (lookahead <=? "z")) then ADVANCE 128 else
      END_STATE)
  | 94 =>
      ACCEPT_TOKEN sym_identifier (
      if (lookahead =? "P") ||
         (lookahead =? "p") then ADVANCE 68 else
      if (("0" <=? lookahead) && (lookahead <=? "9")) ||
         (("A" <=? lookahead) && (lookahead <=? "Z")) ||
         (lookahead =? "_") ||
         (("a" <=? lookahead) && (lookahead <=? "z")) then ADVANCE 128 else
      END_STATE)
  | 95 =>
      ACCEPT_TOKEN sym_identifier (
      if (lookahead =? "P") ||
         (lookahead =? "p") then ADVANCE 45 else
      if (("0" <=? lookahead) && (lookahead <=? "9")) ||
         (("A" <=? lookahead) && (lookahead <=? "Z")) ||
         (lookahead =? "_") ||
         (("a" <=? lookahead) && (lookahead <=? "z")) then ADVANCE 128 else
      END_STATE)
  | 96 =>
      ACCEPT_TOKEN sym_identifier (
      if (lookahead =? "R") ||
         (lookahead =? "r") then ADVANCE 13 else
      if (("0" <=? lookahead) && (lookahead <=? "9")) ||
         (("A" <=? lookahead) && (lookahead <=? "Z")) ||
         (lookahead =? "_") ||
         (("a" <=? lookahead) && (lookahead <=? "z")) then ADVANCE 128 else
      END_STATE)
  | 97 =>
      ACCEPT_TOKEN sym_identifier (
      if (lookahead =? "R") ||
         (lookahead =? "r") then ADVANCE 63 else
      if (("0" <=? lookahead) && (lookahead <=? "9")) ||
         (("A" <=? lookahead) && (lookahead <=? "Z")) ||
         (lookahead =? "_") ||
         (("a" <=? lookahead) && (lookahead <=? "z")) then ADVANCE 128 else
      END_STATE)
  | 98 =>
      ACCEPT_TOKEN sym_identifier (
      if (lookahead =? "R") ||
         (lookahead =? "r") then ADVANCE 76 else
      if (("0" <=? lookahead) && (lookahead <=? "9")) ||
         (("A" <=? lookahead) && (lookahead <=? "Z")) ||
         (lookahead =? "_") ||
         (("a" <=? lookahead) && (lookahead <=? "z")) then ADVANCE 128 else
      END_STATE)
  | 99 =>
      ACCEPT_TOKEN sym_identifier (
      if (lookahead =? "R") ||
         (lookahead =? "r") then ADVANCE 85 else
      if (("0" <=? lookahead) && (lookahead <=? "9")) ||
         (("A" <=? lookahead) && (lookahead <=? "Z")) ||
         (lookahead =? "_") ||
         (("a" <=? lookahead) && (lookahead <=? "z")) then ADVANCE 128 else
      END_STATE)
  | 100 =>
      ACCEPT_TOKEN sym_identifier (
      if (lookahead =? "R") ||
         (lookahead =? "r") then ADVANCE 54 else
      if (("0" <=? lookahead) && (lookahead <=? "9")) ||
         (("A" <=? lookahead) && (lookahead <=? "Z")) ||
         (lookahead =? "_") ||
         (("a" <=? lookahead) && (lookahead <=? "z")) then ADVANCE 128 else
      END_STATE)
  | 101 =>
      ACCEPT_TOKEN sym_identifier (
      if (lookahead =? "R") ||
         (lookahead =? "r") then ADVANCE 87 else
      if (("0" <=? lookahead) && (lookahead <=? "9")) ||
         (("A" <=? lookahead) && (lookahead <=? "Z")) ||
         (lookahead =? "_") ||
         (("a" <=? lookahead) && (lookahead <=? "z")) then ADVANCE 128 else
      END_STATE)
  | 102 =>
      ACCEPT_TOKEN sym_identifier (
      if (lookahead =? "R") ||
         (lookahead =? "r") then ADVANCE 113 else
      if (("0" <=? lookahead) && (lookahead <=? "9")) ||
         (("A" <=? lookahead) && (lookahead <=? "Z")) ||
         (lookahead =? "_") ||
         (("a" <=? lookahead) && (lookahead <=? "z")) then ADVANCE 128 else
      END_STATE)
  | 103 =>
      ACCEPT_TOKEN sym_identifier (
      if (lookahead =? "R") ||
         (lookahead =? "r") then ADVANCE 56 else
      if (("0" <=? lookahead) && (lookahead <=? "9")) ||
         (("A" <=? lookahead) && (lookahead <=? "Z")) ||
         (lookahead =? "_") ||
         (("a" <=? lookahead) && (lookahead <=? "z")) then ADVANCE 128 else
      END_STATE)
  | 104 =>
      ACCEPT_TOKEN sym_identifier (
      if (lookahead =? "R") ||
         (lookahead =? "r") then ADVANCE 55 else
      if (("0" <=? lookahead) && (lookahead <=? "9")) ||
         (("A" <=? lookahead) && (lookahead <=? "Z")) ||
         (lookahead =? "_") ||
         (("a" <=? lookahead) && (lookahead <=? "z")) then ADVANCE 128 else
      END_STATE)
  | 105 =>
      ACCEPT_TOKEN sym_identifier (
      if (lookahead =? "R") ||
         (lookahead =? "r") then ADVANCE 112 else
      if (("0" <=? lookahead) && (lookahead <=? "9")) ||
         (("A" <=? lookahead) && (lookahead <=? "Z")) ||
         (lookahead =? "_") ||
         (("a" <=? lookahead) && (lookahead <=? "z")) then ADVANCE 128 else
      END_STATE)
  | 106 =>
      ACCEPT_TOKEN sym_identifier (
      if (lookahead =? "S") ||
         (lookahead =? "s") then ADVANCE 13 else
      if (("0" <=? lookahead) && (lookahead <=? "9")) ||
         (("A" <=? lookahead) && (lookahead <=? "Z")) ||
         (lookahead =? "_") ||
         (("a" <=? lookahead) && (lookahead <=? "z")) then ADVANCE 128 else
      END_STATE)
  | 107 =>
      ACCEPT_TOKEN sym_identifier (
      if (lookahead =? "S") ||
         (lookahead =? "s") then ADVANCE 31 else
      if (("0" <=? lookahead) && (lookahead <=? "9")) ||
         (("A" <=? lookahead) && (lookahead <=? "Z")) ||
         (lookahead =? "_") ||
         (("a" <=? lookahead) && (lookahead <=? "z")) then ADVANCE 128 else
      END_STATE)
  | 108 =>
      ACCEPT_TOKEN sym_identifier (
      if (lookahead =? "S") ||
         (lookahead =? "s") then ADVANCE 37 else
      if (("0" <=? lookahead) && (lookahead <=? "9")) ||
         (("A" <=? lookahead) && (lookahead <=? "Z")) ||
         (lookahead =? "_") ||
         (("a" <=? lookahead) && (lookahead <=? "z")) then ADVANCE 128 else
      END_STATE)
  | 109 =>
      ACCEPT_TOKEN sym_identifier (
      if (lookahead =? "S") ||
         (lookahead =? "s") then ADVANCE 111 else
      if (("0" <=? lookahead) && (lookahead <=? "9")) ||
         (("A" <=? lookahead) && (lookahead <=? "Z")) ||
         (lookahead =? "_") ||
         (("a" <=? lookahead) && (lookahead <=? "z")) then ADVANCE 128 else
      END_STATE)
  | 110 =>
      ACCEPT_TOKEN sym_identifier (
      if (lookahead =? "S") ||
         (lookahead =? "s") then ADVANCE 53 else
      if (lookahead =? "T") ||
         (lookahead =? "t") then ADVANCE 24 else
      if (("0" <=? lookahead) && (lookahead <=? "9")) ||
         (("A" <=? lookahead) && (lookahead <=? "Z")) ||
         (lookahead =? "_") ||
         (("a" <=? lookahead) && (lookahead <=? "z")) then ADVANCE 128 else
      END_STATE)
  | 111 =>
      ACCEPT_TOKEN sym_identifier (
      if (lookahead =? "S") ||
         (lookahead =? "s") then ADVANCE 56 else
      if (("0" <=? lookahead) && (lookahead <=? "9")) ||
         (("A" <=? lookahead) && (lookahead <=? "Z")) ||
         (lookahead =? "_") ||
         (("a" <=? lookahead) && (lookahead <=? "z")) then ADVANCE 128 else
      END_STATE)
  | 112 =>
      ACCEPT_TOKEN sym_identifier (
      if (lookahead =? "S") ||
         (lookahead =? "s") then ADVANCE 60 else
      if (("0" <=? lookahead) && (lookahead <=? "9")) ||
         (("A" <=? lookahead) && (lookahead <=? "Z")) ||
         (lookahead =? "_") ||
         (("a" <=? lookahead) && (lookahead <=? "z")) then ADVANCE 128 else
      END_STATE)
  | 113 =>
      ACCEPT_TOKEN sym_identifier (
      if (lookahead =? "T") ||
         (lookahead =? "t") then ADVANCE 126 else
      if (("0" <=? lookahead) && (lookahead <=? "9")) ||
         (("A" <=? lookahead) && (lookahead <=? "Z")) ||
         (lookahead =? "_") ||
         (("a" <=? lookahead) && (lookahead <=? "z")) then ADVANCE 128 else
      END_STATE)
  | 114 =>
      ACCEPT_TOKEN sym_identifier (
      if (lookahead =? "T") ||
         (lookahead =? "t") then ADVANCE 13 else
      if (("0" <=? lookahead) && (lookahead <=? "9")) ||
         (("A" <=? lookahead) && (lookahead <=? "Z")) ||
         (lookahead =? "_") ||
         (("a" <=? lookahead) && (lookahead <=? "z")) then ADVANCE 128 else
      END_STATE)
  | 115 =>
      ACCEPT_TOKEN sym_identifier (
      if (lookahead =? "T") ||
         (lookahead =? "t") then ADVANCE 49 else
      if (("0" <=? lookahead) && (lookahead <=? "9")) ||
         (("A" <=? lookahead) && (lookahead <=? "Z")) ||
         (lookahead =? "_") ||
         (("a" <=? lookahead) && (lookahead <=? "z")) then ADVANCE 128 else
      END_STATE)
  | 116 =>
      ACCEPT_TOKEN sym_identifier (
      if (lookahead =? "T") ||
         (lookahead =? "t") then ADVANCE 12 else
      if (("0" <=? lookahead) && (lookahead <=? "9")) ||
         (("A" <=? lookahead) && (lookahead <=? "Z")) ||
         (lookahead =? "_") ||
         (("a" <=? lookahead) && (lookahead <=? "z")) then ADVANCE 128 else
      END_STATE)
  | 117 =>
      ACCEPT_TOKEN sym_identifier (
      if (lookahead =? "T") ||
         (lookahead =? "t") then ADVANCE 60 else
      if (("0" <=? lookahead) && (lookahead <=? "9")) ||
         (("A" <=? lookahead) && (lookahead <=? "Z")) ||
         (lookahead =? "_") ||
         (("a" <=? lookahead) && (lookahead <=? "z")) then ADVANCE 128 else
      END_STATE)
  | 118 =>
      ACCEPT_TOKEN sym_identifier (
      if (lookahead =? "T") ||
         (lookahead =? "t") then ADVANCE 61 else
      if (("0" <=? lookahead) && (lookahead <=? "9")) ||
         (("A" <=? lookahead) && (lookahead <=? "Z")) ||
         (lookahead =? "_") ||
         (("a" <=? lookahead) && (lookahead <=? "z")) then ADVANCE 128 else
      END_STATE)
  | 119 =>
      ACCEPT_TOKEN sym_identifier (
      if (lookahead =? "T") ||
         (lookahead =? "t") then ADVANCE 58 else
      if (("0" <=? lookahead) && (lookahead <=? "9")) ||
         (("A" <=? lookahead) && (lookahead <=? "Z")) ||
         (lookahead =? "_") ||
         (("a" <=? lookahead) && (lookahead <=? "z")) then ADVANCE 128 else
      END_STATE)
  | 120 =>
      ACCEPT_TOKEN sym_identifier (
      if (lookahead =? "U") ||
         (lookahead =? "u") then ADVANCE 37 else
      if (lookahead =? "Y") ||
         (lookahead =? "y") then ADVANCE 13 else
      if (("0" <=? lookahead) && (lookahead <=? "9")) ||
         (("A" <=? lookahead) && (lookahead <=? "Z")) ||
         (lookahead =? "_") ||
         (("a" <=? lookahead) && (lookahead <=? "z")) then ADVANCE 128 else
      END_STATE)
  | 121 =>
      ACCEPT_TOKEN sym_identifier (
      if (lookahead =? "U") ||
         (lookahead =? "u") then ADVANCE 37 else
      if (("0" <=? lookahead) && (lookahead <=? "9")) ||
         (("A" <=? lookahead) && (lookahead <=? "Z")) ||
         (lookahead =? "_") ||
         (("a" <=? lookahead) && (lookahead <=? "z")) then ADVANCE 128 else
      END_STATE)
  | 122 =>
      ACCEPT_TOKEN sym_identifier (
      if (lookahead =? "U") ||
         (lookahead =? "u") then ADVANCE 98 else
      if (("0" <=? lookahead) && (lookahead <=? "9")) ||
         (("A" <=? lookahead) && (lookahead <=? "Z")) ||
         (lookahead =? "_") ||
         (("a" <=? lookahead) && (lookahead <=? "z")) then ADVANCE 128 else
      END_STATE)
  | 123 =>
      ACCEPT_TOKEN sym_identifier (
      if (lookahead =? "U") ||
         (lookahead =? "u") then ADVANCE 67 else
      if (("0" <=? lookahead) && (lookahead <=? "9")) ||
         (("A" <=? lookahead) && (lookahead <=? "Z")) ||
         (lookahead =? "_") ||
         (("a" <=? lookahead) && (lookahead <=? "z")) then ADVANCE 128 else
      END_STATE)
  | 124 =>
      ACCEPT_TOKEN sym_identifier (
      if (lookahead =? "V") ||
         (lookahead =? "v") then ADVANCE 13 else
      if (("0" <=? lookahead) && (lookahead <=? "9")) ||
         (("A" <=? lookahead) && (lookahead <=? "Z")) ||
         (lookahead =? "_") ||
         (("a" <=? lookahead) && (lookahead <=? "z")) then ADVANCE 128 else
      END_STATE)
  | 125 =>
      ACCEPT_TOKEN sym_identifier (
      if (lookahead =? "W") ||
         (lookahead =? "w") then ADVANCE 89 else
      if (("0" <=? lookahead) && (lookahead <=? "9")) ||
         (("A" <=? lookahead) && (lookahead <=? "Z")) ||
         (lookahead =? "_") ||
         (("a" <=? lookahead) && (lookahead <=? "z")) then ADVANCE 128 else
      END_STATE)
  | 126 =>
      ACCEPT_TOKEN sym_identifier (
      if (lookahead =? "Y") ||
         (lookahead =? "y") then ADVANCE 13 else
      if (("0" <=? lookahead) && (lookahead <=? "9")) ||
         (("A" <=? lookahead) && (lookahead <=? "Z")) ||
         (lookahead =? "_") ||
         (("a" <=? lookahead) && (lookahead <=? "z")) then ADVANCE 128 else
      END_STATE)
  | 127 =>
      ACCEPT_TOKEN sym_identifier (
      if (lookahead =? "F") ||
         (lookahead =? "N") ||
         (lookahead =? "R") ||
         (lookahead =? "f") ||
         (lookahead =? "n") ||
         (lookahead =? "r") then ADVANCE 13 else
      if (("0" <=? lookahead) && (lookahead <=? "9")) ||
         (("A" <=? lookahead) && (lookahead <=? "Z")) ||
         (lookahead =? "_") ||
         (("a" <=? lookahead) && (lookahead <=? "z")) then ADVANCE 128 else
      END_STATE)
  | 128 =>
      ACCEPT_TOKEN sym_identifier (
      if (("0" <=? lookahead) && (lookahead <=? "9")) ||
         (("A" <=? lookahead) && (lookahead <=? "Z")) ||
         (lookahead =? "_") ||
         (("a" <=? lookahead) && (lookahead <=? "z")) then ADVANCE 128 else
      END_STATE)
  | _ => None
  end.

(** [ts_lex_modes]: every parse state lexes from lexer state 0. *)
Definition ts_lex_modes (parse_state : TSStateId) : TSStateId := 0.

(** ** The lexer object *)

(** Modelled from the spec: the cursor of the scanner.  The type [TSLexer]
    is declared in the missing header [tree_sitter/parser.h]; [ts_lex] uses
    its lookahead character, its end-of-input test, [advance], [mark_end] and
    [result_symbol].  The input still to be read is [chunk]; positions are
    offsets into the source, counted in input units, and only move forward. *)
Record TSLexer : Set := mkLexer {
  chunk : list Z;
  current_position : nat;
  token_start_position : nat;
  token_end_position : nat;
  result_symbol : TSSymbol
}.

(** [lexer->lookahead]: the next character, 0 at the end of the input. *)
Definition lookahead_of (lexer : TSLexer) : Z := hd 0 (chunk lexer).

(** [lexer->eof(lexer)] *)
Definition eof_of (lexer : TSLexer) : bool :=
  match chunk lexer with [] => true | _ :: _ => false end.

(** Modelled from the spec: [lexer->advance(lexer, skip)] moves past the
    lookahead character; with [skip] the character is skipped whitespace and
    the token starts after it.  At the end of the input nothing moves. *)
Definition advance (lexer : TSLexer) (skip : bool) : TSLexer :=
  match chunk lexer with
  | [] => lexer
  | _ :: rest =>
      {| chunk := rest;
         current_position := S (current_position lexer);
         token_start_position :=
           if skip then S (current_position lexer)
           else token_start_position lexer;
         token_end_position := token_end_position lexer;
         result_symbol := result_symbol lexer |}
  end.

(** Modelled from the spec: [lexer->mark_end(lexer)] puts the end of the
    token at the current position. *)
Definition mark_end (lexer : TSLexer) : TSLexer :=
  {| chunk := chunk lexer;
     current_position := current_position lexer;
     token_start_position := token_start_position lexer;
     token_end_position := current_position lexer;
     result_symbol := result_symbol lexer |}.

(** [lexer->result_symbol = symbol_value] *)
Definition set_result_symbol (lexer : TSLexer) (symbol_value : TSSymbol) : TSLexer :=
  {| chunk := chunk lexer;
     current_position := current_position lexer;
     token_start_position := token_start_position lexer;
     token_end_position := token_end_position lexer;
     result_symbol := symbol_value |}.

(** The effect of [ACCEPT_TOKEN] (or of its absence) on [result] and on the
    lexer: [result = true], the symbol is recorded and the end is marked. *)
Definition accept_token (accepted : option TSSymbol) (result : bool)
    (lexer : TSLexer) : bool * TSLexer :=
  match accepted with
  | Some symbol_value => (true, mark_end (set_result_symbol lexer symbol_value))
  | None => (result, lexer)
  end.

(** ** [ts_lex] *)

(** Modelled from the spec: the loop that the missing macro [START_LEXER]
    sets up around the [switch]: read the lookahead and the end-of-input
    flag, run the [switch] for the current state, and either return or
    advance and go round again, until an accepting or a dead end is reached.
    [result] starts as [false].  Each round uses one unit of [fuel]; [None]
    means that the fuel ran out. *)
Fixpoint ts_lex_loop (fuel : nat) (lexer : TSLexer) (state : TSStateId)
    (result : bool) : option (bool * TSLexer) :=
  match fuel with
  | O => None
  | S fuel' =>
      match ts_lex_case state (eof_of lexer) (lookahead_of lexer) with
      | None => Some (false, lexer)
      | Some (accepted, action) =>
          let (result', lexer') := accept_token accepted result lexer in
          match action with
          | END_STATE => Some (result', lexer')
          | ADVANCE state_value =>
              ts_lex_loop fuel' (advance lexer' false) state_value result'
          | SKIP state_value =>
              ts_lex_loop fuel' (advance lexer' true) state_value result'
          end
      end
  end.

(** Every round but the last two consumes a character, so this much fuel is
    enough (see [ts_lex_loop_enough_fuel] and [ts_lex_loop_total]). *)
Definition lex_fuel (lexer : TSLexer) : nat := (length (chunk lexer) + 2)%nat.

(** [ts_lex(lexer, state)]: the result and the lexer as the call leaves
    it. *)
Definition ts_lex (lexer : TSLexer) (state : TSStateId) : bool * TSLexer :=
  match ts_lex_loop (lex_fuel lexer) lexer state false with
  | Some r => r
  | None => (false, lexer)
  end.

(** ** Tokens and the item sequencer *)

(** Modelled from the spec: a token, its category and its span
    [span_start, span_end) of offsets into the source; the categories are the
    symbols of the lexer, the end symbol being the end-of-input marker.  The
    text of a token is the slice of the input that its span covers. *)
Record Token : Set := mkToken {
  kind : TSSymbol;
  span_start : nat;
  span_end : nat
}.

(** The text of a span [start, end) of the input. *)
Definition slice (input : list Z) (start_ end_ : nat) : list Z :=
  firstn (end_ - start_) (skipn start_ input).

Definition token_text (input : list Z) (t : Token) : list Z :=
  slice input (span_start t) (span_end t).

(** Modelled from the spec: the kinds of lexical error. *)
Inductive LexErrorKind : Set :=
| UnterminatedString
| UnterminatedComment
| NoMatchingRule.

(** Modelled from the spec: a lexical error, reported with the offset at
    which the offending token began. *)
Record LexError : Set := mkLexError {
  error_kind : LexErrorKind;
  error_offset : nat
}.

(** Modelled from the spec: the kind of a lexical error.  [ts_lex] only
    returns [false]; the kind is read off the text at the offset where the
    offending token began: an opened string, an opened block comment, or a
    character that begins no token. *)
Definition classify_error (input : list Z) (offset : nat) : LexErrorKind :=
  let rest := skipn offset input in
  if hd 0 rest =? 34 then UnterminatedString
  else if (hd 0 rest =? "(") && (hd 0 (tl rest) =? "*") then UnterminatedComment
  else NoMatchingRule.

(** Modelled from the spec: the result of [scan_one], a token and the new
    cursor, or an error. *)
Inductive ScanResult : Set :=
| Scanned (t : Token) (new_cursor : nat)
| Failed (e : LexError).

(** The lexer as it stands when a scan starts at offset [cursor]. *)
Definition lexer_at (input : list Z) (cursor : nat) : TSLexer :=
  {| chunk := skipn cursor input;
     current_position := cursor;
     token_start_position := cursor;
     token_end_position := cursor;
     result_symbol := ts_builtin_sym_end |}.

(** Modelled from the spec: [scan_one(input, cursor)], the call of the
    scanner by its host, which is not among the files of [src/].  It runs
    [ts_lex] from the lexer state of the current parse state; a [true] result
    is the token between the start and end marks, and the cursor moves to its
    end; a [false] result is a lexical error at the offset where the token
    began. *)
Definition scan_one (input : list Z) (cursor : nat) : ScanResult :=
  match ts_lex (lexer_at input cursor) (ts_lex_modes 1) with
  | (true, lexer) =>
      Scanned {| kind := result_symbol lexer;
                 span_start := token_start_position lexer;
                 span_end := token_end_position lexer |}
              (token_end_position lexer)
  | (false, lexer) =>
      Failed {| error_kind := classify_error input (token_start_position lexer);
                error_offset := token_start_position lexer |}
  end.

(** Modelled from the spec: the item sequencer, which is not among the files
    of [src/].  It calls the scanner from offset 0 until the end-of-input
    token is produced or a lexical error is raised, and returns the tokens
    collected so far together with the error, if any.  Each call uses one unit
    of [fuel]; [None] means that the fuel ran out. *)
Fixpoint tokenize_loop (fuel : nat) (input : list Z) (cursor : nat)
    (collected : list Token) : option (list Token * option LexError) :=
  match fuel with
  | O => None
  | S fuel' =>
      match scan_one input cursor with
      | Failed e => Some (rev collected, Some e)
      | Scanned t new_cursor =>
          match kind t with
          | ts_builtin_sym_end => Some (rev (t :: collected), None)
          | _ => tokenize_loop fuel' input new_cursor (t :: collected)
          end
      end
  end.

(** Modelled from the spec: [tokenize(input)].  Every scan but the last
    moves the cursor, so this much fuel is enough (see
    [tokenize_loop_enough_fuel]). *)
Definition tokenize (input : list Z) : option (list Token * option LexError) :=
  tokenize_loop (S (length input)) input 0%nat [].

(** Source text as code points. *)
Fixpoint codes (s : string) : list Z :=
  match s with
  | EmptyString => []
  | String c s' => char_code c :: codes s'
  end.


(** ** Character classes of the grammar *)

Definition is_whitespace (c : Z) : bool :=
  (("009" <=? c) && (c <=? "013")) || (c =? " ").

Definition is_digit (c : Z) : bool := ("0" <=? c) && (c <=? "9").

Definition is_letter (c : Z) : bool :=
  (("A" <=? c) && (c <=? "Z")) || (("a" <=? c) && (c <=? "z")).

Definition is_identifier_start (c : Z) : bool := is_letter c || (c =? "_").

Definition is_identifier_char (c : Z) : bool :=
  is_digit c || is_letter c || (c =? "_").

(** A character that a line comment takes in: any but the newline and the
    code point 0. *)
Definition in_line_comment (c : Z) : bool := (c !=? 0) && (c !=? "010").

(** A star immediately followed by a closing parenthesis occurs in the
    text. *)
Fixpoint has_close_mark (l : list Z) : bool :=
  match l with
  | c :: l' => ((c =? "*") && (hd 0 l' =? ")")) || has_close_mark l'
  | [] => false
  end.

(** A number lexeme: one or more digits, optionally followed by a dot and
    one or more digits. *)
Definition number_lexeme (l : list Z) : Prop :=
  exists ds fraction,
    l = ds ++ fraction /\
    ds <> [] /\ Forall (fun c => is_digit c = true) ds /\
    (fraction = [] \/
     exists fs, fraction = 46 :: fs /\ fs <> [] /\
                Forall (fun c => is_digit c = true) fs).

(** ASCII lower case; every other code point is left alone. *)
Definition to_lower (c : Z) : Z :=
  if ("A" <=? c) && (c <=? "Z") then c + 32 else c.

(** Two inputs that differ only in the case of letters. *)
Definition same_up_to_case (u v : list Z) : Prop :=
  map to_lower u = map to_lower v.

(** The lexer reading the lower-case version of its input. *)
Definition lower_lexer (lexer : TSLexer) : TSLexer :=
  {| chunk := map to_lower (chunk lexer);
     current_position := current_position lexer;
     token_start_position := token_start_position lexer;
     token_end_position := token_end_position lexer;
     result_symbol := result_symbol lexer |}.

(** ** Token sequences *)

Definition not_end (t : Token) : Prop := kind t <> ts_builtin_sym_end.

(** The end-of-input token: empty, at the end of the input. *)
Definition end_token (input : list Z) : Token :=
  {| kind := ts_builtin_sym_end;
     span_start := length input;
     span_end := length input |}.

(** Spans do not overlap and their start offsets increase strictly. *)
Definition spans_ordered (tokens : list Token) : Prop :=
  forall i j ti tj, (i < j)%nat ->
    nth_error tokens i = Some ti -> nth_error tokens j = Some tj ->
    (span_start ti < span_start tj)%nat /\ (span_end ti <= span_start tj)%nat.

(** The text of the tokens, each preceded by the text skipped before it. *)
Fixpoint reassemble (input : list Z) (cursor : nat) (tokens : list Token)
    : list Z :=
  match tokens with
  | [] => []
  | t :: tokens' =>
      slice input cursor (span_start t) ++ token_text input t ++
      reassemble input (span_end t) tokens'
  end.

(** The gaps between the tokens hold whitespace only. *)
Fixpoint gaps_are_whitespace (input : list Z) (cursor : nat)
    (tokens : list Token) : Prop :=
  match tokens with
  | [] => True
  | t :: tokens' =>
      Forall (fun c => is_whitespace c = true) (slice input cursor (span_start t)) /\
      gaps_are_whitespace input (span_end t) tokens'
  end.

(** The tokens follow one another from [cursor] on: each starts at or after
    the end of the one before, after a gap of whitespace, lies within the
    input, and is not empty unless it is the end-of-input token, which sits
    at the end of the input. *)
Fixpoint well_tiled (input : list Z) (cursor : nat) (tokens : list Token)
    : Prop :=
  match tokens with
  | [] => True
  | t :: tokens' =>
      (cursor <= span_start t)%nat /\
      (span_start t <= span_end t)%nat /\
      (span_end t <= length input)%nat /\
      (kind t <> ts_builtin_sym_end -> (span_start t < span_end t)%nat) /\
      (kind t = ts_builtin_sym_end -> span_start t = length input) /\
      Forall (fun c => is_whitespace c = true)
             (slice input cursor (span_start t)) /\
      well_tiled input (span_end t) tokens'
  end.

(** Where the last of the tokens ends. *)
Fixpoint last_end (cursor : nat) (tokens : list Token) : nat :=
  match tokens with
  | [] => cursor
  | t :: tokens' => last_end (span_end t) tokens'
  end.

(** The successive scans from offset [cursor] on return the tokens
    [tokens], one after the other and none of them the end-of-input token,
    and leave the cursor at [cursor']. *)
Inductive scans (input : list Z) : nat -> list Token -> nat -> Prop :=
| scans_nil (cursor : nat) : scans input cursor [] cursor
| scans_cons (cursor : nat) (t : Token) (new_cursor : nat)
    (tokens : list Token) (cursor' : nat) :
    scan_one input cursor = Scanned t new_cursor ->
    kind t <> ts_builtin_sym_end ->
    scans input new_cursor tokens cursor' ->
    scans input cursor (t :: tokens) cursor'.

(** ** The keyword table

    The words whose letter-by-letter paths through the state graph end in
    one of the two states that accept [sym_keyword] (states 12 and 13); see
    [keyword_paths_table] for the correspondence. *)

Definition keyword_table : list string :=
  [ "additions"; "and"; "applescript"; "application"; "by"; "case";
    "considering"; "contains"; "div"; "else"; "end"; "error"; "exit";
    "false"; "framework"; "from"; "global"; "if"; "ignoring"; "in"; "is";
    "it"; "local"; "me"; "missing"; "mod"; "not"; "of"; "on"; "or";
    "property"; "repeat"; "result"; "return"; "script"; "scripting"; "set";
    "tell"; "then"; "times"; "to"; "true"; "try"; "until"; "use"; "value";
    "version"; "while"; "with" ]%string.

Definition keywords : list (list Z) := map codes keyword_table.

Fixpoint word_eqb (u v : list Z) : bool :=
  match u, v with
  | [], [] => true
  | a :: u', b :: v' => (a =? b) && word_eqb u' v'
  | _, _ => false
  end.

Definition word_mem (w : list Z) (l : list (list Z)) : bool :=
  existsb (word_eqb w) l.

(** A run of identifier characters matches the table without regard to
    case. *)
Definition is_keyword (w : list Z) : bool := word_mem (map to_lower w) keywords.

(** ** Walking the state graph *)

(** The state reached from [state] on a character, when the state advances
    on it. *)
Definition next_state (state : TSStateId) (c : Z) : TSStateId :=
  match ts_lex_case state false c with
  | Some (_, ADVANCE state_value) => state_value
  | _ => state
  end.

(** The state reached on a whole word. *)
Definition run_states (state : TSStateId) (w : list Z) : TSStateId :=
  fold_left next_state w state.

(** The symbol a state accepts on entry. *)
Definition accepted_symbol (state : TSStateId) : option TSSymbol :=
  match ts_lex_case state true 0 with
  | Some (accepted, _) => accepted
  | None => None
  end.

Definition accepts_keyword (state : TSStateId) : bool :=
  match accepted_symbol state with
  | Some sym_keyword => true
  | _ => false
  end.

(** The states of an identifier-or-keyword run. *)
Definition is_identifier_state (state : TSStateId) : bool :=
  match accepted_symbol state with
  | Some sym_keyword | Some sym_identifier => true
  | _ => false
  end.

(** The symbol of an identifier-or-keyword state. *)
Definition identifier_or_keyword (state : TSStateId) : TSSymbol :=
  if accepts_keyword state then sym_keyword else sym_identifier.

Definition lowercase_letters : list Z := map Z.of_nat (seq 97 26).

(** The lower-case words that lead from [state] to a keyword state, found by
    a search of bounded depth.  State 128, the plain identifier state, only
    leads to itself and is not searched. *)
Fixpoint keyword_paths (depth : nat) (state : TSStateId) : list (list Z) :=
  match depth with
  | O => []
  | S depth' =>
      (if accepts_keyword state then [[]] else []) ++
      flat_map
        (fun c =>
           let state' := next_state state c in
           if state' =? 128 then []
           else map (cons c) (keyword_paths depth' state'))
        lowercase_letters
  end.

(** The depth at which the search is run; no keyword is that long. *)
Definition keyword_depth : nat := 13.

(** The words of a list that start with [c], without that first letter. *)
Definition derivative (c : Z) (l : list (list Z)) : list (list Z) :=
  flat_map
    (fun w => match w with
              | x :: w' => if x =? c then [w'] else []
              | [] => []
              end) l.

Fixpoint words_eqb (l1 l2 : list (list Z)) : bool :=
  match l1, l2 with
  | [], [] => true
  | u :: l1', v :: l2' => word_eqb u v && words_eqb l1' l2'
  | _, _ => false
  end.

(** ** The finite abstraction of the state graph

    The [switch] has 129 states, and tests the lookahead only against ASCII
    characters and four other code points; every other code point behaves
    like code point 128.  A property of the [switch] is therefore settled by
    evaluating it on the states and on this alphabet. *)

Definition lex_states : list TSStateId := map Z.of_nat (seq 0 129).

Definition in_alphabet (c : Z) : bool :=
  ((0 <=? c) && (c <=? 127)) ||
  (c =? 0xac) || (c =? 0x2260) || (c =? 0x2264) || (c =? 0x2265).

Definition alphabet : list Z :=
  map Z.of_nat (seq 0 129) ++ [0xac; 0x2260; 0x2264; 0x2265].

Definition check_states (Q : TSStateId -> bool) : bool := forallb Q lex_states.

(** A property checked on every state, both values of [eof] and every
    character of the alphabet. *)
Definition check_all (Q : TSStateId -> bool -> Z -> bool) : bool :=
  check_states (fun state =>
    forallb (fun c => Q state true c && Q state false c) alphabet).

Definition option_symbol_eqb (a b : option TSSymbol) : bool :=
  match a, b with
  | None, None => true
  | Some x, Some y => TSSymbol_eqb x y
  | _, _ => false
  end.

Definition lex_action_eqb (a b : lex_action) : bool :=
  match a, b with
  | ADVANCE x, ADVANCE y => x =? y
  | SKIP x, SKIP y => x =? y
  | END_STATE, END_STATE => true
  | _, _ => false
  end.

Definition lex_step_eqb (a b : lex_step) : bool :=
  match a, b with
  | None, None => true
  | Some (s1, a1), Some (s2, a2) => option_symbol_eqb s1 s2 && lex_action_eqb a1 a2
  | _, _ => false
  end.

(** The symbols of tokens: the end symbol and the seven token kinds. *)
Definition is_token_symbol (s : TSSymbol) : bool := symbol_id s <=? 7.

(** The shape of the [switch]: only state 0 skips, and it skips to itself;
    only state 0 at the end of the input advances to state 6; nothing advances
    to state 0; state 0 accepts nothing and state 6 alone accepts the end
    symbol. *)
Definition well_shaped (state : TSStateId) (eof : bool) (r : lex_step) : bool :=
  match r with
  | None => true
  | Some (accepted, action) =>
      match accepted with
      | None => true
      | Some s =>
          negb (state =? 0) && is_token_symbol s &&
          Bool.eqb (TSSymbol_eqb s ts_builtin_sym_end) (state =? 6)
      end &&
      match action with
      | END_STATE => true
      | SKIP state_value => (state =? 0) && (state_value =? 0) && negb eof
      | ADVANCE state_value =>
          (1 <=? state_value) && (state_value <=? 128) &&
          Bool.eqb (state_value =? 6) ((state =? 0) && eof)
      end
  end.

(** The transitions of an identifier-or-keyword run: from state 0 a letter
    or an underscore leads to a state of the run; such a state accepts its
    symbol and advances on the characters of an identifier to another such
    state, and stops on any other character. *)
Definition identifier_transitions (state : TSStateId) (eof : bool) (c : Z)
    : bool :=
  if is_identifier_state state then
    if is_identifier_char c then
      lex_step_eqb (ts_lex_case state false c)
                   (Some (accepted_symbol state, ADVANCE (next_state state c))) &&
      is_identifier_state (next_state state c)
    else
      lex_step_eqb (ts_lex_case state eof c)
                   (Some (accepted_symbol state, END_STATE))
  else if (state =? 0) && is_identifier_start c then
    lex_step_eqb (ts_lex_case 0 false c) (Some (None, ADVANCE (next_state 0 c))) &&
    is_identifier_state (next_state 0 c)
  else true.

(** The keyword paths of the start state and of the states of a run agree
    with the graph: the empty word is a path of the keyword states alone, and
    the paths from the next state are the paths that start with the character
    read. *)
Definition keyword_paths_agree (state : TSStateId) : bool :=
  if is_identifier_state state || (state =? 0) then
    let paths := keyword_paths keyword_depth state in
    Bool.eqb (word_mem [] paths) (accepts_keyword state) &&
    forallb
      (fun c =>
         if is_identifier_char c &&
            (is_identifier_state state || is_identifier_start c)
         then words_eqb (derivative (to_lower c) paths)
                        (keyword_paths keyword_depth (next_state state c))
         else true)
      alphabet
  else true.

(** The [switch] does not tell an upper-case letter from its lower-case
    version. *)
Definition case_insensitive_at (state : TSStateId) (eof : bool) (c : Z) : bool :=
  lex_step_eqb (ts_lex_case state eof (to_lower c)) (ts_lex_case state eof c).

(** ** The invariant of the lexer loop *)

(** What holds of the lexer whenever the loop is about to run the [switch]
    in [state] with the current [result]. *)
Definition lexer_ready (lexer : TSLexer) (state : TSStateId) (result : bool)
    : Prop :=
  (token_start_position lexer <= current_position lexer)%nat /\
  (state = 0 ->
     result = false /\ token_start_position lexer = current_position lexer) /\
  (state = 6 ->
     result = false /\ chunk lexer = [] /\
     token_start_position lexer = current_position lexer) /\
  (state <> 0 -> state <> 6 ->
     (token_start_position lexer < current_position lexer)%nat) /\
  (result = true ->
     (token_start_position lexer < token_end_position lexer)%nat /\
     (token_end_position lexer <= current_position lexer)%nat /\
     result_symbol lexer <> ts_builtin_sym_end /\
     is_token_symbol (result_symbol lexer) = true).

(** What holds when the loop, started on [lexer] in [state], returns
    [result] and [lexer']: the token starts after the whitespace that was
    skipped, lies within the input, and is empty only if it is the
    end-of-input token at the end of the input. *)
Definition lexed_from (lexer : TSLexer) (state : TSStateId)
    (result : bool) (lexer' : TSLexer) : Prop :=
  (exists ws rest,
     chunk lexer = ws ++ rest /\
     Forall (fun c => is_whitespace c = true) ws /\
     token_start_position lexer' = (token_start_position lexer + length ws)%nat /\
     (state <> 0 -> ws = [])) /\
  (result = true ->
     is_token_symbol (result_symbol lexer') = true /\
     (token_start_position lexer' <= token_end_position lexer')%nat /\
     (token_end_position lexer' <= current_position lexer + length (chunk lexer))%nat /\
     (result_symbol lexer' = ts_builtin_sym_end ->
        token_start_position lexer' = (current_position lexer + length (chunk lexer))%nat /\
        token_end_position lexer' = (current_position lexer + length (chunk lexer))%nat) /\
     (result_symbol lexer' <> ts_builtin_sym_end ->
        (token_start_position lexer' < token_end_position lexer')%nat)).

(** * Further definitions: the rest of the lexer and the symbol tables *)

(** ** Symbol metadata: [ts_symbol_metadata] *)

Record TSSymbolMetadata : Set := mkMetadata {
  visible : bool;
  named : bool
}.

Definition ts_symbol_metadata (s : TSSymbol) : TSSymbolMetadata :=
  match s with
  | ts_builtin_sym_end => {| visible := false; named := true |}
  | sym_comment => {| visible := true; named := true |}
  | sym_string => {| visible := true; named := true |}
  | sym_number => {| visible := true; named := true |}
  | sym_keyword => {| visible := true; named := true |}
  | sym_operator => {| visible := true; named := true |}
  | sym_punctuation => {| visible := true; named := true |}
  | sym_identifier => {| visible := true; named := true |}
  | sym_source_file => {| visible := true; named := true |}
  | sym__item => {| visible := false; named := true |}
  | aux_sym_source_file_repeat1 => {| visible := false; named := false |}
  end.

(** [#define TOKEN_COUNT 8] *)
Definition TOKEN_COUNT : Z := 8.

(** ** The token of a call of [ts_lex]

    What a call of [ts_lex] at offset [cursor] leaves in the lexer when it
    returns [true]: the symbol and the span between the start and end marks.
    [None] stands for the result [false]. *)
Definition lex_token (input : list Z) (cursor : nat) : option Token :=
  match ts_lex (lexer_at input cursor) (ts_lex_modes 1) with
  | (true, lexer) =>
      Some {| kind := result_symbol lexer;
              span_start := token_start_position lexer;
              span_end := token_end_position lexer |}
  | (false, _) => None
  end.

(** ** Character sets of the single-character tokens *)

Definition char_in (l : list Z) (c : Z) : bool := existsb (Z.eqb c) l.

(** The punctuation characters other than the opening parenthesis. *)
Definition single_punctuation : list Z :=
  ["'" : Z; ")" : Z; "," : Z; ":" : Z; "[" : Z; "]" : Z; "{" : Z; "}" : Z].

(** The operator characters that are a token whatever follows. *)
Definition single_operator : list Z :=
  ["&" : Z; "*" : Z; "+" : Z; "=" : Z; "^" : Z; 0xac; 0x2260; 0x2264; 0x2265].

(** The operator characters that take in an equals sign that follows. *)
Definition compound_operator : list Z := ["/" : Z; "<" : Z; ">" : Z].

(** A character inside a string: any but the double quote and the code
    point 0. *)
Definition in_string (c : Z) : bool := (c !=? 34) && (c !=? 0).

(** A character that starts a token, or the two-character opener of one. *)
Definition starts_token (c : Z) : bool :=
  is_digit c || is_identifier_start c ||
  char_in single_punctuation c || char_in single_operator c ||
  char_in compound_operator c ||
  (c =? 34) || (c =? "#") || (c =? "(") || (c =? "-").

(** State 0 stops on a character that starts no token and is not
    whitespace. *)
Definition no_rule_stops (c : Z) : bool :=
  if starts_token c || is_whitespace c then true
  else lex_step_eqb (ts_lex_case 0 false c) (Some (None, END_STATE)).

Definition check_chars (Q : Z -> bool) : bool := forallb Q alphabet.

(** ** The rules of the lexer

    [token_rule chunk r]: on the text [chunk], which starts where a token is
    to start, the rules give [r], the kind and the length of the token, or
    [None] when there is no token.  [ts_lex] is shown to follow these rules
    ([lex_token_follows_rule]) and the rules to cover every text
    ([token_rule_total]). *)
Inductive token_rule : list Z -> option (TSSymbol * nat) -> Prop :=
| rule_end :
    token_rule [] (Some (ts_builtin_sym_end, 0%nat))
| rule_string (body rest : list Z) :
    Forall (fun c => in_string c = true) body ->
    token_rule (34 :: body ++ 34 :: rest) (Some (sym_string, (length body + 2)%nat))
| rule_string_open (body rest : list Z) :
    Forall (fun c => in_string c = true) body ->
    hd 0 rest = 0 ->
    token_rule (34 :: body ++ rest) None
| rule_number (lexeme rest : list Z) :
    number_lexeme lexeme ->
    is_digit (hd 0 rest) = false ->
    In 46 lexeme \/ hd 0 rest <> "." \/ is_digit (hd 0 (tl rest)) = false ->
    token_rule (lexeme ++ rest) (Some (sym_number, length lexeme))
| rule_identifier (c0 : Z) (cs rest : list Z) :
    is_identifier_start c0 = true ->
    Forall (fun c => is_identifier_char c = true) cs ->
    is_identifier_char (hd 0 rest) = false ->
    token_rule (c0 :: cs ++ rest)
      (Some (if is_keyword (c0 :: cs) then sym_keyword else sym_identifier,
             S (length cs)))
| rule_punctuation (c : Z) (rest : list Z) :
    char_in single_punctuation c = true \/ (c = "(" /\ hd 0 rest <> "*") ->
    token_rule (c :: rest) (Some (sym_punctuation, 1%nat))
| rule_block_comment_open (body rest : list Z) :
    Forall (fun c => c <> 0) body ->
    has_close_mark body = false ->
    hd 0 rest = 0 ->
    token_rule (40 :: 42 :: body ++ rest) (Some (sym_punctuation, 1%nat))
| rule_block_comment (body rest : list Z) :
    Forall (fun c => c <> 0) body ->
    has_close_mark body = false ->
    token_rule (40 :: 42 :: body ++ 42 :: 41 :: rest)
      (Some (sym_comment, (length body + 4)%nat))
| rule_dash_comment (body rest : list Z) :
    Forall (fun c => in_line_comment c = true) body ->
    in_line_comment (hd 0 rest) = false ->
    token_rule (45 :: 45 :: body ++ rest) (Some (sym_comment, (2 + length body)%nat))
| rule_hash_comment (body rest : list Z) :
    Forall (fun c => in_line_comment c = true) body ->
    in_line_comment (hd 0 rest) = false ->
    token_rule (35 :: 33 :: body ++ rest) (Some (sym_comment, (2 + length body)%nat))
| rule_hash_alone (rest : list Z) :
    hd 0 rest <> "!" ->
    token_rule (35 :: rest) None
| rule_operator (c : Z) (rest : list Z) :
    char_in single_operator c = true ->
    token_rule (c :: rest) (Some (sym_operator, 1%nat))
| rule_compound_operator (c : Z) (rest : list Z) :
    char_in compound_operator c = true \/ (c = "-" /\ hd 0 rest <> "-") ->
    token_rule (c :: rest)
      (Some (sym_operator,
             if (hd 0 rest =? "=") && char_in compound_operator c
             then 2%nat else 1%nat))
| rule_none (c : Z) (rest : list Z) :
    starts_token c = false ->
    is_whitespace c = false ->
    token_rule (c :: rest) None.

(** The token that a rule gives, at an offset. *)
Definition token_at (offset : nat) (r : option (TSSymbol * nat)) : option Token :=
  match r with
  | Some (s, n) => Some (mkToken s offset (offset + n))
  | None => None
  end.

(** ** The texts of the tokens of each kind *)

Definition string_text (l : list Z) : Prop :=
  exists body, l = 34 :: body ++ [34] /\ Forall (fun c => in_string c = true) body.

Definition identifier_text (l : list Z) : Prop :=
  exists c0 cs,
    l = c0 :: cs /\ is_identifier_start c0 = true /\
    Forall (fun c => is_identifier_char c = true) cs.

Definition line_comment_text (l : list Z) : Prop :=
  exists body,
    (l = 45 :: 45 :: body \/ l = 35 :: 33 :: body) /\
    Forall (fun c => in_line_comment c = true) body.

Definition block_comment_text (l : list Z) : Prop :=
  exists body,
    l = 40 :: 42 :: body ++ [42; 41] /\
    Forall (fun c => c <> 0) body /\ has_close_mark body = false.

Definition operator_text (l : list Z) : Prop :=
  exists c,
    (l = [c] /\
     (char_in single_operator c = true \/ char_in compound_operator c = true \/
      c = "-")) \/
    (l = [c; 61] /\ char_in compound_operator c = true).

Definition punctuation_text (l : list Z) : Prop :=
  exists c, l = [c] /\ (char_in single_punctuation c = true \/ c = "(").

(** * Properties of the state graph *)

(** ** States outside the [switch] *)

Lemma ts_lex_case_default (state : TSStateId) (eof : bool) (lookahead : Z) :
  ~ (0 <= state <= 128) -> ts_lex_case state eof lookahead = None.
Proof.
  intros H. destruct state as [|p|p]; [lia | | reflexivity].
  do 8 (destruct p as [p|p|]; try lia; try reflexivity).
Qed.

(** ** Code points outside the alphabet *)

Lemma eqb_false_intro (a b : Z) : a <> b -> (a =? b) = false.
Proof. apply Z.eqb_neq. Qed.

Lemma leb_true_intro (a b : Z) : a <= b -> (a <=? b) = true.
Proof. apply Z.leb_le. Qed.

Lemma leb_false_intro (a b : Z) : b < a -> (a <=? b) = false.
Proof. apply Z.leb_gt. Qed.

Ltac eval_codes :=
  repeat match goal with
  | |- context [char_code ?c] =>
      let v := eval vm_compute in (char_code c) in change (char_code c) with v
  end.

Ltac eval_codes_in H :=
  repeat match type of H with
  | context [char_code ?c] =>
      let v := eval vm_compute in (char_code c) in change (char_code c) with v in H
  end.

(** Settles every test of the goal on the variable [la], whose range is known
    from the context. *)
Ltac decide_tests la :=
  repeat match goal with
  | |- context [Z.eqb la ?k] => rewrite (eqb_false_intro la k) by lia
  | |- context [Z.eqb ?k la] => rewrite (eqb_false_intro k la) by lia
  | |- context [Z.leb ?k la] =>
      first [rewrite (leb_true_intro k la) by lia
            | rewrite (leb_false_intro k la) by lia]
  | |- context [Z.leb la ?k] =>
      first [rewrite (leb_true_intro la k) by lia
            | rewrite (leb_false_intro la k) by lia]
  end.

Lemma in_alphabet_false (c : Z) :
  in_alphabet c = false ->
  (c < 0 \/ 127 < c) /\ c <> 0xac /\ c <> 0x2260 /\ c <> 0x2264 /\ c <> 0x2265.
Proof.
  unfold in_alphabet. rewrite !orb_false_iff, andb_false_iff.
  rewrite !Z.eqb_neq, !Z.leb_gt. lia.
Qed.

Lemma ts_lex_case_other (state : TSStateId) (eof : bool) (la : Z) :
  in_alphabet la = false ->
  ts_lex_case state eof la = ts_lex_case state eof 128.
Proof.
  intros H. apply in_alphabet_false in H. destruct H as (Hr & H1 & H2 & H3 & H4).
  destruct (Z_le_gt_dec 0 state) as [Hs|Hs];
    [destruct (Z_le_gt_dec state 128) as [Hs'|Hs']|];
    [| rewrite !ts_lex_case_default by lia; reflexivity ..].
  destruct state as [|p|p]; [| |lia].
  - destruct eof; [reflexivity|].
    cbv [ts_lex_case ACCEPT_TOKEN NO_TOKEN ADVANCE_MAP entry]. eval_codes.
    destruct Hr; decide_tests la; reflexivity.
  - do 8 (try (destruct p as [p|p|])); try lia;
    cbv [ts_lex_case ACCEPT_TOKEN NO_TOKEN ADVANCE_MAP entry]; eval_codes;
    (destruct Hr; decide_tests la; reflexivity).
Qed.

(** ** Checking a property on the whole graph *)

Lemma In_lex_states (state : TSStateId) :
  0 <= state <= 128 -> In state lex_states.
Proof.
  intros H. unfold lex_states. apply in_map_iff.
  exists (Z.to_nat state). split; [lia|]. apply in_seq. lia.
Qed.

Lemma In_alphabet (c : Z) :
  in_alphabet c = true \/ c = 128 -> In c alphabet.
Proof.
  unfold in_alphabet, alphabet.
  rewrite !orb_true_iff, andb_true_iff, !Z.eqb_eq, !Z.leb_le.
  intros H. apply in_or_app.
  destruct (Z_le_gt_dec c 128) as [Hc|Hc].
  - left. apply in_map_iff. exists (Z.to_nat c). split; [lia|]. apply in_seq. lia.
  - right. simpl. lia.
Qed.

Lemma check_states_sound (Q : TSStateId -> bool) :
  check_states Q = true ->
  forall state, 0 <= state <= 128 -> Q state = true.
Proof.
  unfold check_states. intros H state Hs.
  rewrite forallb_forall in H. exact (H state (In_lex_states state Hs)).
Qed.

Lemma check_all_sound (Q : TSStateId -> bool -> Z -> bool) :
  check_all Q = true ->
  forall state eof c, 0 <= state <= 128 -> in_alphabet c = true \/ c = 128 ->
  Q state eof c = true.
Proof.
  unfold check_all. intros H state eof c Hs Hc.
  apply (check_states_sound _ H) in Hs.
  rewrite forallb_forall in Hs. specialize (Hs c (In_alphabet c Hc)).
  apply andb_true_iff in Hs. destruct eof; tauto.
Qed.

(** A property of the result of the [switch] that holds on the alphabet and
    for the [default:] branch holds everywhere. *)
Lemma ts_lex_case_forall (q : TSStateId -> bool -> lex_step -> bool) :
  (forall state eof, q state eof None = true) ->
  check_all (fun state eof c => q state eof (ts_lex_case state eof c)) = true ->
  forall state eof c, q state eof (ts_lex_case state eof c) = true.
Proof.
  intros Hnone Hall state eof c.
  destruct (Z_le_gt_dec 0 state) as [Hs|Hs];
    [destruct (Z_le_gt_dec state 128) as [Hs'|Hs']|];
    [| rewrite ts_lex_case_default by lia; apply Hnone ..].
  destruct (in_alphabet c) eqn:Hc.
  - apply (check_all_sound _ Hall); [lia | now left].
  - rewrite (ts_lex_case_other _ _ _ Hc).
    apply (check_all_sound _ Hall); [lia | now right].
Qed.

Lemma ts_lex_case_well_shaped (state : TSStateId) (eof : bool) (c : Z) :
  well_shaped state eof (ts_lex_case state eof c) = true.
Proof.
  apply (ts_lex_case_forall well_shaped); [reflexivity | vm_compute; reflexivity].
Qed.

(** At the end of the input (lookahead 0) only state 0 moves on. *)
Lemma ts_lex_case_eof (state : TSStateId) (accepted : option TSSymbol)
    (action : lex_action) :
  ts_lex_case state true 0 = Some (accepted, action) ->
  action = END_STATE \/ (state = 0 /\ action = ADVANCE 6).
Proof.
  intros H.
  destruct (Z_le_gt_dec 0 state) as [Hs|Hs];
    [destruct (Z_le_gt_dec state 128) as [Hs'|Hs']|];
    [| rewrite ts_lex_case_default in H by lia; discriminate ..].
  pose (Q := fun state (eof : bool) (c : Z) =>
            match ts_lex_case state true 0 with
            | Some (_, END_STATE) => true
            | Some (_, ADVANCE s') => (state =? 0) && (s' =? 6)
            | Some (_, SKIP _) => false
            | None => true
            end).
  assert (Hq : Q state true 0 = true).
  { apply (check_all_sound Q); [vm_compute; reflexivity | lia | now left]. }
  unfold Q in Hq.
  rewrite H in Hq. destruct action; try discriminate; auto.
  apply andb_true_iff in Hq. rewrite !Z.eqb_eq in Hq. right. destruct Hq. subst. auto.
Qed.

Lemma ts_lex_case_6 (eof : bool) (c : Z) :
  ts_lex_case 6 eof c = Some (Some ts_builtin_sym_end, END_STATE).
Proof. reflexivity. Qed.

(** * The lexer loop *)

(** ** Fuel *)

Lemma ts_lex_loop_S (fuel : nat) lexer state result :
  ts_lex_loop (S fuel) lexer state result =
  match ts_lex_case state (eof_of lexer) (lookahead_of lexer) with
  | None => Some (false, lexer)
  | Some (accepted, action) =>
      let (result', lexer') := accept_token accepted result lexer in
      match action with
      | END_STATE => Some (result', lexer')
      | ADVANCE state_value =>
          ts_lex_loop fuel (advance lexer' false) state_value result'
      | SKIP state_value =>
          ts_lex_loop fuel (advance lexer' true) state_value result'
      end
  end.
Proof. reflexivity. Qed.

Lemma ts_lex_loop_more_fuel (fuel : nat) :
  forall lexer state result x,
  ts_lex_loop fuel lexer state result = Some x ->
  ts_lex_loop (S fuel) lexer state result = Some x.
Proof.
  induction fuel as [|fuel IH]; intros lexer state result x H; [discriminate|].
  rewrite ts_lex_loop_S in H. rewrite (ts_lex_loop_S (S fuel)).
  destruct (ts_lex_case state (eof_of lexer) (lookahead_of lexer))
    as [[accepted action]|]; [|exact H].
  destruct (accept_token accepted result lexer) as [result' lexer'].
  destruct action; auto.
Qed.

Lemma ts_lex_loop_fuel_le (fuel fuel' : nat) lexer state result x :
  (fuel <= fuel')%nat ->
  ts_lex_loop fuel lexer state result = Some x ->
  ts_lex_loop fuel' lexer state result = Some x.
Proof.
  induction 1; auto using ts_lex_loop_more_fuel.
Qed.

Lemma chunk_accept_token accepted result lexer :
  chunk (snd (accept_token accepted result lexer)) = chunk lexer.
Proof. destruct accepted; reflexivity. Qed.

Lemma eof_of_true lexer : eof_of lexer = true -> chunk lexer = [].
Proof. unfold eof_of. destruct (chunk lexer); [reflexivity | discriminate]. Qed.

(** The loop returns: a round either consumes a character or happens at the
    end of the input, where at most two rounds are made. *)
Lemma ts_lex_loop_enough_fuel (fuel : nat) :
  forall lexer state result,
  (length (chunk lexer) + 2 <= fuel)%nat ->
  exists x, ts_lex_loop fuel lexer state result = Some x.
Proof.
  induction fuel as [|fuel IH]; intros lexer state result Hf; [lia|].
  rewrite ts_lex_loop_S.
  destruct (ts_lex_case state (eof_of lexer) (lookahead_of lexer))
    as [[accepted action]|] eqn:Hcase; [|eauto].
  pose proof (chunk_accept_token accepted result lexer) as Hchunk.
  destruct (accept_token accepted result lexer) as [result' lexer'].
  cbn [snd] in Hchunk.
  destruct (chunk lexer) as [|c rest] eqn:Hlex.
  - (* at the end of the input *)
    unfold eof_of, lookahead_of in Hcase. rewrite Hlex in Hcase. cbn in Hcase.
    destruct (ts_lex_case_eof _ _ _ Hcase) as [-> | [-> ->]]; [eauto|].
    unfold advance. rewrite Hchunk.
    destruct fuel as [|fuel]; [cbn in Hf; lia|].
    rewrite ts_lex_loop_S, ts_lex_case_6.
    destruct (accept_token _ _ _). eauto.
  - assert (Hadv : forall skip,
        (length (chunk (advance lexer' skip)) + 2 <= fuel)%nat).
    { intros skip. unfold advance. rewrite Hchunk. cbn in Hf |- *. lia. }
    destruct action; eauto.
Qed.

Lemma ts_lex_loop_total lexer state :
  ts_lex_loop (lex_fuel lexer) lexer state false = Some (ts_lex lexer state).
Proof.
  unfold ts_lex.
  destruct (ts_lex_loop_enough_fuel (lex_fuel lexer) lexer state false) as [x Hx];
    [unfold lex_fuel; lia|].
  now rewrite Hx.
Qed.

(** Whatever fuel lets the loop return gives the result of [ts_lex]. *)
Lemma ts_lex_loop_ts_lex (fuel : nat) lexer state x :
  ts_lex_loop fuel lexer state false = Some x -> ts_lex lexer state = x.
Proof.
  intros H. pose proof (ts_lex_loop_total lexer state) as Ht.
  destruct (Nat.le_ge_cases fuel (lex_fuel lexer)) as [Hle|Hle].
  - apply (ts_lex_loop_fuel_le _ _ _ _ _ _ Hle) in H. congruence.
  - apply (ts_lex_loop_fuel_le _ _ _ _ _ _ Hle) in Ht. congruence.
Qed.

(** ** What the [switch] skips *)

Lemma ts_lex_case_skip (state : TSStateId) (eof : bool) (c : Z) accepted state' :
  ts_lex_case state eof c = Some (accepted, SKIP state') ->
  state = 0 /\ state' = 0 /\ eof = false /\ accepted = None /\
  is_whitespace c = true.
Proof.
  intros H. pose proof (ts_lex_case_well_shaped state eof c) as Hw.
  rewrite H in Hw. cbn in Hw.
  assert (Hs : state = 0 /\ state' = 0 /\ eof = false).
  { destruct accepted; rewrite !andb_true_iff, !Z.eqb_eq, !negb_true_iff in Hw; tauto. }
  destruct Hs as (-> & -> & ->).
  split; [reflexivity|]. split; [reflexivity|]. split; [reflexivity|]. split.
  - destruct accepted; [|reflexivity]. cbn in Hw. discriminate.
  - destruct (in_alphabet c) eqn:Hc.
    + pose (Q := fun (state : TSStateId) (eof : bool) (c : Z) =>
                match ts_lex_case 0 false c with
                | Some (_, SKIP _) => is_whitespace c
                | _ => true
                end).
      assert (Hq : Q 0 false c = true).
      { apply (check_all_sound Q); [vm_compute; reflexivity | lia | now left]. }
      unfold Q in Hq. now rewrite H in Hq.
    + rewrite (ts_lex_case_other _ _ _ Hc) in H. vm_compute in H. discriminate.
Qed.

(** ** The invariant is kept, and gives the shape of the result *)

Ltac lexer_fields :=
  cbn [chunk current_position token_start_position token_end_position
       result_symbol mark_end set_result_symbol] in *.

Ltac ready :=
  unfold lexer_ready; lexer_fields;
  repeat split; intros; subst; try discriminate; try lia; auto.

Lemma ts_lex_loop_lexed (fuel : nat) :
  forall lexer state result result' lexer',
  lexer_ready lexer state result ->
  ts_lex_loop fuel lexer state result = Some (result', lexer') ->
  lexed_from lexer state result' lexer'.
Proof.
  induction fuel as [|fuel IH];
    intros lexer state result result' lexer' Hready Hloop; [discriminate|].
  rewrite ts_lex_loop_S in Hloop.
  destruct Hready as (Hle & H0 & H6 & Hmid & Hres).
  destruct (ts_lex_case state (eof_of lexer) (lookahead_of lexer))
    as [[accepted action]|] eqn:Hcase.
  2:{ injection Hloop as <- <-. split; [|discriminate].
      exists [], (chunk lexer). repeat split; auto. }
  pose proof (ts_lex_case_well_shaped state (eof_of lexer) (lookahead_of lexer)) as Hw.
  rewrite Hcase in Hw. cbn [well_shaped] in Hw. apply andb_true_iff in Hw.
  destruct Hw as [Hacc Hact].
  assert (Haccepted : forall s, accepted = Some s ->
            state <> 0 /\ is_token_symbol s = true /\
            (s = ts_builtin_sym_end <-> state = 6)).
  { intros s ->. rewrite !andb_true_iff, negb_true_iff, Z.eqb_neq in Hacc.
    destruct Hacc as [[Hs Ht] He]. apply eqb_prop in He.
    repeat split; auto.
    - intros ->. apply Z.eqb_eq. now rewrite <- He.
    - intros ->. cbn in He. destruct s; try discriminate; reflexivity. }
  clear Hacc.
  destruct lexer as [ch pos ts te sym]. cbn in Hle, H0, H6, Hmid, Hres.
  destruct action as [state'|state'|].
  - (* ADVANCE *)
    rewrite !andb_true_iff, !Z.leb_le in Hact. destruct Hact as [[Hlo Hhi] He].
    apply eqb_prop in He.
    destruct ch as [|c rest].
    + (* at the end of the input *)
      cbn in Hcase. destruct (ts_lex_case_eof _ _ _ Hcase) as [? | [-> Heq]];
        [discriminate|]. injection Heq as ->.
      destruct accepted as [s|]; [destruct (Haccepted s eq_refl); lia|].
      cbn in Hloop. destruct (H0 eq_refl) as [-> ->].
      apply IH in Hloop.
      * destruct Hloop as [(ws & rest' & Hchunk & Hws & Hstart & Hnil) Hrest].
        specialize (Hnil ltac:(lia)). subst ws. split; [|exact Hrest].
        exists [], []. repeat split; auto.
      * ready.
    + assert (Hs6 : state' <> 6).
      { intros ->. cbn in He. symmetry in He. apply andb_true_iff in He.
        destruct He; discriminate. }
      assert (Hst6 : state <> 6).
      { intros ->. rewrite ts_lex_case_6 in Hcase. discriminate. }
      destruct accepted as [s|].
      * destruct (Haccepted s eq_refl) as (Hn0 & Htok & Hend).
        cbn in Hloop. apply IH in Hloop.
        -- destruct Hloop as [(ws & rest' & Hchunk & Hws & Hstart & Hnil) Hrest].
           cbn in Hchunk, Hstart, Hrest |- *.
           specialize (Hnil ltac:(lia)). subst ws. cbn in Hstart.
           split.
           ++ exists [], (c :: rest). repeat split; auto; cbn; lia.
           ++ intros Hr. specialize (Hrest Hr). cbn in Hrest |- *.
              replace (pos + S (length rest))%nat with (S pos + length rest)%nat by lia.
              exact Hrest.
        -- specialize (Hmid Hn0 Hst6). ready.
           intros E. apply Hst6, Hend, E.
      * cbn in Hloop. apply IH in Hloop.
        -- destruct Hloop as [(ws & rest' & Hchunk & Hws & Hstart & Hnil) Hrest].
           cbn in Hchunk, Hstart, Hrest |- *.
           specialize (Hnil ltac:(lia)). subst ws. cbn in Hstart.
           split.
           ++ exists [], (c :: rest). repeat split; auto; cbn; lia.
           ++ intros Hr. specialize (Hrest Hr). cbn in Hrest |- *.
              replace (pos + S (length rest))%nat with (S pos + length rest)%nat by lia.
              exact Hrest.
        -- ready; destruct Hres as (? & ? & ? & ?); auto; lia.
  - (* SKIP *)
    destruct (ts_lex_case_skip _ _ _ _ _ Hcase) as (-> & -> & Heof & -> & Hc).
    destruct ch as [|c rest]; [discriminate|]. cbn in Hc.
    destruct (H0 eq_refl) as [-> ->].
    cbn in Hloop. apply IH in Hloop.
    + destruct Hloop as [(ws & rest' & Hchunk & Hws & Hstart & Hnil) Hrest].
      cbn in Hchunk, Hstart, Hrest |- *. split.
      * exists (c :: ws), rest'. subst rest. repeat split; auto.
        -- cbn. lia.
        -- intros; lia.
      * intros Hr. specialize (Hrest Hr). cbn in Hrest |- *.
        replace (pos + S (length rest))%nat with (S pos + length rest)%nat by lia.
        exact Hrest.
    + ready.
  - (* END_STATE *)
    destruct accepted as [s|].
    + destruct (Haccepted s eq_refl) as (Hn0 & Htok & Hend).
      cbn in Hloop. injection Hloop as <- <-. split.
      * exists [], ch. cbn. repeat split; auto.
      * intros _. lexer_fields.
        destruct (Z.eq_dec state 6) as [->|Hn6].
        -- destruct (H6 eq_refl) as (_ & -> & ->). cbn [length].
           repeat split; auto; try lia.
           intros Hne. exfalso. apply Hne, Hend. reflexivity.
        -- specialize (Hmid Hn0 Hn6).
           assert (Hne : s <> ts_builtin_sym_end) by (intros E; apply Hn6, Hend, E).
           repeat split; auto; try lia; intros; try contradiction; lia.
    + cbn in Hloop. injection Hloop as <- <-. split.
      * exists [], ch. cbn. repeat split; auto.
      * intros Hr. lexer_fields. destruct (Hres Hr) as (? & ? & ? & ?).
        repeat split; auto; try lia; intros; try contradiction; lia.
Qed.

(** * One scan *)

Lemma lexer_at_ready (input : list Z) (cursor : nat) :
  lexer_ready (lexer_at input cursor) 0 false.
Proof. unfold lexer_ready, lexer_at. cbn. repeat split; auto; try lia; discriminate. Qed.

Lemma ts_lex_lexed (input : list Z) (cursor : nat) result lexer :
  ts_lex (lexer_at input cursor) 0 = (result, lexer) ->
  lexed_from (lexer_at input cursor) 0 result lexer.
Proof.
  intros H. pose proof (ts_lex_loop_total (lexer_at input cursor) 0) as Ht.
  rewrite H in Ht.
  exact (ts_lex_loop_lexed _ _ _ _ _ _ (lexer_at_ready input cursor) Ht).
Qed.

Lemma length_skipn_le (input : list Z) (cursor : nat) :
  (cursor <= length input)%nat ->
  (cursor + length (skipn cursor input))%nat = length input.
Proof. intros H. rewrite length_skipn. lia. Qed.

Lemma slice_prefix (input : list Z) (cursor : nat) (ws rest : list Z) :
  skipn cursor input = ws ++ rest ->
  slice input cursor (cursor + length ws) = ws.
Proof.
  intros H. unfold slice. rewrite H.
  replace (cursor + length ws - cursor)%nat with (length ws) by lia.
  rewrite firstn_app, firstn_all, Nat.sub_diag. cbn. apply app_nil_r.
Qed.

(** What a scan that returns a token guarantees. *)
Lemma scan_one_scanned (input : list Z) (cursor : nat) (t : Token) (new_cursor : nat) :
  (cursor <= length input)%nat ->
  scan_one input cursor = Scanned t new_cursor ->
  new_cursor = span_end t /\
  is_token_symbol (kind t) = true /\
  well_tiled input cursor [t].
Proof.
  intros Hc H. unfold scan_one, ts_lex_modes in H.
  destruct (ts_lex (lexer_at input cursor) 0) as [result lexer] eqn:Hlex.
  apply ts_lex_lexed in Hlex.
  destruct result; [|discriminate]. injection H as <- <-.
  destruct Hlex as [(ws & rest & Hchunk & Hws & Hstart & _) Hres].
  specialize (Hres eq_refl). cbn [lexer_at chunk current_position token_start_position] in *.
  rewrite (length_skipn_le _ _ Hc) in Hres.
  destruct Hres as (Htok & Hle & Hend & Heof & Hne).
  cbn [well_tiled kind span_start span_end].
  rewrite Hstart, (slice_prefix _ _ _ _ Hchunk).
  repeat split; auto; try lia.
  - intros E. apply Hne in E. lia.
  - intros E. apply Heof in E. lia.
Qed.

(** What a scan that fails guarantees. *)
Lemma scan_one_failed (input : list Z) (cursor : nat) (e : LexError) :
  (cursor <= length input)%nat ->
  scan_one input cursor = Failed e ->
  (cursor <= error_offset e)%nat /\
  error_kind e = classify_error input (error_offset e) /\
  Forall (fun c => is_whitespace c = true) (slice input cursor (error_offset e)).
Proof.
  intros Hc H. unfold scan_one, ts_lex_modes in H.
  destruct (ts_lex (lexer_at input cursor) 0) as [result lexer] eqn:Hlex.
  apply ts_lex_lexed in Hlex.
  destruct result; [discriminate|]. injection H as <-.
  destruct Hlex as [(ws & rest & Hchunk & Hws & Hstart & _) _].
  cbn [lexer_at chunk current_position token_start_position] in *.
  cbn [error_offset error_kind].
  rewrite Hstart, (slice_prefix _ _ _ _ Hchunk). repeat split; auto; lia.
Qed.

(** A token other than the end-of-input token is not empty, so the cursor
    moves; this needs no assumption on where the scan starts. *)
Lemma scan_one_progress (input : list Z) (cursor : nat) (t : Token) (new_cursor : nat) :
  scan_one input cursor = Scanned t new_cursor ->
  kind t <> ts_builtin_sym_end ->
  (cursor <= span_start t)%nat /\ (span_start t < span_end t)%nat /\
  new_cursor = span_end t.
Proof.
  intros H Hk. unfold scan_one, ts_lex_modes in H.
  destruct (ts_lex (lexer_at input cursor) 0) as [result lexer] eqn:Hlex.
  apply ts_lex_lexed in Hlex.
  destruct result; [|discriminate]. injection H as <- <-.
  destruct Hlex as [(ws & rest & Hchunk & Hws & Hstart & _) Hres].
  specialize (Hres eq_refl). cbn [lexer_at chunk current_position token_start_position] in *.
  destruct Hres as (Htok & Hle & Hend & Heof & Hne).
  cbn in Hk |- *. specialize (Hne Hk). repeat split; auto; lia.
Qed.

(** * The token sequence *)

Lemma tokenize_loop_S (fuel : nat) input cursor collected :
  tokenize_loop (S fuel) input cursor collected =
  match scan_one input cursor with
  | Failed e => Some (rev collected, Some e)
  | Scanned t new_cursor =>
      match kind t with
      | ts_builtin_sym_end => Some (rev (t :: collected), None)
      | _ => tokenize_loop fuel input new_cursor (t :: collected)
      end
  end.
Proof. reflexivity. Qed.

Lemma kind_end_dec (t : Token) :
  {kind t = ts_builtin_sym_end} + {kind t <> ts_builtin_sym_end}.
Proof. destruct (kind t); (now left) || (right; discriminate). Qed.

Lemma tokenize_loop_continue (fuel : nat) input cursor collected t new_cursor :
  scan_one input cursor = Scanned t new_cursor ->
  kind t <> ts_builtin_sym_end ->
  tokenize_loop (S fuel) input cursor collected =
  tokenize_loop fuel input new_cursor (t :: collected).
Proof.
  intros H Hk. rewrite tokenize_loop_S, H. destruct (kind t); congruence.
Qed.

Lemma tokenize_loop_end (fuel : nat) input cursor collected t new_cursor :
  scan_one input cursor = Scanned t new_cursor ->
  kind t = ts_builtin_sym_end ->
  tokenize_loop (S fuel) input cursor collected = Some (rev (t :: collected), None).
Proof.
  intros H Hk. rewrite tokenize_loop_S, H, Hk. reflexivity.
Qed.

(** The sequencer returns what it had collected, followed by tokens that
    tile the rest of the input; without an error the last of them is the
    end-of-input token, and no other is. *)
Lemma tokenize_loop_tiled (input : list Z) (fuel : nat) :
  forall cursor collected tokens err,
  (cursor <= length input)%nat ->
  tokenize_loop fuel input cursor collected = Some (tokens, err) ->
  exists new,
    tokens = rev collected ++ new /\
    well_tiled input cursor new /\
    match err with
    | None => exists front, new = front ++ [end_token input] /\ Forall not_end front
    | Some _ => Forall not_end new
    end.
Proof.
  induction fuel as [|fuel IH]; intros cursor collected tokens err Hc H;
    [discriminate|].
  destruct (scan_one input cursor) as [t new_cursor|e] eqn:Hscan.
  - destruct (scan_one_scanned _ _ _ _ Hc Hscan) as (-> & Htok & Ht).
    destruct (kind_end_dec t) as [Hk|Hk].
    + rewrite (tokenize_loop_end _ _ _ _ _ _ Hscan Hk) in H.
      injection H as <- <-. exists [t]. split; [reflexivity|]. split; [exact Ht|].
      exists []. split; [|constructor].
      cbn in Ht. destruct Ht as (_ & H1 & H2 & _ & H3 & _).
      specialize (H3 Hk). destruct t as [k s e]. cbn in *. subst.
      unfold end_token. cbn. f_equal. f_equal. lia.
    + rewrite (tokenize_loop_continue _ _ _ _ _ _ Hscan Hk) in H.
      apply IH in H; [|cbn in Ht; lia].
      destruct H as (new & -> & Hnew & Herr).
      exists (t :: new). split; [cbn; now rewrite <- app_assoc|]. split.
      * cbn in Ht |- *. tauto.
      * destruct err as [e|].
        -- constructor; assumption.
        -- destruct Herr as (front & -> & Hfront).
           exists (t :: front). split; [reflexivity|]. constructor; assumption.
  - rewrite tokenize_loop_S, Hscan in H. injection H as <- <-.
    exists []. split; [now rewrite app_nil_r|]. split; constructor.
Qed.

(** The sequencer returns: every scan but the last moves the cursor. *)
Lemma tokenize_loop_enough_fuel (input : list Z) (fuel : nat) :
  forall cursor collected,
  (cursor <= length input)%nat ->
  (length input - cursor < fuel)%nat ->
  exists r, tokenize_loop fuel input cursor collected = Some r.
Proof.
  induction fuel as [|fuel IH]; intros cursor collected Hc Hf; [lia|].
  destruct (scan_one input cursor) as [t new_cursor|e] eqn:Hscan.
  - destruct (scan_one_scanned _ _ _ _ Hc Hscan) as (-> & Htok & Ht).
    destruct (kind_end_dec t) as [Hk|Hk].
    + rewrite (tokenize_loop_end _ _ _ _ _ _ Hscan Hk). eauto.
    + rewrite (tokenize_loop_continue _ _ _ _ _ _ Hscan Hk).
      cbn in Ht. apply IH; [lia|]. destruct Ht as (? & ? & ? & Hlt & _).
      specialize (Hlt Hk). lia.
  - rewrite tokenize_loop_S, Hscan. eauto.
Qed.

(** ** Slices *)

Lemma firstn_plus (A : Type) (n m : nat) :
  forall l : list A, firstn (n + m) l = firstn n l ++ firstn m (skipn n l).
Proof.
  induction n as [|n IH]; intros l; [reflexivity|].
  destruct l as [|x l]; cbn; [now destruct m|]. now rewrite IH.
Qed.

(** ** Tilings *)

Section Tilings.

Variable input : list Z.

Lemma slice_app (a b c : nat) :
  (a <= b)%nat -> (b <= c)%nat ->
  slice input a b ++ slice input b c = slice input a c.
Proof.
  intros Hab Hbc. unfold slice.
  replace (c - a)%nat with ((b - a) + (c - b))%nat by lia.
  rewrite firstn_plus. f_equal. rewrite skipn_skipn. f_equal. f_equal. lia.
Qed.

Lemma slice_all : slice input 0 (length input) = input.
Proof. unfold slice. cbn. rewrite Nat.sub_0_r. apply firstn_all. Qed.

Lemma well_tiled_last_end (tokens : list Token) :
  forall cursor, well_tiled input cursor tokens ->
  (cursor <= last_end cursor tokens)%nat.
Proof.
  induction tokens as [|t tokens IH]; intros cursor H; cbn; [lia|].
  cbn in H. destruct H as (H1 & H2 & _ & _ & _ & _ & H3).
  apply IH in H3. lia.
Qed.

Lemma well_tiled_reassemble (tokens : list Token) :
  forall cursor, well_tiled input cursor tokens ->
  reassemble input cursor tokens = slice input cursor (last_end cursor tokens).
Proof.
  induction tokens as [|t tokens IH]; intros cursor H; cbn.
  - unfold slice. now rewrite Nat.sub_diag.
  - cbn in H. destruct H as (H1 & H2 & _ & _ & _ & _ & H3).
    pose proof (well_tiled_last_end _ _ H3) as Hl.
    rewrite (IH _ H3). unfold token_text.
    rewrite (slice_app (span_start t)), (slice_app cursor); auto; lia.
Qed.

Lemma well_tiled_gaps (tokens : list Token) :
  forall cursor, well_tiled input cursor tokens ->
  gaps_are_whitespace input cursor tokens.
Proof.
  induction tokens as [|t tokens IH]; intros cursor H; cbn; [exact I|].
  cbn in H. destruct H as (_ & _ & _ & _ & _ & H1 & H2). auto.
Qed.

Lemma last_end_app (tokens : list Token) (t : Token) :
  forall cursor, last_end cursor (tokens ++ [t]) = span_end t.
Proof.
  induction tokens as [|t' tokens IH]; intros cursor; cbn; auto.
Qed.

Lemma well_tiled_after (tokens : list Token) :
  forall cursor t, well_tiled input cursor tokens -> In t tokens ->
  (cursor <= span_start t)%nat.
Proof.
  induction tokens as [|t' tokens IH]; intros cursor t H Hin; [destruct Hin|].
  cbn in H. destruct H as (H1 & H2 & _ & _ & _ & _ & H3).
  destruct Hin as [->|Hin]; [assumption|].
  specialize (IH _ _ H3 Hin). lia.
Qed.

Lemma well_tiled_ordered (front : list Token) (last : Token) :
  forall cursor, well_tiled input cursor (front ++ [last]) ->
  Forall not_end front ->
  spans_ordered (front ++ [last]).
Proof.
  induction front as [|t front IH]; intros cursor H Hfront i j ti tj Hij Hi Hj.
  - destruct i, j; try lia; cbn in Hj; destruct j; discriminate.
  - cbn in H. destruct H as (H1 & H2 & _ & H4 & _ & _ & H3).
    inversion Hfront as [|? ? Hne Hfront']; subst.
    destruct j as [|j]; [lia|]. cbn in Hj.
    destruct i as [|i].
    + cbn in Hi. injection Hi as <-.
      apply nth_error_In in Hj.
      pose proof (well_tiled_after _ _ _ H3 Hj). specialize (H4 Hne). lia.
    + cbn in Hi. apply (IH _ H3 Hfront' i j); auto; lia.
Qed.

End Tilings.

(** * Runs of the loop through particular states *)

Lemma is_whitespace_cases (c : Z) :
  is_whitespace c = true ->
  c = 9 \/ c = 10 \/ c = 11 \/ c = 12 \/ c = 13 \/ c = 32.
Proof.
  unfold is_whitespace. intros H. eval_codes_in H.
  rewrite orb_true_iff, andb_true_iff, Z.eqb_eq, !Z.leb_le in H. lia.
Qed.

Lemma ts_lex_case_whitespace (c : Z) :
  is_whitespace c = true -> ts_lex_case 0 false c = Some (None, SKIP 0).
Proof.
  intros H. apply is_whitespace_cases in H.
  destruct H as [-> | [-> | [-> | [-> | [-> | ->]]]]]; reflexivity.
Qed.

(** One round of the loop, with the lookahead read off the input. *)
Ltac lexer_round :=
  rewrite ts_lex_loop_S; unfold lookahead_of, eof_of; cbn [chunk hd app].

(** The [switch] on a state and a lookahead that are both known. *)
Ltac lexer_case :=
  match goal with
  | |- context [ts_lex_case ?s ?b ?c] =>
      let v := eval vm_compute in (ts_lex_case s b c) in
      change (ts_lex_case s b c) with v
  end.

(** The effect of the round on the lexer. *)
Ltac lexer_effect :=
  cbv beta iota zeta delta
    [accept_token mark_end set_result_symbol advance chunk current_position
     token_start_position token_end_position result_symbol].

Lemma lexer_result_eq (r : bool) rest (a a' ts b b' : nat) sym :
  a = a' -> b = b' ->
  Some (r, mkLexer rest a ts b sym) = Some (r, mkLexer rest a' ts b' sym).
Proof. now intros -> ->. Qed.

(** Whitespace before a token is skipped: the token starts after it. *)
Lemma ts_lex_loop_skip (ws : list Z) :
  forall fuel rest pos ts te sym,
  Forall (fun c => is_whitespace c = true) ws ->
  ts_lex_loop (length ws + fuel) (mkLexer (ws ++ rest) pos ts te sym) 0 false =
  ts_lex_loop fuel
    (mkLexer rest (pos + length ws) (match ws with [] => ts | _ :: _ => pos + length ws end)%nat te sym)
    0 false.
Proof.
  induction ws as [|c ws IH]; intros fuel rest pos ts te sym Hws.
  - cbn. now rewrite Nat.add_0_r.
  - inversion Hws as [|? ? Hc Hws']; subst.
    cbn [length Nat.add app]. lexer_round. rewrite (ts_lex_case_whitespace _ Hc).
    lexer_effect.
    rewrite IH by assumption. f_equal.
    destruct ws; cbn [length]; f_equal; lia.
Qed.

(** The scan of an input whose unread part is [ws ++ rest], in terms of the
    loop started on [rest] after the whitespace. *)
Lemma scan_after_whitespace (input : list Z) (cursor : nat) (ws rest : list Z)
    (fuel : nat) (x : bool * TSLexer) :
  skipn cursor input = ws ++ rest ->
  Forall (fun c => is_whitespace c = true) ws ->
  ts_lex_loop fuel
    (mkLexer rest (cursor + length ws) (cursor + length ws) cursor
       ts_builtin_sym_end) 0 false = Some x ->
  ts_lex (lexer_at input cursor) 0 = x.
Proof.
  intros Hin Hws Hloop.
  apply (ts_lex_loop_ts_lex (length ws + fuel)).
  unfold lexer_at. rewrite Hin, ts_lex_loop_skip by assumption.
  rewrite <- Hloop. f_equal. f_equal. destruct ws; cbn [length]; lia.
Qed.

Lemma skipn_after (input : list Z) (cursor : nat) (ws rest : list Z) :
  skipn cursor input = ws ++ rest ->
  skipn (cursor + length ws) input = rest.
Proof.
  intros H. rewrite Nat.add_comm, <- skipn_skipn, H.
  rewrite skipn_app, skipn_all, Nat.sub_diag. reflexivity.
Qed.

(** ** Strings: state 2 *)

Lemma ts_lex_case_2 (eof : bool) (c : Z) :
  ts_lex_case 2 eof c =
  NO_TOKEN (if c =? 34 then ADVANCE 9 else
            if c !=? 0 then ADVANCE 2 else END_STATE).
Proof. reflexivity. Qed.

(** Without a closing quote the loop ends with [result] still [false]. *)
Lemma ts_lex_loop_string_open (body : list Z) :
  forall pos ts te sym,
  ~ In 34 body ->
  exists lexer,
    ts_lex_loop (S (length body)) (mkLexer body pos ts te sym) 2 false =
      Some (false, lexer) /\
    token_start_position lexer = ts.
Proof.
  induction body as [|c body IH]; intros pos ts te sym Hq.
  - eexists. split; reflexivity.
  - lexer_round.
    rewrite ts_lex_case_2. unfold NO_TOKEN.
    rewrite (eqb_false_intro c 34) by (intros ->; apply Hq; now left).
    destruct (c =? 0) eqn:Hc0; cbn [negb accept_token].
    + eexists. split; reflexivity.
    + lexer_effect.
      apply IH. intros Hin. apply Hq. now right.
Qed.

(** ** Line comments: state 8 *)

Lemma ts_lex_case_8 (eof : bool) (c : Z) :
  ts_lex_case 8 eof c =
  ACCEPT_TOKEN sym_comment (if in_line_comment c then ADVANCE 8 else END_STATE).
Proof. reflexivity. Qed.

(** A line comment takes in the characters up to the first that it does not
    accept, or up to the end of the input. *)
Lemma ts_lex_loop_line_comment (body : list Z) :
  forall rest pos ts te sym result,
  Forall (fun c => in_line_comment c = true) body ->
  in_line_comment (hd 0 rest) = false ->
  ts_lex_loop (S (length body)) (mkLexer (body ++ rest) pos ts te sym) 8 result =
  Some (true, mkLexer rest (pos + length body) ts (pos + length body) sym_comment).
Proof.
  induction body as [|c body IH]; intros rest pos ts te sym result Hbody Hrest.
  - lexer_round.
    rewrite ts_lex_case_8, Hrest. unfold ACCEPT_TOKEN.
    lexer_effect. cbn [length].
    now rewrite Nat.add_0_r.
  - inversion Hbody as [|? ? Hc Hbody']; subst.
    lexer_round.
    rewrite ts_lex_case_8, Hc. unfold ACCEPT_TOKEN.
    lexer_effect. cbn [length].
    rewrite IH by assumption. apply lexer_result_eq; lia.
Qed.

(** ** Numbers: states 10, 5 and 11 *)

Lemma ts_lex_case_10 (eof : bool) (c : Z) :
  ts_lex_case 10 eof c =
  ACCEPT_TOKEN sym_number (if c =? "." then ADVANCE 5 else
                           if is_digit c then ADVANCE 10 else END_STATE).
Proof. reflexivity. Qed.

Lemma ts_lex_case_5 (eof : bool) (c : Z) :
  ts_lex_case 5 eof c = NO_TOKEN (if is_digit c then ADVANCE 11 else END_STATE).
Proof. reflexivity. Qed.

Lemma is_digit_not_dot (c : Z) : is_digit c = true -> (c =? ".") = false.
Proof.
  unfold is_digit. intros H. eval_codes_in H. eval_codes.
  rewrite andb_true_iff, !Z.leb_le in H. apply Z.eqb_neq. lia.
Qed.

Lemma ts_lex_case_0_digit (c : Z) :
  is_digit c = true -> ts_lex_case 0 false c = Some (None, ADVANCE 10).
Proof.
  unfold is_digit. intros H. eval_codes_in H.
  rewrite andb_true_iff, !Z.leb_le in H.
  assert (Hc : c = 48 \/ c = 49 \/ c = 50 \/ c = 51 \/ c = 52 \/ c = 53 \/
               c = 54 \/ c = 55 \/ c = 56 \/ c = 57) by lia.
  repeat (destruct Hc as [-> | Hc]; [reflexivity|]). subst. reflexivity.
Qed.

(** Digits followed by a dot that no digit follows: the number ends before
    the dot. *)
Lemma ts_lex_loop_digits_dot (ds : list Z) :
  forall rest pos ts te sym result,
  Forall (fun c => is_digit c = true) ds ->
  is_digit (hd 0 rest) = false ->
  ts_lex_loop (length ds + 2) (mkLexer (ds ++ 46 :: rest) pos ts te sym) 10 result =
  Some (true, mkLexer rest (S (pos + length ds)) ts (pos + length ds) sym_number).
Proof.
  induction ds as [|c ds IH]; intros rest pos ts te sym result Hds Hrest.
  - cbn [length Nat.add app]. lexer_round. rewrite ts_lex_case_10.
    change (46 =? ".") with true. unfold ACCEPT_TOKEN.
    lexer_effect.
    lexer_round.
    assert (Heof : forall b, ts_lex_case 5 b (hd 0 rest) = Some (None, END_STATE)).
    { intros b. now rewrite ts_lex_case_5, Hrest. }
    rewrite Heof. cbn [accept_token]. now rewrite Nat.add_0_r.
  - inversion Hds as [|? ? Hc Hds']; subst.
    cbn [length Nat.add app]. lexer_round.
    rewrite ts_lex_case_10, (is_digit_not_dot _ Hc), Hc. unfold ACCEPT_TOKEN.
    lexer_effect.
    rewrite IH by assumption. apply lexer_result_eq; lia.
Qed.

Lemma ts_lex_case_11 (eof : bool) (c : Z) :
  ts_lex_case 11 eof c =
  ACCEPT_TOKEN sym_number (if is_digit c then ADVANCE 11 else END_STATE).
Proof. reflexivity. Qed.

(** The digits of a fraction. *)
Lemma ts_lex_loop_fraction (ds : list Z) :
  forall rest pos ts te sym result,
  Forall (fun c => is_digit c = true) ds ->
  is_digit (hd 0 rest) = false ->
  ts_lex_loop (S (length ds)) (mkLexer (ds ++ rest) pos ts te sym) 11 result =
  Some (true, mkLexer rest (pos + length ds) ts (pos + length ds) sym_number).
Proof.
  induction ds as [|c ds IH]; intros rest pos ts te sym result Hds Hrest.
  - lexer_round. rewrite ts_lex_case_11, Hrest. unfold ACCEPT_TOKEN.
    lexer_effect. apply lexer_result_eq; cbn [length]; lia.
  - inversion Hds as [|? ? Hc Hds']; subst.
    lexer_round. rewrite ts_lex_case_11, Hc. unfold ACCEPT_TOKEN. lexer_effect.
    rewrite IH by assumption. apply lexer_result_eq; cbn [length]; lia.
Qed.

(** Digits, a dot and digits: the number runs to the end of the fraction. *)
Lemma ts_lex_loop_digits_fraction (ds : list Z) :
  forall fs rest pos ts te sym result,
  Forall (fun c => is_digit c = true) ds ->
  fs <> [] ->
  Forall (fun c => is_digit c = true) fs ->
  is_digit (hd 0 rest) = false ->
  ts_lex_loop (length ds + S (S (length fs)))
    (mkLexer (ds ++ 46 :: fs ++ rest) pos ts te sym) 10 result =
  Some (true, mkLexer rest (pos + length ds + S (length fs)) ts
                (pos + length ds + S (length fs)) sym_number).
Proof.
  induction ds as [|c ds IH]; intros fs rest pos ts te sym result Hds Hne Hfs Hrest.
  - destruct fs as [|f fs]; [contradiction|].
    inversion Hfs as [|? ? Hf Hfs']; subst.
    cbn [length Nat.add app]. lexer_round. rewrite ts_lex_case_10.
    change (46 =? ".") with true. unfold ACCEPT_TOKEN. lexer_effect.
    lexer_round. rewrite ts_lex_case_5, Hf. unfold NO_TOKEN. lexer_effect.
    rewrite ts_lex_loop_fraction by assumption.
    apply lexer_result_eq; cbn [length]; lia.
  - inversion Hds as [|? ? Hc Hds']; subst.
    cbn [length Nat.add app]. lexer_round.
    rewrite ts_lex_case_10, (is_digit_not_dot _ Hc), Hc. unfold ACCEPT_TOKEN.
    lexer_effect. rewrite IH by assumption.
    apply lexer_result_eq; cbn [length]; lia.
Qed.

(** ** The hash sign: state 1 *)

Lemma ts_lex_case_1 (eof : bool) (c : Z) :
  ts_lex_case 1 eof c = NO_TOKEN (if c =? "!" then ADVANCE 8 else END_STATE).
Proof. reflexivity. Qed.

(** ** The minus sign: state 15 *)

Lemma ts_lex_case_15 (eof : bool) (c : Z) :
  ts_lex_case 15 eof c =
  ACCEPT_TOKEN sym_operator (if c =? "-" then ADVANCE 8 else END_STATE).
Proof. reflexivity. Qed.

(** ** Block comments: states 4, 3 and 7 *)

Lemma ts_lex_case_4 (eof : bool) (c : Z) :
  ts_lex_case 4 eof c =
  NO_TOKEN (if c =? "*" then ADVANCE 3 else
            if c !=? 0 then ADVANCE 4 else END_STATE).
Proof. reflexivity. Qed.

Lemma ts_lex_case_3 (eof : bool) (c : Z) :
  ts_lex_case 3 eof c =
  NO_TOKEN (if c =? ")" then ADVANCE 7 else
            if c =? "*" then ADVANCE 3 else
            if c !=? 0 then ADVANCE 4 else END_STATE).
Proof. reflexivity. Qed.

(** Inside a block comment, in state 4 or in state 3 (after a star), the
    loop runs to the first closing mark, and accepts the comment there. *)
Lemma ts_lex_loop_block_comment (body : list Z) :
  forall state rest pos ts te sym result,
  state = 4 \/ (state = 3 /\ hd 0 body <> ")"%char) ->
  Forall (fun c => c <> 0) body ->
  has_close_mark body = false ->
  ts_lex_loop (length body + 3)
    (mkLexer (body ++ 42 :: 41 :: rest) pos ts te sym) state result =
  Some (true, mkLexer rest (pos + length body + 2) ts (pos + length body + 2)
                sym_comment).
Proof.
  induction body as [|c body IH];
    intros state rest pos ts te sym result Hstate Hbody Hclose.
  - cbn [length Nat.add app].
    assert (Hstar : ts_lex_loop 2 (mkLexer (41 :: rest) (S pos) ts te sym) 3 result =
              Some (true, mkLexer rest (pos + 0 + 2) ts (pos + 0 + 2) sym_comment)).
    { lexer_round. lexer_case. lexer_effect. lexer_round. lexer_case.
      lexer_effect. apply lexer_result_eq; lia. }
    destruct Hstate as [-> | [-> _]]; lexer_round; lexer_case; lexer_effect;
      exact Hstar.
  - inversion Hbody as [|? ? Hc Hbody']; subst.
    cbn [has_close_mark] in Hclose. apply orb_false_iff in Hclose.
    destruct Hclose as [Hpair Hclose].
    cbn [length Nat.add app].
    assert (Hnext : forall state',
              state' = (if c =? "*"%char then 3 else 4) ->
              ts_lex_loop (length body + 3)
                (mkLexer (body ++ 42 :: 41 :: rest) (S pos) ts te sym) state' result =
              Some (true, mkLexer rest (pos + S (length body) + 2) ts
                            (pos + S (length body) + 2) sym_comment)).
    { intros state' ->. rewrite IH; auto.
      - apply lexer_result_eq; lia.
      - destruct (c =? "*"%char) eqn:Hstar; [right|now left].
        split; [reflexivity|]. cbn [andb] in Hpair. now apply Z.eqb_neq. }
    destruct Hstate as [-> | [-> Hhd]]; lexer_round.
    + rewrite ts_lex_case_4. unfold NO_TOKEN.
      rewrite (eqb_false_intro c 0 Hc). cbn [negb].
      destruct (c =? "*"%char) eqn:Hstar; lexer_effect; apply Hnext;
        rewrite ?Hstar; reflexivity.
    + cbn [hd] in Hhd. rewrite ts_lex_case_3. unfold NO_TOKEN.
      rewrite (eqb_false_intro c _ Hhd), (eqb_false_intro c 0 Hc). cbn [negb].
      destruct (c =? "*"%char) eqn:Hstar; lexer_effect; apply Hnext;
        rewrite ?Hstar; reflexivity.
Qed.

Lemma scan_one_block_comment (input : list Z) (cursor : nat)
    (ws body rest : list Z) :
  skipn cursor input = ws ++ 40 :: 42 :: body ++ 42 :: 41 :: rest ->
  Forall (fun c => is_whitespace c = true) ws ->
  Forall (fun c => c <> 0) body ->
  has_close_mark body = false ->
  scan_one input cursor =
  Scanned (mkToken sym_comment (cursor + length ws)
             (cursor + length ws + length body + 4))
          (cursor + length ws + length body + 4).
Proof.
  intros Hin Hws Hbody Hclose. unfold scan_one, ts_lex_modes.
  erewrite (scan_after_whitespace input cursor ws _ (S (S (length body + 3)))
              _ Hin Hws).
  2:{ lexer_round. lexer_case. lexer_effect. lexer_round. lexer_case.
      unfold ACCEPT_TOKEN. lexer_effect.
      apply ts_lex_loop_block_comment; auto. }
  cbn [result_symbol token_start_position token_end_position].
  replace (S (S (cursor + length ws)) + length body + 2)%nat
    with (cursor + length ws + length body + 4)%nat by lia.
  reflexivity.
Qed.

(** * Identifiers and keywords *)

(** ** Boolean equalities *)

Lemma TSSymbol_eqb_eq (a b : TSSymbol) : TSSymbol_eqb a b = true -> a = b.
Proof. destruct a, b; (reflexivity || discriminate). Qed.

Lemma option_symbol_eqb_eq (a b : option TSSymbol) :
  option_symbol_eqb a b = true -> a = b.
Proof.
  destruct a, b; cbn; try discriminate; auto.
  intros H. now rewrite (TSSymbol_eqb_eq _ _ H).
Qed.

Lemma lex_action_eqb_eq (a b : lex_action) : lex_action_eqb a b = true -> a = b.
Proof.
  destruct a, b; cbn; try discriminate; auto;
    intros H; apply Z.eqb_eq in H; now subst.
Qed.

Lemma lex_step_eqb_eq (a b : lex_step) : lex_step_eqb a b = true -> a = b.
Proof.
  destruct a as [[s1 a1]|], b as [[s2 a2]|]; cbn; try discriminate; auto.
  rewrite andb_true_iff. intros [H1 H2].
  now rewrite (option_symbol_eqb_eq _ _ H1), (lex_action_eqb_eq _ _ H2).
Qed.

Lemma word_eqb_eq (u v : list Z) : word_eqb u v = true <-> u = v.
Proof.
  revert v. induction u as [|a u IH]; intros [|b v]; cbn;
    try (split; (reflexivity || discriminate)).
  rewrite andb_true_iff, Z.eqb_eq, IH. split.
  - now intros [-> ->].
  - intros H. now injection H.
Qed.

Lemma words_eqb_eq (l1 l2 : list (list Z)) : words_eqb l1 l2 = true -> l1 = l2.
Proof.
  revert l2. induction l1 as [|u l1 IH]; intros [|v l2]; cbn;
    try discriminate; auto.
  rewrite andb_true_iff, word_eqb_eq. intros [-> H]. now rewrite (IH _ H).
Qed.

(** ** The characters of an identifier are in the alphabet *)

Lemma is_identifier_char_alphabet (c : Z) :
  is_identifier_char c = true -> in_alphabet c = true.
Proof.
  unfold is_identifier_char, is_digit, is_letter, in_alphabet. intros H.
  eval_codes_in H.
  rewrite !orb_true_iff, !andb_true_iff, Z.eqb_eq, !Z.leb_le in H.
  rewrite !orb_true_iff, andb_true_iff, !Z.leb_le. lia.
Qed.

Lemma is_identifier_start_char (c : Z) :
  is_identifier_start c = true -> is_identifier_char c = true.
Proof.
  unfold is_identifier_start, is_identifier_char. intros H.
  apply orb_true_iff in H. rewrite !orb_true_iff. tauto.
Qed.

Lemma is_identifier_state_range (state : TSStateId) :
  is_identifier_state state = true -> 0 <= state <= 128.
Proof.
  intros H.
  destruct (Z_le_gt_dec 0 state) as [Hs|Hs];
    [destruct (Z_le_gt_dec state 128) as [Hs'|Hs']|]; [lia | exfalso ..];
    unfold is_identifier_state, accepted_symbol in H;
    rewrite ts_lex_case_default in H by lia; discriminate.
Qed.

Lemma is_identifier_state_symbol (state : TSStateId) :
  is_identifier_state state = true ->
  accepted_symbol state = Some (identifier_or_keyword state).
Proof.
  unfold is_identifier_state, identifier_or_keyword, accepts_keyword.
  destruct (accepted_symbol state) as [[]|]; (reflexivity || discriminate).
Qed.

(** ** The transitions of an identifier run, checked on the whole graph *)

Lemma identifier_transitions_checked : check_all identifier_transitions = true.
Proof. vm_compute. reflexivity. Qed.

Lemma ts_lex_case_identifier_start (c : Z) :
  is_identifier_start c = true ->
  ts_lex_case 0 false c = Some (None, ADVANCE (next_state 0 c)) /\
  is_identifier_state (next_state 0 c) = true.
Proof.
  intros Hc.
  pose proof (check_all_sound _ identifier_transitions_checked 0 false c
                ltac:(lia)
                (or_introl (is_identifier_char_alphabet _
                              (is_identifier_start_char _ Hc)))) as H.
  unfold identifier_transitions in H.
  change (is_identifier_state 0) with false in H. cbn [Z.eqb andb] in H.
  rewrite Hc in H. apply andb_true_iff in H. destruct H as [H1 H2].
  split; [exact (lex_step_eqb_eq _ _ H1) | exact H2].
Qed.

Lemma ts_lex_case_identifier_char (state : TSStateId) (c : Z) :
  is_identifier_state state = true ->
  is_identifier_char c = true ->
  ts_lex_case state false c =
    Some (Some (identifier_or_keyword state), ADVANCE (next_state state c)) /\
  is_identifier_state (next_state state c) = true.
Proof.
  intros Hs Hc.
  pose proof (check_all_sound _ identifier_transitions_checked state false c
                (is_identifier_state_range _ Hs)
                (or_introl (is_identifier_char_alphabet _ Hc))) as H.
  unfold identifier_transitions in H. rewrite Hs, Hc in H.
  apply andb_true_iff in H. destruct H as [H1 H2].
  rewrite <- (is_identifier_state_symbol _ Hs).
  split; [exact (lex_step_eqb_eq _ _ H1) | exact H2].
Qed.

Lemma ts_lex_case_identifier_end (state : TSStateId) (eof : bool) (c : Z) :
  is_identifier_state state = true ->
  is_identifier_char c = false ->
  ts_lex_case state eof c = Some (Some (identifier_or_keyword state), END_STATE).
Proof.
  intros Hs Hc. rewrite <- (is_identifier_state_symbol _ Hs).
  destruct (in_alphabet c) eqn:Ha.
  - pose proof (check_all_sound _ identifier_transitions_checked state eof c
                  (is_identifier_state_range _ Hs) (or_introl Ha)) as H.
    unfold identifier_transitions in H. rewrite Hs, Hc in H.
    exact (lex_step_eqb_eq _ _ H).
  - rewrite (ts_lex_case_other _ _ _ Ha).
    pose proof (check_all_sound _ identifier_transitions_checked state eof 128
                  (is_identifier_state_range _ Hs) (or_intror eq_refl)) as H.
    unfold identifier_transitions in H. rewrite Hs in H.
    change (is_identifier_char 128) with false in H.
    exact (lex_step_eqb_eq _ _ H).
Qed.

(** ** The run of the loop over an identifier *)

Lemma run_states_cons (state : TSStateId) (c : Z) (w : list Z) :
  run_states state (c :: w) = run_states (next_state state c) w.
Proof. reflexivity. Qed.

Lemma ts_lex_loop_identifier (cs : list Z) :
  forall state rest pos ts te sym result,
  is_identifier_state state = true ->
  Forall (fun c => is_identifier_char c = true) cs ->
  is_identifier_char (hd 0 rest) = false ->
  ts_lex_loop (S (length cs)) (mkLexer (cs ++ rest) pos ts te sym) state result =
  Some (true, mkLexer rest (pos + length cs) ts (pos + length cs)
                (identifier_or_keyword (run_states state cs))).
Proof.
  induction cs as [|c cs IH]; intros state rest pos ts te sym result Hs Hcs Hrest.
  - lexer_round. rewrite (ts_lex_case_identifier_end _ _ _ Hs Hrest).
    lexer_effect. apply lexer_result_eq; cbn [length]; lia.
  - inversion Hcs as [|? ? Hc Hcs']; subst.
    destruct (ts_lex_case_identifier_char _ _ Hs Hc) as [Hcase Hs'].
    lexer_round. rewrite Hcase. lexer_effect.
    rewrite (IH _ _ _ _ _ _ _ Hs' Hcs' Hrest), run_states_cons.
    apply lexer_result_eq; cbn [length]; lia.
Qed.

Lemma scan_one_identifier (input : list Z) (cursor : nat)
    (ws cs rest : list Z) (c0 : Z) :
  skipn cursor input = ws ++ (c0 :: cs) ++ rest ->
  Forall (fun c => is_whitespace c = true) ws ->
  is_identifier_start c0 = true ->
  Forall (fun c => is_identifier_char c = true) cs ->
  is_identifier_char (hd 0 rest) = false ->
  scan_one input cursor =
  Scanned (mkToken (identifier_or_keyword (run_states 0 (c0 :: cs)))
             (cursor + length ws) (cursor + length ws + length (c0 :: cs)))
          (cursor + length ws + length (c0 :: cs)).
Proof.
  intros Hin Hws Hc0 Hcs Hrest.
  destruct (ts_lex_case_identifier_start _ Hc0) as [Hcase Hs].
  unfold scan_one, ts_lex_modes.
  erewrite (scan_after_whitespace input cursor ws _ (S (S (length cs))) _ Hin Hws).
  2:{ lexer_round. rewrite Hcase. lexer_effect.
      apply ts_lex_loop_identifier; assumption. }
  cbn [result_symbol token_start_position token_end_position length].
  rewrite run_states_cons.
  replace (S (cursor + length ws) + length cs)%nat
    with (cursor + length ws + S (length cs))%nat by lia.
  reflexivity.
Qed.

(** ** The keyword table and the state graph *)

Lemma keyword_paths_agree_checked : check_states keyword_paths_agree = true.
Proof. vm_compute. reflexivity. Qed.

(** The table is the set of keyword paths from the start state. *)
Lemma keyword_paths_table : keyword_paths keyword_depth 0 = keywords.
Proof. vm_compute. reflexivity. Qed.

Lemma word_mem_derivative (x : Z) (v : list Z) (l : list (list Z)) :
  word_mem (x :: v) l = word_mem v (derivative x l).
Proof.
  unfold word_mem, derivative. induction l as [|w l IH]; [reflexivity|].
  cbn [existsb flat_map]. rewrite existsb_app, <- IH. f_equal.
  destruct w as [|y w]; cbn; [reflexivity|].
  rewrite (Z.eqb_sym x y). destruct (y =? x); cbn; [now rewrite orb_false_r|reflexivity].
Qed.

Lemma keyword_paths_agree_at (state : TSStateId) :
  is_identifier_state state || (state =? 0) = true ->
  let paths := keyword_paths keyword_depth state in
  word_mem [] paths = accepts_keyword state /\
  forall c,
    is_identifier_char c && (is_identifier_state state || is_identifier_start c) = true ->
    derivative (to_lower c) paths =
    keyword_paths keyword_depth (next_state state c).
Proof.
  intros Hs paths.
  assert (Hr : 0 <= state <= 128).
  { apply orb_true_iff in Hs. destruct Hs as [Hs|Hs].
    - now apply is_identifier_state_range.
    - apply Z.eqb_eq in Hs. lia. }
  pose proof (check_states_sound _ keyword_paths_agree_checked _ Hr) as H.
  unfold keyword_paths_agree in H. rewrite Hs in H. fold paths in H.
  apply andb_true_iff in H. destruct H as [H1 H2]. split.
  - now apply eqb_prop in H1.
  - intros c Hc. rewrite forallb_forall in H2.
    assert (Ha : in_alphabet c = true).
    { apply andb_true_iff in Hc. now apply is_identifier_char_alphabet. }
    specialize (H2 c (In_alphabet c (or_introl Ha))).
    rewrite Hc in H2. now apply words_eqb_eq in H2.
Qed.

Lemma keyword_paths_nil (state : TSStateId) :
  is_identifier_state state = true ->
  word_mem [] (keyword_paths keyword_depth state) = accepts_keyword state.
Proof.
  intros Hs. apply keyword_paths_agree_at. now rewrite Hs.
Qed.

Lemma keyword_paths_cons (state : TSStateId) (c : Z) (v : list Z) :
  is_identifier_state state = true ->
  is_identifier_char c = true ->
  word_mem (to_lower c :: v) (keyword_paths keyword_depth state) =
  word_mem v (keyword_paths keyword_depth (next_state state c)).
Proof.
  intros Hs Hc. rewrite word_mem_derivative. f_equal.
  apply keyword_paths_agree_at; now rewrite Hs, ?Hc.
Qed.

Lemma keyword_paths_start (c : Z) (v : list Z) :
  is_identifier_start c = true ->
  word_mem (to_lower c :: v) (keyword_paths keyword_depth 0) =
  word_mem v (keyword_paths keyword_depth (next_state 0 c)).
Proof.
  intros Hc. rewrite word_mem_derivative. f_equal.
  apply keyword_paths_agree_at; [reflexivity|].
  now rewrite (is_identifier_start_char _ Hc), Hc, orb_true_r.
Qed.

(** A run of identifier characters ends in a keyword state exactly when its
    lower-case version is a keyword path of the state it starts in. *)
Lemma run_states_keyword (cs : list Z) :
  forall state,
  is_identifier_state state = true ->
  Forall (fun c => is_identifier_char c = true) cs ->
  accepts_keyword (run_states state cs) =
  word_mem (map to_lower cs) (keyword_paths keyword_depth state).
Proof.
  induction cs as [|c cs IH]; intros state Hs Hcs.
  - unfold run_states. cbn [fold_left map]. symmetry. apply keyword_paths_nil, Hs.
  - inversion Hcs as [|? ? Hc Hcs']; subst.
    destruct (ts_lex_case_identifier_char _ _ Hs Hc) as [_ Hs'].
    rewrite run_states_cons, (IH _ Hs' Hcs'). cbn [map].
    symmetry. apply keyword_paths_cons; assumption.
Qed.

Lemma run_states_is_keyword (c0 : Z) (cs : list Z) :
  is_identifier_start c0 = true ->
  Forall (fun c => is_identifier_char c = true) cs ->
  accepts_keyword (run_states 0 (c0 :: cs)) = is_keyword (c0 :: cs).
Proof.
  intros Hc0 Hcs.
  destruct (ts_lex_case_identifier_start _ Hc0) as [_ Hs].
  rewrite run_states_cons, (run_states_keyword _ _ Hs Hcs).
  unfold is_keyword. cbn [map]. rewrite <- keyword_paths_table.
  symmetry. now apply keyword_paths_start.
Qed.

(** C3 (as amended): an identifier-or-keyword run, a letter or an
    underscore followed by letters, digits and underscores, is emitted as one
    token that spans the whole run; the token is classified as a keyword when
    the run matches an entry of the keyword table without regard to case, and
    as an identifier otherwise. *)
Theorem identifier_run_classification (input : list Z) (cursor : nat)
    (ws cs rest : list Z) (c0 : Z) :
  skipn cursor input = ws ++ (c0 :: cs) ++ rest ->
  Forall (fun c => is_whitespace c = true) ws ->
  is_identifier_start c0 = true ->
  Forall (fun c => is_identifier_char c = true) cs ->
  is_identifier_char (hd 0 rest) = false ->
  let run_end := (cursor + length ws + length (c0 :: cs))%nat in
  let symbol := if is_keyword (c0 :: cs) then sym_keyword else sym_identifier in
  scan_one input cursor =
    Scanned (mkToken symbol (cursor + length ws) run_end) run_end.
Proof.
  intros Hin Hws Hc0 Hcs Hrest run_end symbol.
  rewrite (scan_one_identifier _ _ _ _ _ _ Hin Hws Hc0 Hcs Hrest).
  unfold symbol, run_end, identifier_or_keyword.
  now rewrite (run_states_is_keyword _ _ Hc0 Hcs).
Qed.

Lemma identifier_run_classification_witness :
  scan_one (codes " Repeat9 x") 0 = Scanned (mkToken sym_identifier 1 8) 8 /\
  scan_one (codes " RePeat+") 0 = Scanned (mkToken sym_keyword 1 7) 7.
Proof.
  split.
  - apply (identifier_run_classification (codes " Repeat9 x") 0 [32]
             (codes "epeat9") (codes " x") "R"%char).
    + reflexivity.
    + repeat constructor.
    + reflexivity.
    + repeat constructor.
    + reflexivity.
  - apply (identifier_run_classification (codes " RePeat+") 0 [32]
             (codes "ePeat") (codes "+") "R"%char).
    + reflexivity.
    + repeat constructor.
    + reflexivity.
    + repeat constructor.
    + reflexivity.
Defined.

(** C3 fails as stated: the run [if] matches the keyword table and is
    emitted as a keyword token, not as an identifier token. *)
Lemma keyword_run_is_not_identifier :
  is_identifier_start "i"%char = true /\
  is_identifier_char "f"%char = true /\
  scan_one (codes "if") 0 = Scanned (mkToken sym_keyword 0 2) 2 /\
  ~ (exists t new_cursor,
       scan_one (codes "if") 0 = Scanned t new_cursor /\ kind t = sym_identifier).
Proof.
  split; [reflexivity|]. split; [reflexivity|]. split; [reflexivity|].
  intros (t & new_cursor & H & Hk). vm_compute in H.
  injection H as <- _. discriminate.
Qed.

(** * Letter case *)

Lemma case_insensitive_checked : check_all case_insensitive_at = true.
Proof. vm_compute. reflexivity. Qed.

Lemma to_lower_other (c : Z) : in_alphabet c = false -> to_lower c = c.
Proof.
  intros H. apply in_alphabet_false in H. destruct H as [H _].
  unfold to_lower. eval_codes.
  destruct H; decide_tests c; reflexivity.
Qed.

Lemma ts_lex_case_to_lower (state : TSStateId) (eof : bool) (c : Z) :
  ts_lex_case state eof (to_lower c) = ts_lex_case state eof c.
Proof.
  destruct (in_alphabet c) eqn:Ha; [|now rewrite (to_lower_other _ Ha)].
  destruct (Z_le_gt_dec 0 state) as [Hs|Hs];
    [destruct (Z_le_gt_dec state 128) as [Hs'|Hs']|];
    [| rewrite !ts_lex_case_default by lia; reflexivity ..].
  apply lex_step_eqb_eq.
  apply (check_all_sound _ case_insensitive_checked state eof c);
    [lia | now left].
Qed.

Lemma to_lower_0 : to_lower 0 = 0.
Proof. reflexivity. Qed.

Lemma lookahead_of_lower (lexer : TSLexer) :
  lookahead_of (lower_lexer lexer) = to_lower (lookahead_of lexer).
Proof. destruct lexer as [[|c ch] pos ts te sym]; reflexivity. Qed.

Lemma eof_of_lower (lexer : TSLexer) : eof_of (lower_lexer lexer) = eof_of lexer.
Proof. destruct lexer as [[|c ch] pos ts te sym]; reflexivity. Qed.

Lemma accept_token_lower accepted result lexer :
  accept_token accepted result (lower_lexer lexer) =
  (fst (accept_token accepted result lexer),
   lower_lexer (snd (accept_token accepted result lexer))).
Proof. destruct accepted; reflexivity. Qed.

Lemma advance_lower lexer skip :
  advance (lower_lexer lexer) skip = lower_lexer (advance lexer skip).
Proof.
  destruct lexer as [[|c ch] pos ts te sym]; reflexivity.
Qed.

(** The loop on the lower-case input makes the same rounds. *)
Lemma ts_lex_loop_lower (fuel : nat) :
  forall lexer state result,
  ts_lex_loop fuel (lower_lexer lexer) state result =
  option_map (fun x => (fst x, lower_lexer (snd x)))
             (ts_lex_loop fuel lexer state result).
Proof.
  induction fuel as [|fuel IH]; intros lexer state result; [reflexivity|].
  rewrite !ts_lex_loop_S, eof_of_lower, lookahead_of_lower, ts_lex_case_to_lower.
  destruct (ts_lex_case state (eof_of lexer) (lookahead_of lexer))
    as [[accepted action]|]; [|reflexivity].
  rewrite accept_token_lower.
  destruct (accept_token accepted result lexer) as [result' lexer'].
  cbn [fst snd]. destruct action; rewrite ?advance_lower, ?IH; reflexivity.
Qed.

Lemma ts_lex_lower (lexer : TSLexer) (state : TSStateId) :
  ts_lex (lower_lexer lexer) state =
  (fst (ts_lex lexer state), lower_lexer (snd (ts_lex lexer state))).
Proof.
  apply (ts_lex_loop_ts_lex (lex_fuel lexer)).
  now rewrite ts_lex_loop_lower, ts_lex_loop_total.
Qed.

Lemma lexer_at_lower (input : list Z) (cursor : nat) :
  lexer_at (map to_lower input) cursor = lower_lexer (lexer_at input cursor).
Proof. unfold lexer_at, lower_lexer. cbn. now rewrite skipn_map. Qed.

Lemma to_lower_eqb (c k : Z) :
  ~ (65 <= k <= 90) -> ~ (97 <= k <= 122) -> (to_lower c =? k) = (c =? k).
Proof.
  intros Hu Hl. unfold to_lower. eval_codes.
  destruct ((65 <=? c) && (c <=? 90)) eqn:Hc; [|reflexivity].
  rewrite andb_true_iff, !Z.leb_le in Hc.
  rewrite !eqb_false_intro by lia. reflexivity.
Qed.

Lemma classify_error_lower (input : list Z) (offset : nat) :
  classify_error (map to_lower input) offset = classify_error input offset.
Proof.
  unfold classify_error. rewrite skipn_map.
  destruct (skipn offset input) as [|a [|b l]]; cbn [map hd tl];
    eval_codes; rewrite ?to_lower_eqb by lia; reflexivity.
Qed.

Lemma scan_one_lower (input : list Z) (cursor : nat) :
  scan_one (map to_lower input) cursor = scan_one input cursor.
Proof.
  unfold scan_one. rewrite lexer_at_lower, ts_lex_lower.
  destruct (ts_lex (lexer_at input cursor) (ts_lex_modes 1)) as [[|] lexer];
    cbn [fst snd lower_lexer result_symbol token_start_position token_end_position];
    [reflexivity|].
  now rewrite classify_error_lower.
Qed.

Lemma tokenize_loop_lower (fuel : nat) :
  forall input cursor collected,
  tokenize_loop fuel (map to_lower input) cursor collected =
  tokenize_loop fuel input cursor collected.
Proof.
  induction fuel as [|fuel IH]; intros input cursor collected; [reflexivity|].
  rewrite !tokenize_loop_S, scan_one_lower.
  destruct (scan_one input cursor) as [t new_cursor|e]; [|reflexivity].
  destruct (kind t); auto.
Qed.

Lemma tokenize_lower (input : list Z) :
  tokenize (map to_lower input) = tokenize input.
Proof. unfold tokenize. now rewrite length_map, tokenize_loop_lower. Qed.

(** C8: letter case does not matter to the classification, and the text of
    a token keeps the case of the input: two inputs that differ only in the
    case of letters yield the same sequence of token kinds and spans; and the
    input Foo yields a single identifier token whose text is Foo. *)
Theorem tokenize_case_insensitive (u v : list Z) :
  same_up_to_case u v ->
  tokenize u = tokenize v /\
  tokenize (codes "Foo") =
    Some ([mkToken sym_identifier 0 3; end_token (codes "Foo")], None) /\
  token_text (codes "Foo") (mkToken sym_identifier 0 3) = codes "Foo".
Proof.
  intros H. split; [|split; reflexivity].
  unfold same_up_to_case in H.
  now rewrite <- (tokenize_lower u), H, tokenize_lower.
Qed.

Lemma tokenize_case_insensitive_witness :
  same_up_to_case (codes "Tell me IF x") (codes "tELL Me if X") /\
  tokenize (codes "Tell me IF x") = tokenize (codes "tELL Me if X").
Proof.
  split; [reflexivity|].
  apply (tokenize_case_insensitive (codes "Tell me IF x") (codes "tELL Me if X")).
  reflexivity.
Defined.

(** * The claims on particular token classes *)

Lemma classify_error_at (input : list Z) (offset : nat) (rest : list Z) :
  skipn offset input = rest ->
  classify_error input offset =
  if hd 0 rest =? 34 then UnterminatedString
  else if (hd 0 rest =? "("%char) && (hd 0 (tl rest) =? "*"%char)
       then UnterminatedComment
       else NoMatchingRule.
Proof. intros <-. reflexivity. Qed.

(** ** Unterminated strings *)

Lemma scan_one_string_open (input : list Z) (cursor : nat) (ws body : list Z) :
  skipn cursor input = ws ++ 34 :: body ->
  Forall (fun c => is_whitespace c = true) ws ->
  ~ In 34 body ->
  scan_one input cursor =
  Failed (mkLexError UnterminatedString (cursor + length ws)).
Proof.
  intros Hin Hws Hq.
  destruct (ts_lex_loop_string_open body (S (cursor + length ws))
              (cursor + length ws) cursor ts_builtin_sym_end Hq)
    as (lexer & Hrun & Hstart).
  unfold scan_one, ts_lex_modes.
  rewrite (scan_after_whitespace input cursor ws (34 :: body)
             (S (S (length body))) (false, lexer) Hin Hws).
  - rewrite Hstart, (classify_error_at _ _ _ (skipn_after _ _ _ _ Hin)).
    reflexivity.
  - lexer_round. lexer_case.
    lexer_effect. exact Hrun.
Qed.

(** The sequencer goes through the tokens of successive scans and keeps
    them, in order. *)
Lemma scans_tokenize_loop (input : list Z) (cursor : nat) (tokens : list Token)
    (cursor' : nat) :
  scans input cursor tokens cursor' ->
  forall fuel collected,
  tokenize_loop (length tokens + fuel) input cursor collected =
  tokenize_loop fuel input cursor' (rev tokens ++ collected).
Proof.
  induction 1 as [cursor | cursor t new_cursor tokens cursor' Hscan Hkind _ IH];
    intros fuel collected; [reflexivity|].
  cbn [length Nat.add rev].
  rewrite (tokenize_loop_continue _ _ _ _ _ _ Hscan Hkind), IH.
  now rewrite <- app_assoc.
Qed.

(** Each of the tokens takes at least one input unit. *)
Lemma scans_cursor (input : list Z) (cursor : nat) (tokens : list Token)
    (cursor' : nat) :
  scans input cursor tokens cursor' -> (cursor + length tokens <= cursor')%nat.
Proof.
  induction 1 as [cursor | cursor t new_cursor tokens cursor' Hscan Hkind _ IH].
  - cbn [length]. lia.
  - destruct (scan_one_progress _ _ _ _ Hscan Hkind) as (H1 & H2 & H3).
    cbn [length]. lia.
Qed.

(** C5: when a double quote is opened and the input ends before a closing
    quote, the scan fails with [UnterminatedString] at the offset of the
    opening quote; and when the scans from the start of the input have
    returned tokens up to there, the sequencer returns exactly these tokens,
    all of them and in order, together with that error.  For the input made
    of an opening quote followed by the letters abc the offset is 0 and no
    token is returned. *)
Theorem unterminated_string_error (input : list Z) (cursor : nat)
    (ws body : list Z) (tokens : list Token) :
  skipn cursor input = ws ++ 34 :: body ->
  Forall (fun c => is_whitespace c = true) ws ->
  ~ In 34 body ->
  scan_one input cursor =
    Failed (mkLexError UnterminatedString (cursor + length ws)) /\
  (scans input 0 tokens cursor ->
   tokenize input =
     Some (tokens, Some (mkLexError UnterminatedString (cursor + length ws)))) /\
  tokenize (34 :: codes "abc") =
    Some ([], Some (mkLexError UnterminatedString 0)).
Proof.
  intros Hin Hws Hq.
  pose proof (scan_one_string_open input cursor ws body Hin Hws Hq) as Hscan.
  split; [exact Hscan|]. split; [|reflexivity].
  intros Hscans.
  pose proof (scans_cursor _ _ _ _ Hscans) as Hlen.
  assert (Hcursor : (cursor < length input)%nat).
  { pose proof (length_skipn cursor input) as Hl. rewrite Hin in Hl.
    rewrite length_app in Hl. cbn [length] in Hl. lia. }
  unfold tokenize.
  replace (S (length input))
    with (length tokens + S (length input - length tokens))%nat by lia.
  rewrite (scans_tokenize_loop _ _ _ _ Hscans), tokenize_loop_S, Hscan.
  now rewrite app_nil_r, rev_involutive.
Qed.

Lemma unterminated_string_error_witness :
  scan_one (codes "x = " ++ 34 :: codes "abc") 3 =
    Failed (mkLexError UnterminatedString 4) /\
  tokenize (codes "x = " ++ 34 :: codes "abc") =
    Some ([mkToken sym_identifier 0 1; mkToken sym_operator 2 3],
          Some (mkLexError UnterminatedString 4)) /\
  tokenize (34 :: codes "abc") =
    Some ([], Some (mkLexError UnterminatedString 0)).
Proof.
  destruct (unterminated_string_error (codes "x = " ++ 34 :: codes "abc") 3
              [32] (codes "abc")
              [mkToken sym_identifier 0 1; mkToken sym_operator 2 3])
    as (H1 & H2 & H3).
  - reflexivity.
  - repeat constructor.
  - vm_compute. intuition discriminate.
  - split; [exact H1|]. split; [|exact H3].
    apply H2.
    apply (scans_cons _ 0 (mkToken sym_identifier 0 1) 1);
      [reflexivity | discriminate |].
    apply (scans_cons _ 1 (mkToken sym_operator 2 3) 3);
      [reflexivity | discriminate |].
    apply scans_nil.
Defined.

(** ** The hash sign *)

Lemma split_line_comment (l : list Z) :
  exists body rest,
    l = body ++ rest /\
    Forall (fun c => in_line_comment c = true) body /\
    in_line_comment (hd 0 rest) = false.
Proof.
  induction l as [|c l (body & rest & -> & Hbody & Hrest)].
  - exists [], []. repeat split; auto.
  - destruct (in_line_comment c) eqn:Hc.
    + exists (c :: body), rest. repeat split; auto.
    + exists [], (c :: body ++ rest). repeat split; auto.
Qed.

Lemma scan_one_hash_bang (input : list Z) (cursor : nat) (ws body rest : list Z) :
  skipn cursor input = ws ++ 35 :: 33 :: body ++ rest ->
  Forall (fun c => is_whitespace c = true) ws ->
  Forall (fun c => in_line_comment c = true) body ->
  in_line_comment (hd 0 rest) = false ->
  scan_one input cursor =
  Scanned (mkToken sym_comment (cursor + length ws)
             (cursor + length ws + 2 + length body))
          (cursor + length ws + 2 + length body).
Proof.
  intros Hin Hws Hbody Hrest. unfold scan_one, ts_lex_modes.
  erewrite (scan_after_whitespace input cursor ws _ (S (S (S (length body))))
              _ Hin Hws).
  2:{ lexer_round. lexer_case.
      lexer_effect. lexer_round. rewrite ts_lex_case_1.
      change (33 =? "!"%char) with true. unfold NO_TOKEN. lexer_effect.
      apply ts_lex_loop_line_comment; assumption. }
  cbn [result_symbol token_start_position token_end_position].
  do 2 f_equal; lia.
Qed.

Lemma scan_one_hash_alone (input : list Z) (cursor : nat) (ws rest : list Z) :
  skipn cursor input = ws ++ 35 :: rest ->
  Forall (fun c => is_whitespace c = true) ws ->
  hd 0 rest <> "!"%char ->
  scan_one input cursor = Failed (mkLexError NoMatchingRule (cursor + length ws)).
Proof.
  intros Hin Hws Hrest. unfold scan_one, ts_lex_modes.
  erewrite (scan_after_whitespace input cursor ws _ 2 _ Hin Hws).
  2:{ lexer_round. lexer_case.
      lexer_effect. lexer_round.
      assert (Hcase : forall b, ts_lex_case 1 b (hd 0 rest) = Some (None, END_STATE)).
      { intros b. rewrite ts_lex_case_1.
        now rewrite (eqb_false_intro _ _ Hrest). }
      rewrite Hcase. lexer_effect. reflexivity. }
  cbn [token_start_position].
  now rewrite (classify_error_at _ _ _ (skipn_after _ _ _ _ Hin)).
Qed.

Lemma skipn_slice (input : list Z) (a b : nat) :
  (a <= b)%nat -> (b <= length input)%nat ->
  skipn a input = slice input a b ++ skipn b input /\
  length (slice input a b) = (b - a)%nat.
Proof.
  intros Hab Hb. unfold slice. split.
  - rewrite <- (firstn_skipn (b - a) (skipn a input)) at 1.
    rewrite skipn_skipn. do 2 f_equal. lia.
  - rewrite length_firstn, length_skipn. lia.
Qed.

Lemma skipn_nth_error (A : Type) (l : list A) (n : nat) (x : A) :
  nth_error l n = Some x -> skipn n l = x :: skipn (S n) l.
Proof.
  revert l. induction n as [|n IH]; intros [|y l] H; try discriminate.
  - now injection H as ->.
  - cbn in H |- *. now apply IH.
Qed.

(** C10: when the next character after whitespace is a hash sign that no
    exclamation mark follows, the scan yields no token and fails; a token that
    starts with a hash sign is a comment whose second character is the
    exclamation mark. *)
Theorem hash_needs_bang (input : list Z) (cursor : nat) :
  (forall ws rest,
     skipn cursor input = ws ++ 35 :: rest ->
     Forall (fun c => is_whitespace c = true) ws ->
     hd 0 rest <> "!"%char ->
     scan_one input cursor =
       Failed (mkLexError NoMatchingRule (cursor + length ws))) /\
  (forall t new_cursor,
     (cursor <= length input)%nat ->
     scan_one input cursor = Scanned t new_cursor ->
     nth_error input (span_start t) = Some 35 ->
     nth_error input (S (span_start t)) = Some ("!"%char : Z) /\
     kind t = sym_comment).
Proof.
  split; [intros ws rest; apply scan_one_hash_alone|].
  intros t new_cursor Hc Hscan Hhash.
  destruct (scan_one_scanned _ _ _ _ Hc Hscan) as (_ & _ & Ht).
  cbn in Ht. destruct Ht as (Hle & _ & _ & _ & _ & Hws & _).
  assert (Hlt : (span_start t < length input)%nat).
  { apply nth_error_Some. congruence. }
  destruct (skipn_slice input cursor (span_start t) Hle ltac:(lia)) as [Hin Hlen].
  rewrite (skipn_nth_error _ _ _ _ Hhash) in Hin.
  set (rest := skipn (S (span_start t)) input) in *.
  destruct (Z.eq_dec (hd 0 rest) "!"%char) as [Hbang|Hbang].
  - destruct rest as [|c rest'] eqn:Hrest; [discriminate|]. cbn in Hbang. subst c.
    split.
    + rewrite <- hd_error_skipn. fold rest. now rewrite Hrest.
    + destruct (split_line_comment rest') as (body & tail & -> & Hbody & Htail).
      rewrite (scan_one_hash_bang _ _ _ _ _ Hin Hws Hbody Htail) in Hscan.
      now injection Hscan as <- _.
  - rewrite (scan_one_hash_alone _ _ _ _ Hin Hws Hbang) in Hscan. discriminate.
Qed.

Lemma hash_needs_bang_witness :
  scan_one (codes " #x") 0 = Failed (mkLexError NoMatchingRule 1) /\
  (scan_one (codes "#!ab") 0 = Scanned (mkToken sym_comment 0 4) 4 /\
   nth_error (codes "#!ab") 1 = Some ("!"%char : Z) /\
   kind (mkToken sym_comment 0 4) = sym_comment).
Proof.
  split.
  - apply (proj1 (hash_needs_bang (codes " #x") 0) [32] (codes "x")).
    + reflexivity.
    + repeat constructor.
    + discriminate.
  - split; [reflexivity|].
    apply (proj2 (hash_needs_bang (codes "#!ab") 0) (mkToken sym_comment 0 4) 4%nat).
    + cbn. lia.
    + reflexivity.
    + reflexivity.
Defined.

(** ** Numbers and the dot *)

Lemma scan_one_digits_dot (input : list Z) (cursor : nat) (ws ds rest : list Z)
    (d : Z) :
  skipn cursor input = ws ++ (d :: ds) ++ 46 :: rest ->
  Forall (fun c => is_whitespace c = true) ws ->
  Forall (fun c => is_digit c = true) (d :: ds) ->
  is_digit (hd 0 rest) = false ->
  scan_one input cursor =
  Scanned (mkToken sym_number (cursor + length ws)
             (cursor + length ws + length (d :: ds)))
          (cursor + length ws + length (d :: ds)).
Proof.
  intros Hin Hws Hds Hrest. inversion Hds as [|? ? Hd Hds']; subst.
  unfold scan_one, ts_lex_modes.
  erewrite (scan_after_whitespace input cursor ws _ (S (length ds + 2)) _ Hin Hws).
  2:{ lexer_round. rewrite (ts_lex_case_0_digit _ Hd). lexer_effect.
      apply ts_lex_loop_digits_dot; assumption. }
  cbn [result_symbol token_start_position token_end_position length].
  replace (S (cursor + length ws) + length ds)%nat
    with (cursor + length ws + S (length ds))%nat by lia.
  reflexivity.
Qed.

Lemma scan_one_dot (input : list Z) (cursor : nat) (rest : list Z) :
  skipn cursor input = 46 :: rest ->
  scan_one input cursor = Failed (mkLexError NoMatchingRule cursor).
Proof.
  intros Hin. unfold scan_one, ts_lex_modes.
  erewrite (scan_after_whitespace input cursor [] _ 1 _ Hin (Forall_nil _)).
  2:{ lexer_round. lexer_case. lexer_effect. reflexivity. }
  cbn [token_start_position length]. rewrite Nat.add_0_r.
  now rewrite (classify_error_at _ _ _ Hin).
Qed.

Lemma scan_one_digits_fraction (input : list Z) (cursor : nat)
    (ws ds fs rest : list Z) (d : Z) :
  skipn cursor input = ws ++ ((d :: ds) ++ 46 :: fs) ++ rest ->
  Forall (fun c => is_whitespace c = true) ws ->
  Forall (fun c => is_digit c = true) (d :: ds) ->
  fs <> [] ->
  Forall (fun c => is_digit c = true) fs ->
  is_digit (hd 0 rest) = false ->
  scan_one input cursor =
  Scanned (mkToken sym_number (cursor + length ws)
             (cursor + length ws + length ((d :: ds) ++ 46 :: fs)))
          (cursor + length ws + length ((d :: ds) ++ 46 :: fs)).
Proof.
  intros Hin Hws Hds Hne Hfs Hrest. inversion Hds as [|? ? Hd Hds']; subst.
  rewrite <- app_assoc in Hin. cbn [app] in Hin.
  unfold scan_one, ts_lex_modes.
  erewrite (scan_after_whitespace input cursor ws _
              (S (length ds + S (S (length fs)))) _ Hin Hws).
  2:{ lexer_round. rewrite (ts_lex_case_0_digit _ Hd). lexer_effect.
      apply ts_lex_loop_digits_fraction; assumption. }
  cbn [result_symbol token_start_position token_end_position].
  rewrite length_app. cbn [length].
  replace (S (cursor + length ws) + length ds + S (length fs))%nat
    with (cursor + length ws + (S (length ds) + S (length fs)))%nat by lia.
  reflexivity.
Qed.

(** C2 (as amended): where a number lexeme, one or more decimal digits
    optionally followed by a dot and more digits, is followed by a dot that
    no digit follows, the scanner emits a number token that holds the lexeme
    and not that dot; the scan that follows, at the dot, yields no token: it
    fails, since no rule matches a dot. *)
Theorem number_stops_before_bare_dot (input : list Z) (cursor : nat)
    (ws lexeme rest : list Z) :
  skipn cursor input = ws ++ lexeme ++ 46 :: rest ->
  Forall (fun c => is_whitespace c = true) ws ->
  number_lexeme lexeme ->
  is_digit (hd 0 rest) = false ->
  let number_end := (cursor + length ws + length lexeme)%nat in
  scan_one input cursor =
    Scanned (mkToken sym_number (cursor + length ws) number_end) number_end /\
  token_text input (mkToken sym_number (cursor + length ws) number_end) = lexeme /\
  scan_one input number_end = Failed (mkLexError NoMatchingRule number_end).
Proof.
  intros Hin Hws Hlex Hrest number_end.
  pose proof (skipn_after _ _ _ _ Hin) as Hin'.
  split; [|split].
  - destruct Hlex as (ds & fraction & -> & Hne & Hds & Hfrac).
    destruct ds as [|d ds]; [contradiction|].
    destruct Hfrac as [-> | (fs & -> & Hfne & Hfs)].
    + unfold number_end. rewrite app_nil_r in *.
      apply (scan_one_digits_dot _ _ _ _ rest); assumption.
    + apply (scan_one_digits_fraction _ _ _ _ _ (46 :: rest)); auto.
  - unfold token_text, slice, number_end. cbn [span_start span_end].
    rewrite Hin'.
    replace (cursor + length ws + length lexeme - (cursor + length ws))%nat
      with (length lexeme + 0)%nat by lia.
    rewrite firstn_app_2. cbn [firstn]. apply app_nil_r.
  - apply (scan_one_dot _ _ rest). unfold number_end.
    rewrite (Nat.add_comm _ (length lexeme)), <- skipn_skipn, Hin'.
    rewrite skipn_app, skipn_all, Nat.sub_diag. reflexivity.
Qed.

Lemma number_stops_before_bare_dot_witness :
  (scan_one (codes " 12.x") 0 = Scanned (mkToken sym_number 1 3) 3 /\
   token_text (codes " 12.x") (mkToken sym_number 1 3) = codes "12" /\
   scan_one (codes " 12.x") 3 = Failed (mkLexError NoMatchingRule 3)) /\
  (scan_one (codes "3.14.") 0 = Scanned (mkToken sym_number 0 4) 4 /\
   token_text (codes "3.14.") (mkToken sym_number 0 4) = codes "3.14" /\
   scan_one (codes "3.14.") 4 = Failed (mkLexError NoMatchingRule 4)).
Proof.
  split.
  - apply (number_stops_before_bare_dot (codes " 12.x") 0 [32] (codes "12")
             (codes "x")).
    + reflexivity.
    + repeat constructor.
    + exists (codes "12"), []. repeat split; auto; try discriminate.
      repeat constructor.
    + reflexivity.
  - apply (number_stops_before_bare_dot (codes "3.14.") 0 [] (codes "3.14") []).
    + reflexivity.
    + constructor.
    + exists (codes "3"), (codes ".14"). repeat split; try discriminate.
      * repeat constructor.
      * right. exists (codes "14"). repeat split; try discriminate.
        repeat constructor.
    + reflexivity.
Defined.

(** C2 fails as stated: on the input [1.] the scan that follows the number
    fails at the dot; it yields neither a punctuation nor an operator token. *)
Lemma dot_after_number_is_no_token :
  tokenize (codes "1.") =
    Some ([mkToken sym_number 0 1], Some (mkLexError NoMatchingRule 1)) /\
  ~ (exists t new_cursor,
       scan_one (codes "1.") 1 = Scanned t new_cursor /\
       (kind t = sym_punctuation \/ kind t = sym_operator)).
Proof.
  split; [reflexivity|].
  intros (t & new_cursor & H & _). vm_compute in H. discriminate.
Qed.

(** ** Line comments opened by two minus signs *)

Lemma scan_one_dash_dash (input : list Z) (cursor : nat) (ws body rest : list Z) :
  skipn cursor input = ws ++ 45 :: 45 :: body ++ rest ->
  Forall (fun c => is_whitespace c = true) ws ->
  Forall (fun c => in_line_comment c = true) body ->
  in_line_comment (hd 0 rest) = false ->
  scan_one input cursor =
  Scanned (mkToken sym_comment (cursor + length ws)
             (cursor + length ws + 2 + length body))
          (cursor + length ws + 2 + length body).
Proof.
  intros Hin Hws Hbody Hrest. unfold scan_one, ts_lex_modes.
  erewrite (scan_after_whitespace input cursor ws _ (S (S (S (length body))))
              _ Hin Hws).
  2:{ lexer_round. lexer_case. lexer_effect. lexer_round. rewrite ts_lex_case_15.
      change (45 =? "-"%char) with true. unfold ACCEPT_TOKEN. lexer_effect.
      apply ts_lex_loop_line_comment; assumption. }
  cbn [result_symbol token_start_position token_end_position].
  do 2 f_equal; lia.
Qed.

(** C6 (as amended): a minus sign immediately followed by a second one is
    lexed as one comment token, not as two operator tokens; the comment runs
    up to, and does not include, the first newline or code point 0 after the
    two signs, or runs to the end of the input when there is neither; for the
    input [-- hello] the token sequence is one comment token that spans the
    whole input, followed by the end-of-input token. *)
Theorem dash_dash_line_comment (input : list Z) (cursor : nat)
    (ws body rest : list Z) :
  skipn cursor input = ws ++ 45 :: 45 :: body ++ rest ->
  Forall (fun c => is_whitespace c = true) ws ->
  Forall (fun c => c <> 0 /\ c <> "010"%char) body ->
  (rest = [] \/ hd 0 rest = "010"%char \/ hd 0 rest = 0) ->
  let comment_end := (cursor + length ws + 2 + length body)%nat in
  scan_one input cursor =
    Scanned (mkToken sym_comment (cursor + length ws) comment_end) comment_end /\
  tokenize (codes "-- hello") =
    Some ([mkToken sym_comment 0 8; end_token (codes "-- hello")], None).
Proof.
  intros Hin Hws Hbody Hrest comment_end. split; [|reflexivity].
  apply (scan_one_dash_dash _ _ _ _ rest); auto.
  - apply Forall_impl with (2 := Hbody). intros c [H0 Hn].
    unfold in_line_comment. now rewrite !(eqb_false_intro c) by assumption.
  - destruct Hrest as [-> | [-> | ->]]; reflexivity.
Qed.

Lemma dash_dash_line_comment_witness :
  scan_one (codes " --ab" ++ [10; 120]) 0 = Scanned (mkToken sym_comment 1 5) 5 /\
  tokenize (codes "-- hello") =
    Some ([mkToken sym_comment 0 8; end_token (codes "-- hello")], None).
Proof.
  apply (dash_dash_line_comment (codes " --ab" ++ [10; 120]) 0 [32] (codes "ab")
           [10; 120]).
  - reflexivity.
  - repeat constructor.
  - repeat constructor; discriminate.
  - right. left. reflexivity.
Defined.

(** C6 fails as stated: on the input made of two minus signs, the code
    point 0 and the letter x, the comment ends after the two minus signs,
    where there is neither a newline nor the end of the input. *)
Lemma dash_comment_stops_at_nul :
  scan_one [45; 45; 0; 120] 0 = Scanned (mkToken sym_comment 0 2) 2 /\
  nth_error [45; 45; 0; 120] 2 = Some 0 /\
  ~ (length [45; 45; 0; 120] = 2%nat \/
     nth_error [45; 45; 0; 120] 2 = Some ("010"%char : Z)).
Proof.
  split; [reflexivity|]. split; [reflexivity|].
  intros [H|H]; discriminate.
Qed.

(** ** The examples *)

(** C1 (as amended): block comments do not nest: the first closing mark
    after the opener ends the comment, when no code point 0 comes before it;
    for the input of the example the token sequence is the comment that spans
    the opener through the first closing mark, the identifier c, and then the
    star as an operator token and the closing parenthesis as a punctuation
    token, followed by the end-of-input token. *)
Theorem block_comments_do_not_nest (input : list Z) (cursor : nat)
    (ws body rest : list Z) :
  skipn cursor input = ws ++ 40 :: 42 :: body ++ 42 :: 41 :: rest ->
  Forall (fun c => is_whitespace c = true) ws ->
  Forall (fun c => c <> 0) body ->
  has_close_mark body = false ->
  let comment_end := (cursor + length ws + length body + 4)%nat in
  scan_one input cursor =
    Scanned (mkToken sym_comment (cursor + length ws) comment_end) comment_end /\
  tokenize (codes "(* a (* b *) c *)") =
    Some ([mkToken sym_comment 0 12;
           mkToken sym_identifier 13 14;
           mkToken sym_operator 15 16;
           mkToken sym_punctuation 16 17;
           end_token (codes "(* a (* b *) c *)")], None) /\
  token_text (codes "(* a (* b *) c *)") (mkToken sym_comment 0 12) =
    codes "(* a (* b *)".
Proof.
  intros Hin Hws Hbody Hclose comment_end.
  split; [|split; reflexivity].
  apply (scan_one_block_comment _ _ _ _ rest); assumption.
Qed.

Lemma block_comments_do_not_nest_witness :
  scan_one (codes "(* a (* b *) c *)") 0 = Scanned (mkToken sym_comment 0 12) 12 /\
  tokenize (codes "(* a (* b *) c *)") =
    Some ([mkToken sym_comment 0 12;
           mkToken sym_identifier 13 14;
           mkToken sym_operator 15 16;
           mkToken sym_punctuation 16 17;
           end_token (codes "(* a (* b *) c *)")], None) /\
  token_text (codes "(* a (* b *) c *)") (mkToken sym_comment 0 12) =
    codes "(* a (* b *)".
Proof.
  apply (block_comments_do_not_nest (codes "(* a (* b *) c *)") 0 []
           (codes " a (* b ") (codes " c *)")).
  - reflexivity.
  - constructor.
  - repeat constructor; discriminate.
  - reflexivity.
Defined.

(** A code point 0 inside the comment stops the scan before the closing
    mark: the token is then the opening parenthesis alone. *)
Lemma block_comment_with_nul_is_not_closed :
  scan_one [40; 42; 0; 42; 41] 0 = Scanned (mkToken sym_punctuation 0 1) 1.
Proof. reflexivity. Qed.

(** C1 fails as stated: the star and the parenthesis that remain after the
    identifier do match rules; the scan at the star does not fail. *)
Lemma stray_close_mark_is_lexed :
  scan_one (codes "(* a (* b *) c *)") 14 = Scanned (mkToken sym_operator 15 16) 16 /\
  scan_one (codes "(* a (* b *) c *)") 16 = Scanned (mkToken sym_punctuation 16 17) 17 /\
  ~ (exists e, scan_one (codes "(* a (* b *) c *)") 14 = Failed e).
Proof.
  split; [reflexivity|]. split; [reflexivity|].
  intros (e & H). vm_compute in H. discriminate.
Qed.

(** C7: the input [12.5 foo <= 3] yields the number 12.5, the identifier
    foo, the operator [<=] as one token of two characters, the number 3, and
    the end-of-input token. *)
Theorem number_identifier_operator_example :
  let input := codes "12.5 foo <= 3" in
  tokenize input =
    Some ([mkToken sym_number 0 4;
           mkToken sym_identifier 5 8;
           mkToken sym_operator 9 11;
           mkToken sym_number 12 13;
           end_token input], None) /\
  token_text input (mkToken sym_number 0 4) = codes "12.5" /\
  token_text input (mkToken sym_identifier 5 8) = codes "foo" /\
  token_text input (mkToken sym_operator 9 11) = codes "<=" /\
  token_text input (mkToken sym_number 12 13) = codes "3".
Proof. repeat split; reflexivity. Qed.

(** * The claims on the token sequence *)

(** C4: when an input tokenizes without error, the spans of the tokens do
    not overlap and their start offsets increase strictly; and the texts of
    the tokens, each preceded by the whitespace skipped before it, make up
    the input again when put end to end. *)
Theorem tokenize_lossless (input : list Z) (tokens : list Token) :
  tokenize input = Some (tokens, None) ->
  spans_ordered tokens /\
  gaps_are_whitespace input 0 tokens /\
  reassemble input 0 tokens = input.
Proof.
  intros H. unfold tokenize in H.
  apply tokenize_loop_tiled in H; [|lia].
  destruct H as (new & -> & Htiled & front & -> & Hfront). cbn [rev app].
  split; [exact (well_tiled_ordered _ _ _ _ Htiled Hfront)|].
  split; [exact (well_tiled_gaps _ _ _ Htiled)|].
  rewrite (well_tiled_reassemble _ _ _ Htiled), last_end_app.
  apply slice_all.
Qed.

Lemma tokenize_lossless_witness :
  spans_ordered [mkToken sym_identifier 1 2; mkToken sym_number 4 5;
                 mkToken ts_builtin_sym_end 6 6] /\
  gaps_are_whitespace (codes " a  1 ") 0
    [mkToken sym_identifier 1 2; mkToken sym_number 4 5;
     mkToken ts_builtin_sym_end 6 6] /\
  reassemble (codes " a  1 ") 0
    [mkToken sym_identifier 1 2; mkToken sym_number 4 5;
     mkToken ts_builtin_sym_end 6 6] = codes " a  1 ".
Proof.
  apply (tokenize_lossless (codes " a  1 ")). reflexivity.
Defined.

(** At the end of the input, after whitespace only, the scan returns the
    end-of-input token. *)
Lemma scan_one_end (input : list Z) (cursor : nat) :
  (cursor <= length input)%nat ->
  Forall (fun c => is_whitespace c = true) (skipn cursor input) ->
  scan_one input cursor = Scanned (end_token input) (length input).
Proof.
  intros Hc Hws.
  pose proof (length_skipn_le _ _ Hc) as Hlen.
  unfold scan_one, ts_lex_modes.
  rewrite (scan_after_whitespace input cursor (skipn cursor input) []
             2 (true, mkLexer [] (length input) (length input) (length input)
                        ts_builtin_sym_end)).
  - reflexivity.
  - now rewrite app_nil_r.
  - exact Hws.
  - rewrite Hlen. lexer_round. lexer_case. lexer_effect. lexer_round.
    rewrite ts_lex_case_6. lexer_effect. reflexivity.
Qed.

Lemma slice_to_end (input : list Z) (cursor : nat) :
  slice input cursor (length input) = skipn cursor input.
Proof.
  unfold slice. rewrite <- length_skipn. apply firstn_all.
Qed.

(** C9: a scan that returns a token other than the end-of-input token
    consumes at least one input unit; the end-of-input token is returned
    when the cursor has reached the end of the input, that is when only
    whitespace is left, and only then; the token sequence holds it exactly
    once, as its last token, when there is no error, and not at all
    otherwise; and the sequencer returns on every input. *)
Theorem scanner_progress_and_termination (input : list Z) :
  (forall cursor t new_cursor,
     scan_one input cursor = Scanned t new_cursor ->
     kind t <> ts_builtin_sym_end ->
     (cursor < new_cursor)%nat /\ (span_start t < span_end t)%nat /\
     new_cursor = span_end t) /\
  (forall cursor t new_cursor,
     (cursor <= length input)%nat ->
     scan_one input cursor = Scanned t new_cursor ->
     kind t = ts_builtin_sym_end ->
     t = end_token input /\ new_cursor = length input) /\
  (forall cursor,
     (cursor <= length input)%nat ->
     (Forall (fun c => is_whitespace c = true) (skipn cursor input) <->
      scan_one input cursor = Scanned (end_token input) (length input))) /\
  (forall tokens err,
     tokenize input = Some (tokens, err) ->
     match err with
     | None =>
         exists front, tokens = front ++ [end_token input] /\ Forall not_end front
     | Some _ => Forall not_end tokens
     end) /\
  (exists r, tokenize input = Some r).
Proof.
  split; [|split; [|split; [|split]]].
  - intros cursor t new_cursor Hscan Hk.
    destruct (scan_one_progress _ _ _ _ Hscan Hk) as (H1 & H2 & H3). lia.
  - intros cursor t new_cursor Hc Hscan Hk.
    destruct (scan_one_scanned _ _ _ _ Hc Hscan) as (-> & _ & Ht).
    cbn in Ht. destruct Ht as (_ & H1 & H2 & _ & H3 & _). specialize (H3 Hk).
    destruct t as [k s e]. cbn in *. subst k.
    assert (e = length input) by lia. subst. split; reflexivity.
  - intros cursor Hc. split.
    + now apply scan_one_end.
    + intros Hscan.
      destruct (scan_one_scanned _ _ _ _ Hc Hscan) as (_ & _ & Ht).
      cbn [well_tiled end_token span_start] in Ht.
      destruct Ht as (_ & _ & _ & _ & _ & Hgap & _).
      now rewrite slice_to_end in Hgap.
  - intros tokens err H. unfold tokenize in H.
    apply tokenize_loop_tiled in H; [|lia].
    destruct H as (new & -> & _ & Herr). exact Herr.
  - apply tokenize_loop_enough_fuel; lia.
Qed.

Lemma scanner_progress_and_termination_witness :
  ((0 < 2)%nat /\ (0 < 2)%nat /\ 2%nat = 2%nat) /\
  (mkToken ts_builtin_sym_end 3 3 = end_token (codes "if ") /\ 3%nat = 3%nat) /\
  (Forall (fun c => is_whitespace c = true) (skipn 2 (codes "if ")) <->
   scan_one (codes "if ") 2 = Scanned (end_token (codes "if ")) 3) /\
  (exists front,
     [mkToken sym_keyword 0 2; mkToken ts_builtin_sym_end 3 3] =
     front ++ [end_token (codes "if ")] /\ Forall not_end front).
Proof.
  pose proof (scanner_progress_and_termination (codes "if "))
    as (H1 & H2 & H3 & H4 & _).
  split; [|split; [|split]].
  - apply (H1 0%nat (mkToken sym_keyword 0 2) 2%nat); [reflexivity | discriminate].
  - apply (H2 2%nat (mkToken ts_builtin_sym_end 3 3) 3%nat);
      [cbn; lia | reflexivity | reflexivity].
  - apply (H3 2%nat). cbn. lia.
  - apply (H4 [mkToken sym_keyword 0 2; mkToken ts_builtin_sym_end 3 3] None).
    reflexivity.
Defined.

(** * The rest of the state graph: what [ts_lex] returns on each kind of
      token *)

Lemma scan_one_lex_token (input : list Z) (cursor : nat) :
  scan_one input cursor =
  match lex_token input cursor with
  | Some t => Scanned t (span_end t)
  | None =>
      let offset := token_start_position
                      (snd (ts_lex (lexer_at input cursor) (ts_lex_modes 1))) in
      Failed (mkLexError (classify_error input offset) offset)
  end.
Proof.
  unfold scan_one, lex_token.
  destruct (ts_lex (lexer_at input cursor) (ts_lex_modes 1)) as [[|] lexer];
    reflexivity.
Qed.

Lemma scanned_lex_token (input : list Z) (cursor : nat) (t : Token) (n : nat) :
  scan_one input cursor = Scanned t n -> lex_token input cursor = Some t.
Proof.
  rewrite scan_one_lex_token.
  destruct (lex_token input cursor); [|discriminate]. now intros [= -> _].
Qed.

Lemma lex_token_scanned (input : list Z) (cursor : nat) (t : Token) :
  lex_token input cursor = Some t ->
  scan_one input cursor = Scanned t (span_end t).
Proof. intros H. now rewrite scan_one_lex_token, H. Qed.

Lemma failed_lex_token (input : list Z) (cursor : nat) (e : LexError) :
  scan_one input cursor = Failed e -> lex_token input cursor = None.
Proof.
  rewrite scan_one_lex_token.
  destruct (lex_token input cursor); [discriminate | reflexivity].
Qed.

(** The token of a call, from a run of the loop after the whitespace. *)
Lemma lex_token_after_whitespace (input : list Z) (cursor : nat)
    (ws rest : list Z) (fuel : nat) (result : bool) (lexer : TSLexer) :
  skipn cursor input = ws ++ rest ->
  Forall (fun c => is_whitespace c = true) ws ->
  ts_lex_loop fuel
    (mkLexer rest (cursor + length ws) (cursor + length ws) cursor
       ts_builtin_sym_end) 0 false = Some (result, lexer) ->
  lex_token input cursor =
  if result
  then Some (mkToken (result_symbol lexer) (token_start_position lexer)
               (token_end_position lexer))
  else None.
Proof.
  intros Hin Hws Hloop. unfold lex_token, ts_lex_modes.
  rewrite (scan_after_whitespace _ _ _ _ _ _ Hin Hws Hloop).
  now destruct result.
Qed.

(** A prefix of the characters that satisfy a test, up to the first that
    does not, or to the end. *)
Lemma split_while (p : Z -> bool) (l : list Z) :
  p 0 = false ->
  exists pre tail,
    l = pre ++ tail /\
    Forall (fun c => p c = true) pre /\
    p (hd 0 tail) = false.
Proof.
  intros Hp. induction l as [|c l (pre & tail & -> & Hpre & Htail)].
  - exists [], []. repeat split; auto.
  - destruct (p c) eqn:Hc.
    + exists (c :: pre), tail. repeat split; auto.
    + exists [], (c :: pre ++ tail). repeat split; auto.
Qed.

(** ** Strings: states 2 and 9 *)

Lemma ts_lex_loop_string (body : list Z) :
  forall rest pos ts te sym,
  Forall (fun c => in_string c = true) body ->
  ts_lex_loop (length body + 2) (mkLexer (body ++ 34 :: rest) pos ts te sym)
    2 false =
  Some (true, mkLexer rest (pos + length body + 1) ts (pos + length body + 1)
                sym_string).
Proof.
  induction body as [|c body IH]; intros rest pos ts te sym Hbody.
  - cbn [length Nat.add app]. lexer_round. lexer_case. lexer_effect.
    lexer_round. lexer_case. lexer_effect. apply lexer_result_eq; lia.
  - inversion Hbody as [|? ? Hc Hbody']; subst.
    unfold in_string in Hc. apply andb_true_iff in Hc. destruct Hc as [H34 H0].
    cbn [length Nat.add app]. lexer_round. rewrite ts_lex_case_2.
    apply negb_true_iff in H34. rewrite H34, H0. unfold NO_TOKEN. lexer_effect.
    rewrite IH by assumption. apply lexer_result_eq; lia.
Qed.

Lemma ts_lex_loop_string_stopped (body : list Z) :
  forall rest pos ts te sym,
  Forall (fun c => in_string c = true) body ->
  hd 0 rest = 0 ->
  exists lexer,
    ts_lex_loop (S (length body)) (mkLexer (body ++ rest) pos ts te sym) 2 false =
    Some (false, lexer).
Proof.
  induction body as [|c body IH]; intros rest pos ts te sym Hbody Hrest.
  - lexer_round. rewrite Hrest.
    assert (Hcase : forall b, ts_lex_case 2 b 0 = Some (None, END_STATE))
      by reflexivity.
    rewrite Hcase. lexer_effect. eauto.
  - inversion Hbody as [|? ? Hc Hbody']; subst.
    unfold in_string in Hc. apply andb_true_iff in Hc. destruct Hc as [H34 H0].
    cbn [length app]. lexer_round. rewrite ts_lex_case_2.
    apply negb_true_iff in H34. rewrite H34, H0. unfold NO_TOKEN. lexer_effect.
    now apply IH.
Qed.

Lemma lex_token_string (input : list Z) (cursor : nat) (ws body rest : list Z) :
  skipn cursor input = ws ++ 34 :: body ++ 34 :: rest ->
  Forall (fun c => is_whitespace c = true) ws ->
  Forall (fun c => in_string c = true) body ->
  lex_token input cursor =
  Some (mkToken sym_string (cursor + length ws)
          (cursor + length ws + length body + 2)).
Proof.
  intros Hin Hws Hbody.
  rewrite (lex_token_after_whitespace _ _ _ _ (S (length body + 2)) true
             (mkLexer rest (cursor + length ws + length body + 2)
                (cursor + length ws) (cursor + length ws + length body + 2)
                sym_string) Hin Hws); [reflexivity|].
  lexer_round. lexer_case. lexer_effect.
  rewrite ts_lex_loop_string by assumption. apply lexer_result_eq; lia.
Qed.

(** X1: a double quote, a body without double quote and without code
    point 0, and a double quote make one string token, from the opening quote
    through the closing one; nothing in the body is an escape, the first
    double quote after the opening one ends the string. *)
Theorem string_token (input : list Z) (cursor : nat) (ws body rest : list Z) :
  skipn cursor input = ws ++ 34 :: body ++ 34 :: rest ->
  Forall (fun c => is_whitespace c = true) ws ->
  Forall (fun c => in_string c = true) body ->
  lex_token input cursor =
  Some (mkToken sym_string (cursor + length ws)
          (cursor + length ws + length body + 2)).
Proof. intros; eapply lex_token_string; eassumption. Qed.

Lemma string_token_witness :
  lex_token (codes " " ++ 34 :: codes "a\" ++ 34 :: codes "b") 0 =
  Some (mkToken sym_string 1 5).
Proof.
  apply (string_token (codes " " ++ 34 :: codes "a\" ++ 34 :: codes "b") 0
           [32] (codes "a\") (codes "b")).
  - reflexivity.
  - repeat constructor.
  - repeat constructor.
Defined.

Lemma lex_token_string_open (input : list Z) (cursor : nat)
    (ws body rest : list Z) :
  skipn cursor input = ws ++ 34 :: body ++ rest ->
  Forall (fun c => is_whitespace c = true) ws ->
  Forall (fun c => in_string c = true) body ->
  hd 0 rest = 0 ->
  lex_token input cursor = None.
Proof.
  intros Hin Hws Hbody Hrest.
  destruct (ts_lex_loop_string_stopped body rest (S (cursor + length ws))
              (cursor + length ws) cursor ts_builtin_sym_end Hbody Hrest)
    as (lexer & Hrun).
  rewrite (lex_token_after_whitespace _ _ _ _ (S (S (length body))) false lexer
             Hin Hws); [reflexivity|].
  lexer_round. lexer_case. lexer_effect. exact Hrun.
Qed.

(** X2: a string whose body reaches the code point 0, or the end of the
    input, before a closing double quote is not lexed: [ts_lex] returns
    [false], also when a closing quote follows the code point 0. *)
Theorem string_stopped_by_nul (input : list Z) (cursor : nat)
    (ws body rest : list Z) :
  skipn cursor input = ws ++ 34 :: body ++ rest ->
  Forall (fun c => is_whitespace c = true) ws ->
  Forall (fun c => in_string c = true) body ->
  hd 0 rest = 0 ->
  lex_token input cursor = None.
Proof. intros; eapply lex_token_string_open; eassumption. Qed.

Lemma string_stopped_by_nul_witness :
  lex_token (34 :: codes "ab" ++ 0 :: codes "c" ++ [34]) 0 = None.
Proof.
  apply (string_stopped_by_nul (34 :: codes "ab" ++ 0 :: codes "c" ++ [34]) 0
           [] (codes "ab") (0 :: codes "c" ++ [34])).
  - reflexivity.
  - constructor.
  - repeat constructor.
  - reflexivity.
Defined.

(** ** Block comments that are not closed: states 18, 4 and 3 *)

Lemma split_block_comment (l : list Z) :
  exists body rest,
    Forall (fun c => c <> 0) body /\
    has_close_mark body = false /\
    (l = body ++ 42 :: 41 :: rest \/ (l = body ++ rest /\ hd 0 rest = 0)).
Proof.
  induction l as [|c l (body & rest & Hbody & Hclose & Hl)].
  - exists [], []. repeat split; auto.
  - destruct (Z.eq_dec c 0) as [->|Hc].
    + exists [], (0 :: l). repeat split; auto.
    + destruct ((c =? "*"%char) && (hd 0 l =? ")"%char)) eqn:Hpair.
      * apply andb_true_iff in Hpair. rewrite !Z.eqb_eq in Hpair.
        destruct Hpair as [-> Hhd].
        destruct l as [|d l']; [discriminate|]. cbn in Hhd. subst d.
        exists [], l'. repeat split; auto.
      * exists (c :: body), rest. split; [constructor; assumption|]. split.
        -- cbn [has_close_mark]. rewrite Hclose, orb_false_r.
           destruct body as [|b body'].
           ++ cbn [hd]. change (0 =? ")"%char) with false. apply andb_false_r.
           ++ destruct Hl as [-> | [-> _]]; exact Hpair.
        -- destruct Hl as [-> | [-> Hrest]]; [left | right]; auto.
Qed.

(** Inside a block comment that is not closed before the code point 0 or the
    end of the input, the loop stops without accepting anything more. *)
Lemma ts_lex_loop_block_comment_open (body : list Z) :
  forall state rest pos ts te sym result,
  state = 4 \/ (state = 3 /\ hd 0 body <> ")"%char) ->
  Forall (fun c => c <> 0) body ->
  has_close_mark body = false ->
  hd 0 rest = 0 ->
  ts_lex_loop (S (length body)) (mkLexer (body ++ rest) pos ts te sym) state
    result =
  Some (result, mkLexer rest (pos + length body) ts te sym).
Proof.
  induction body as [|c body IH];
    intros state rest pos ts te sym result Hstate Hbody Hclose Hrest.
  - cbn [length app]. rewrite Nat.add_0_r.
    assert (H4 : forall b, ts_lex_case 4 b 0 = Some (None, END_STATE)) by reflexivity.
    assert (H3 : forall b, ts_lex_case 3 b 0 = Some (None, END_STATE)) by reflexivity.
    destruct Hstate as [-> | [-> _]]; lexer_round; rewrite Hrest, ?H4, ?H3;
      lexer_effect; reflexivity.
  - inversion Hbody as [|? ? Hc Hbody']; subst.
    cbn [has_close_mark] in Hclose. apply orb_false_iff in Hclose.
    destruct Hclose as [Hpair Hclose].
    cbn [length app].
    assert (Hnext : forall state',
              state' = (if c =? "*"%char then 3 else 4) ->
              ts_lex_loop (S (length body))
                (mkLexer (body ++ rest) (S pos) ts te sym) state' result =
              Some (result, mkLexer rest (pos + S (length body)) ts te sym)).
    { intros state' ->. rewrite IH; auto.
      - do 2 f_equal. f_equal. lia.
      - destruct (c =? "*"%char) eqn:Hstar; [right|now left].
        split; [reflexivity|]. cbn [andb] in Hpair. now apply Z.eqb_neq. }
    destruct Hstate as [-> | [-> Hhd]]; lexer_round.
    + rewrite ts_lex_case_4. unfold NO_TOKEN.
      rewrite (eqb_false_intro c 0 Hc). cbn [negb].
      destruct (c =? "*"%char) eqn:Hstar; lexer_effect; apply Hnext;
        rewrite ?Hstar; reflexivity.
    + cbn [hd] in Hhd. rewrite ts_lex_case_3. unfold NO_TOKEN.
      rewrite (eqb_false_intro c _ Hhd), (eqb_false_intro c 0 Hc). cbn [negb].
      destruct (c =? "*"%char) eqn:Hstar; lexer_effect; apply Hnext;
        rewrite ?Hstar; reflexivity.
Qed.

Lemma lex_token_block_comment_open (input : list Z) (cursor : nat)
    (ws body rest : list Z) :
  skipn cursor input = ws ++ 40 :: 42 :: body ++ rest ->
  Forall (fun c => is_whitespace c = true) ws ->
  Forall (fun c => c <> 0) body ->
  has_close_mark body = false ->
  hd 0 rest = 0 ->
  lex_token input cursor =
  Some (mkToken sym_punctuation (cursor + length ws) (S (cursor + length ws))).
Proof.
  intros Hin Hws Hbody Hclose Hrest.
  rewrite (lex_token_after_whitespace _ _ _ _ (S (S (S (length body)))) true
             (mkLexer rest (S (S (cursor + length ws)) + length body)
                (cursor + length ws) (S (cursor + length ws))
                sym_punctuation) Hin Hws); [reflexivity|].
  lexer_round. lexer_case. lexer_effect. lexer_round. lexer_case.
  unfold ACCEPT_TOKEN. lexer_effect.
  now apply ts_lex_loop_block_comment_open; auto.
Qed.

(** X3: a block comment opener that no closing mark follows before the
    code point 0 or the end of the input is not an error: [ts_lex] returns
    the opening parenthesis alone, as a punctuation token of one character
    (the star is left for the next call). *)
Theorem open_block_comment_is_parenthesis (input : list Z) (cursor : nat)
    (ws body rest : list Z) :
  skipn cursor input = ws ++ 40 :: 42 :: body ++ rest ->
  Forall (fun c => is_whitespace c = true) ws ->
  Forall (fun c => c <> 0) body ->
  has_close_mark body = false ->
  hd 0 rest = 0 ->
  lex_token input cursor =
  Some (mkToken sym_punctuation (cursor + length ws) (S (cursor + length ws))).
Proof. intros; eapply lex_token_block_comment_open; eassumption. Qed.

Lemma open_block_comment_is_parenthesis_witness :
  lex_token (codes " (* a *b") 0 = Some (mkToken sym_punctuation 1 2).
Proof.
  apply (open_block_comment_is_parenthesis (codes " (* a *b") 0 [32]
           (codes " a *b") []).
  - reflexivity.
  - repeat constructor.
  - repeat constructor; discriminate.
  - reflexivity.
  - reflexivity.
Defined.

(** ** Punctuation: states 17 and 18 *)

Lemma char_in_cases (l : list Z) (c : Z) : char_in l c = true -> In c l.
Proof.
  unfold char_in. rewrite existsb_exists. intros (x & Hx & E).
  apply Z.eqb_eq in E. now subst.
Qed.

Lemma ts_lex_case_17 (eof : bool) (c : Z) :
  ts_lex_case 17 eof c = ACCEPT_TOKEN sym_punctuation END_STATE.
Proof. reflexivity. Qed.

Lemma ts_lex_case_18 (eof : bool) (c : Z) :
  ts_lex_case 18 eof c =
  ACCEPT_TOKEN sym_punctuation (if c =? "*" then ADVANCE 4 else END_STATE).
Proof. reflexivity. Qed.

Lemma ts_lex_case_14 (eof : bool) (c : Z) :
  ts_lex_case 14 eof c = ACCEPT_TOKEN sym_operator END_STATE.
Proof. reflexivity. Qed.

Lemma ts_lex_case_16 (eof : bool) (c : Z) :
  ts_lex_case 16 eof c =
  ACCEPT_TOKEN sym_operator (if c =? "=" then ADVANCE 14 else END_STATE).
Proof. reflexivity. Qed.

Lemma ts_lex_case_0_punctuation (c : Z) :
  char_in single_punctuation c = true ->
  ts_lex_case 0 false c = Some (None, ADVANCE 17).
Proof.
  intros H. apply char_in_cases in H. cbn in H.
  repeat (destruct H as [<- | H]; [reflexivity|]). destruct H.
Qed.

Lemma ts_lex_case_0_operator (c : Z) :
  char_in single_operator c = true ->
  ts_lex_case 0 false c = Some (None, ADVANCE 14).
Proof.
  intros H. apply char_in_cases in H. cbn in H.
  repeat (destruct H as [<- | H]; [reflexivity|]). destruct H.
Qed.

Lemma ts_lex_case_0_compound (c : Z) :
  char_in compound_operator c = true ->
  ts_lex_case 0 false c = Some (None, ADVANCE 16).
Proof.
  intros H. apply char_in_cases in H. cbn in H.
  repeat (destruct H as [<- | H]; [reflexivity|]). destruct H.
Qed.

Lemma lex_token_punctuation (input : list Z) (cursor : nat) (ws rest : list Z)
    (c : Z) :
  skipn cursor input = ws ++ c :: rest ->
  Forall (fun c => is_whitespace c = true) ws ->
  char_in single_punctuation c = true \/
  (c = "("%char /\ hd 0 rest <> "*"%char) ->
  lex_token input cursor =
  Some (mkToken sym_punctuation (cursor + length ws) (S (cursor + length ws))).
Proof.
  intros Hin Hws Hc.
  rewrite (lex_token_after_whitespace _ _ _ _ 2 true
             (mkLexer rest (S (cursor + length ws)) (cursor + length ws)
                (S (cursor + length ws)) sym_punctuation) Hin Hws);
    [reflexivity|].
  destruct Hc as [Hc | [-> Hrest]]; lexer_round.
  - rewrite (ts_lex_case_0_punctuation _ Hc). lexer_effect. lexer_round.
    rewrite ts_lex_case_17. unfold ACCEPT_TOKEN. lexer_effect. reflexivity.
  - lexer_case. lexer_effect. lexer_round. rewrite ts_lex_case_18.
    rewrite (eqb_false_intro _ _ Hrest). unfold ACCEPT_TOKEN. lexer_effect.
    reflexivity.
Qed.

(** X4: each of the punctuation characters ['], [)], [,], [:], the square
    brackets and the braces is a punctuation token of one character whatever
    follows it, and so is an opening parenthesis that no star follows. *)
Theorem punctuation_token (input : list Z) (cursor : nat) (ws rest : list Z)
    (c : Z) :
  skipn cursor input = ws ++ c :: rest ->
  Forall (fun c => is_whitespace c = true) ws ->
  char_in single_punctuation c = true \/
  (c = "("%char /\ hd 0 rest <> "*"%char) ->
  lex_token input cursor =
  Some (mkToken sym_punctuation (cursor + length ws) (S (cursor + length ws))).
Proof. intros; eapply lex_token_punctuation; eassumption. Qed.

Lemma punctuation_token_witness :
  lex_token (codes " ))") 0 = Some (mkToken sym_punctuation 1 2) /\
  lex_token (codes "(a") 0 = Some (mkToken sym_punctuation 0 1).
Proof.
  split.
  - apply (punctuation_token (codes " ))") 0 [32] (codes ")") ")"%char).
    + reflexivity.
    + repeat constructor.
    + left. reflexivity.
  - apply (punctuation_token (codes "(a") 0 [] (codes "a") "("%char).
    + reflexivity.
    + constructor.
    + right. split; [reflexivity | discriminate].
Defined.

(** ** Operators: states 14, 15 and 16 *)

Lemma lex_token_operator (input : list Z) (cursor : nat) (ws rest : list Z)
    (c : Z) :
  skipn cursor input = ws ++ c :: rest ->
  Forall (fun c => is_whitespace c = true) ws ->
  char_in single_operator c = true ->
  lex_token input cursor =
  Some (mkToken sym_operator (cursor + length ws) (S (cursor + length ws))).
Proof.
  intros Hin Hws Hc.
  rewrite (lex_token_after_whitespace _ _ _ _ 2 true
             (mkLexer rest (S (cursor + length ws)) (cursor + length ws)
                (S (cursor + length ws)) sym_operator) Hin Hws);
    [reflexivity|].
  lexer_round. rewrite (ts_lex_case_0_operator _ Hc). lexer_effect. lexer_round.
  rewrite ts_lex_case_14. unfold ACCEPT_TOKEN. lexer_effect. reflexivity.
Qed.

(** X5: each of the operator characters [&], [*], [+], [=], [^] and the four
    code points 0xac, 0x2260, 0x2264 and 0x2265 is an operator token of one
    character whatever follows it: two of them in a row are two tokens. *)
Theorem operator_token (input : list Z) (cursor : nat) (ws rest : list Z)
    (c : Z) :
  skipn cursor input = ws ++ c :: rest ->
  Forall (fun c => is_whitespace c = true) ws ->
  char_in single_operator c = true ->
  lex_token input cursor =
  Some (mkToken sym_operator (cursor + length ws) (S (cursor + length ws))).
Proof. intros; eapply lex_token_operator; eassumption. Qed.

Lemma operator_token_witness :
  lex_token (codes " ==") 0 = Some (mkToken sym_operator 1 2).
Proof.
  apply (operator_token (codes " ==") 0 [32] (codes "=") "="%char).
  - reflexivity.
  - repeat constructor.
  - reflexivity.
Defined.

Lemma lex_token_compound_operator (input : list Z) (cursor : nat)
    (ws rest : list Z) (c : Z) :
  skipn cursor input = ws ++ c :: rest ->
  Forall (fun c => is_whitespace c = true) ws ->
  char_in compound_operator c = true \/
  (c = "-"%char /\ hd 0 rest <> "-"%char) ->
  let width :=
    if (hd 0 rest =? "="%char) && char_in compound_operator c
    then 2%nat else 1%nat in
  lex_token input cursor =
  Some (mkToken sym_operator (cursor + length ws) (cursor + length ws + width)).
Proof.
  intros Hin Hws Hc width.
  destruct Hc as [Hc | [-> Hrest]].
  - unfold width. rewrite Hc, andb_true_r.
    destruct (hd 0 rest =? "="%char) eqn:Heq.
    + destruct rest as [|d rest']; [discriminate|].
      cbn [hd] in Heq. apply Z.eqb_eq in Heq. subst d.
      rewrite (lex_token_after_whitespace _ _ _ _ 3 true
                 (mkLexer rest' (S (S (cursor + length ws))) (cursor + length ws)
                    (S (S (cursor + length ws))) sym_operator) Hin Hws).
      * cbn [result_symbol token_start_position token_end_position].
        do 2 f_equal. lia.
      * lexer_round. rewrite (ts_lex_case_0_compound _ Hc). lexer_effect.
        lexer_round. rewrite ts_lex_case_16.
        change ("="%char =? "="%char) with true. unfold ACCEPT_TOKEN.
        lexer_effect. lexer_round. rewrite ts_lex_case_14.
        unfold ACCEPT_TOKEN. lexer_effect. reflexivity.
    + rewrite (lex_token_after_whitespace _ _ _ _ 2 true
                 (mkLexer rest (S (cursor + length ws)) (cursor + length ws)
                    (S (cursor + length ws)) sym_operator) Hin Hws).
      * cbn [result_symbol token_start_position token_end_position].
        do 2 f_equal. lia.
      * lexer_round. rewrite (ts_lex_case_0_compound _ Hc). lexer_effect.
        lexer_round. rewrite ts_lex_case_16, Heq.
        unfold ACCEPT_TOKEN. lexer_effect. reflexivity.
  - unfold width. change (char_in compound_operator "-"%char) with false.
    rewrite andb_false_r.
    rewrite (lex_token_after_whitespace _ _ _ _ 2 true
               (mkLexer rest (S (cursor + length ws)) (cursor + length ws)
                  (S (cursor + length ws)) sym_operator) Hin Hws).
    + cbn [result_symbol token_start_position token_end_position].
      do 2 f_equal. lia.
    + lexer_round. lexer_case. lexer_effect. lexer_round.
      rewrite ts_lex_case_15, (eqb_false_intro _ _ Hrest).
      unfold ACCEPT_TOKEN. lexer_effect. reflexivity.
Qed.

(** X6: a slash, a less-than or a greater-than sign takes in an equals sign
    that follows it, as one operator token of two characters, and is an
    operator token of one character otherwise; a minus sign that no second
    minus sign follows is an operator token of one character. *)
Theorem compound_operator_token (input : list Z) (cursor : nat)
    (ws rest : list Z) (c : Z) :
  skipn cursor input = ws ++ c :: rest ->
  Forall (fun c => is_whitespace c = true) ws ->
  char_in compound_operator c = true \/
  (c = "-"%char /\ hd 0 rest <> "-"%char) ->
  let width :=
    if (hd 0 rest =? "="%char) && char_in compound_operator c
    then 2%nat else 1%nat in
  lex_token input cursor =
  Some (mkToken sym_operator (cursor + length ws) (cursor + length ws + width)).
Proof. intros; eapply lex_token_compound_operator; eassumption. Qed.

Lemma compound_operator_token_witness :
  lex_token (codes " >=1") 0 = Some (mkToken sym_operator 1 3) /\
  lex_token (codes "<>") 0 = Some (mkToken sym_operator 0 1) /\
  lex_token (codes "-1") 0 = Some (mkToken sym_operator 0 1).
Proof.
  split; [|split].
  - apply (compound_operator_token (codes " >=1") 0 [32] (codes "=1") ">"%char).
    + reflexivity.
    + repeat constructor.
    + left. reflexivity.
  - apply (compound_operator_token (codes "<>") 0 [] (codes ">") "<"%char).
    + reflexivity.
    + constructor.
    + left. reflexivity.
  - apply (compound_operator_token (codes "-1") 0 [] (codes "1") "-"%char).
    + reflexivity.
    + constructor.
    + right. split; [reflexivity | discriminate].
Defined.

(** ** Line comments opened by a hash sign and an exclamation mark *)

(** X7: a hash sign immediately followed by an exclamation mark opens a
    line comment, one comment token that runs up to, and does not include,
    the first newline or code point 0 after the opener, or runs to the end of
    the input when there is neither. *)
Theorem hash_bang_line_comment (input : list Z) (cursor : nat)
    (ws body rest : list Z) :
  skipn cursor input = ws ++ 35 :: 33 :: body ++ rest ->
  Forall (fun c => is_whitespace c = true) ws ->
  Forall (fun c => in_line_comment c = true) body ->
  in_line_comment (hd 0 rest) = false ->
  lex_token input cursor =
  Some (mkToken sym_comment (cursor + length ws)
          (cursor + length ws + 2 + length body)).
Proof.
  intros Hin Hws Hbody Hrest.
  exact (scanned_lex_token _ _ _ _
           (scan_one_hash_bang _ _ _ _ _ Hin Hws Hbody Hrest)).
Qed.

Lemma hash_bang_line_comment_witness :
  lex_token (codes " #!/usr/bin/osascript" ++ [10; 120]) 0 =
  Some (mkToken sym_comment 1 21).
Proof.
  apply (hash_bang_line_comment (codes " #!/usr/bin/osascript" ++ [10; 120]) 0
           [32] (codes "/usr/bin/osascript") [10; 120]).
  - reflexivity.
  - repeat constructor.
  - repeat constructor.
  - reflexivity.
Defined.

(** ** Numbers: the longest match *)

Lemma ts_lex_loop_digits_end (ds : list Z) :
  forall rest pos ts te sym result,
  Forall (fun c => is_digit c = true) ds ->
  is_digit (hd 0 rest) = false ->
  hd 0 rest <> "."%char ->
  ts_lex_loop (S (length ds)) (mkLexer (ds ++ rest) pos ts te sym) 10 result =
  Some (true, mkLexer rest (pos + length ds) ts (pos + length ds) sym_number).
Proof.
  induction ds as [|c ds IH]; intros rest pos ts te sym result Hds Hrest Hdot.
  - lexer_round. rewrite ts_lex_case_10, (eqb_false_intro _ _ Hdot), Hrest.
    unfold ACCEPT_TOKEN. lexer_effect. apply lexer_result_eq; cbn [length]; lia.
  - inversion Hds as [|? ? Hc Hds']; subst.
    cbn [length app]. lexer_round.
    rewrite ts_lex_case_10, (is_digit_not_dot _ Hc), Hc. unfold ACCEPT_TOKEN.
    lexer_effect. rewrite IH by assumption.
    apply lexer_result_eq; cbn [length]; lia.
Qed.

Lemma digits_without_dot (ds : list Z) :
  Forall (fun c => is_digit c = true) ds -> ~ In 46 ds.
Proof.
  intros Hds Hin. rewrite Forall_forall in Hds. apply Hds in Hin.
  discriminate.
Qed.

Lemma lex_token_number (input : list Z) (cursor : nat)
    (ws lexeme rest : list Z) :
  skipn cursor input = ws ++ lexeme ++ rest ->
  Forall (fun c => is_whitespace c = true) ws ->
  number_lexeme lexeme ->
  is_digit (hd 0 rest) = false ->
  In 46 lexeme \/ hd 0 rest <> "."%char \/ is_digit (hd 0 (tl rest)) = false ->
  lex_token input cursor =
  Some (mkToken sym_number (cursor + length ws)
          (cursor + length ws + length lexeme)).
Proof.
  intros Hin Hws (ds & fraction & -> & Hne & Hds & Hfrac) Hrest Hdot.
  destruct ds as [|d ds]; [contradiction|].
  destruct Hfrac as [-> | (fs & -> & Hfne & Hfs)].
  - rewrite app_nil_r in *.
    destruct Hdot as [Hdot | Hdot];
      [exfalso; exact (digits_without_dot _ Hds Hdot)|].
    destruct (Z.eq_dec (hd 0 rest) "."%char) as [Heq|Hneq].
    + destruct Hdot as [Hdot|Hdot]; [contradiction|].
      destruct rest as [|c rest']; [discriminate|]. cbn [hd tl] in *. subst c.
      exact (scanned_lex_token _ _ _ _
               (scan_one_digits_dot _ _ _ _ rest' _ Hin Hws Hds Hdot)).
    + inversion Hds as [|? ? Hd Hds']; subst.
      rewrite (lex_token_after_whitespace _ _ _ _ (S (S (length ds))) true
                 (mkLexer rest (S (cursor + length ws) + length ds)
                    (cursor + length ws) (S (cursor + length ws) + length ds)
                    sym_number) Hin Hws).
      * cbn [result_symbol token_start_position token_end_position length].
        do 2 f_equal. lia.
      * lexer_round. rewrite (ts_lex_case_0_digit _ Hd). lexer_effect.
        now apply ts_lex_loop_digits_end.
  - exact (scanned_lex_token _ _ _ _
             (scan_one_digits_fraction _ _ _ _ _ rest _ Hin Hws Hds Hfne Hfs
                Hrest)).
Qed.

(** X8: a number is the longest match: a number lexeme, one or more digits
    optionally followed by a dot and one or more digits, that no digit
    follows, and that is not an integer followed by a dot and a digit, is one
    number token that spans the lexeme. *)
Theorem number_longest_match (input : list Z) (cursor : nat)
    (ws lexeme rest : list Z) :
  skipn cursor input = ws ++ lexeme ++ rest ->
  Forall (fun c => is_whitespace c = true) ws ->
  number_lexeme lexeme ->
  is_digit (hd 0 rest) = false ->
  In 46 lexeme \/ hd 0 rest <> "."%char \/ is_digit (hd 0 (tl rest)) = false ->
  lex_token input cursor =
  Some (mkToken sym_number (cursor + length ws)
          (cursor + length ws + length lexeme)).
Proof. intros; eapply lex_token_number; eassumption. Qed.

Lemma number_longest_match_witness :
  lex_token (codes " 42abc") 0 = Some (mkToken sym_number 1 3) /\
  lex_token (codes "3.14.15") 0 = Some (mkToken sym_number 0 4).
Proof.
  split.
  - apply (number_longest_match (codes " 42abc") 0 [32] (codes "42") (codes "abc")).
    + reflexivity.
    + repeat constructor.
    + exists (codes "42"), []. repeat split; auto; try discriminate.
      repeat constructor.
    + reflexivity.
    + right. left. discriminate.
  - apply (number_longest_match (codes "3.14.15") 0 [] (codes "3.14") (codes ".15")).
    + reflexivity.
    + constructor.
    + exists (codes "3"), (codes ".14"). repeat split; try discriminate.
      * repeat constructor.
      * right. exists (codes "14"). repeat split; try discriminate.
        repeat constructor.
    + reflexivity.
    + left. cbn. tauto.
Defined.

(** ** The end of the input: state 6 *)

(** X9: when only whitespace is left, and in particular on the empty
    input, [ts_lex] returns the end symbol, as an empty token at the end of
    the input. *)
Theorem whitespace_then_end (input : list Z) (cursor : nat) :
  (cursor <= length input)%nat ->
  Forall (fun c => is_whitespace c = true) (skipn cursor input) ->
  lex_token input cursor = Some (end_token input).
Proof.
  intros Hc Hws.
  assert (Hlen : (cursor + length (skipn cursor input))%nat = length input)
    by now apply length_skipn_le.
  rewrite (lex_token_after_whitespace _ _ (skipn cursor input) [] 2 true
             (mkLexer [] (length input) (length input) (length input)
                ts_builtin_sym_end)).
  - reflexivity.
  - now rewrite app_nil_r.
  - exact Hws.
  - rewrite Hlen. lexer_round. lexer_case. lexer_effect. lexer_round.
    rewrite ts_lex_case_6. lexer_effect. reflexivity.
Qed.

Lemma whitespace_then_end_witness :
  lex_token [] 0 = Some (end_token []) /\
  lex_token (codes "a  ") 1 = Some (end_token (codes "a  ")).
Proof.
  split.
  - apply (whitespace_then_end [] 0); [cbn; lia | constructor].
  - apply (whitespace_then_end (codes "a  ") 1); [cbn; lia | repeat constructor].
Defined.

(** * The lexer follows the token rules, and the rules cover every text *)

Lemma ts_lex_case_0_no_rule (c : Z) :
  starts_token c = false -> is_whitespace c = false ->
  ts_lex_case 0 false c = Some (None, END_STATE).
Proof.
  intros Hs Hw.
  assert (Hall : check_chars no_rule_stops = true) by (vm_compute; reflexivity).
  destruct (in_alphabet c) eqn:Hin.
  - unfold check_chars in Hall. rewrite forallb_forall in Hall.
    specialize (Hall c (In_alphabet c (or_introl Hin))).
    unfold no_rule_stops in Hall. rewrite Hs, Hw in Hall.
    exact (lex_step_eqb_eq _ _ Hall).
  - rewrite ts_lex_case_other by assumption. reflexivity.
Qed.

Lemma lex_token_no_rule (input : list Z) (cursor : nat) (ws rest : list Z)
    (c : Z) :
  skipn cursor input = ws ++ c :: rest ->
  Forall (fun c => is_whitespace c = true) ws ->
  starts_token c = false -> is_whitespace c = false ->
  lex_token input cursor = None.
Proof.
  intros Hin Hws Hs Hw.
  rewrite (lex_token_after_whitespace _ _ _ _ 1 false
             (mkLexer (c :: rest) (cursor + length ws) (cursor + length ws)
                cursor ts_builtin_sym_end) Hin Hws); [reflexivity|].
  lexer_round. rewrite (ts_lex_case_0_no_rule _ Hs Hw). lexer_effect.
  reflexivity.
Qed.

Lemma lex_token_end (input : list Z) (cursor : nat) (ws : list Z) :
  skipn cursor input = ws ->
  Forall (fun c => is_whitespace c = true) ws ->
  lex_token input cursor =
  Some (mkToken ts_builtin_sym_end (cursor + length ws) (cursor + length ws)).
Proof.
  intros Hin Hws.
  rewrite (lex_token_after_whitespace _ _ ws [] 2 true
             (mkLexer [] (cursor + length ws) (cursor + length ws)
                (cursor + length ws) ts_builtin_sym_end)).
  - reflexivity.
  - now rewrite app_nil_r.
  - exact Hws.
  - lexer_round. lexer_case. lexer_effect. lexer_round.
    rewrite ts_lex_case_6. lexer_effect. reflexivity.
Qed.

Lemma token_eq (s : TSSymbol) (a b b' : nat) :
  b = b' -> Some (mkToken s a b) = Some (mkToken s a b').
Proof. now intros ->. Qed.

(** [ts_lex] follows the rules. *)
Lemma lex_token_follows_rule (chunk : list Z) (r : option (TSSymbol * nat)) :
  token_rule chunk r ->
  forall (input : list Z) (cursor : nat) (ws : list Z),
  skipn cursor input = ws ++ chunk ->
  Forall (fun c => is_whitespace c = true) ws ->
  lex_token input cursor = token_at (cursor + length ws) r.
Proof.
  intros Hrule input cursor ws Hin Hws.
  destruct Hrule as
    [ | body rest Hbody | body rest Hbody Hrest
    | lexeme rest Hlexeme Hrest Hdot
    | c0 cs rest Hc0 Hcs Hrest
    | c rest Hc
    | body rest Hbody Hclose Hrest
    | body rest Hbody Hclose
    | body rest Hbody Hrest | body rest Hbody Hrest
    | rest Hrest
    | c rest Hc
    | c rest Hc
    | c rest Hs Hw ]; cbn [token_at].
  - rewrite app_nil_r in Hin. rewrite (lex_token_end _ _ _ Hin Hws).
    apply token_eq. lia.
  - rewrite (lex_token_string _ _ _ _ _ Hin Hws Hbody). apply token_eq. lia.
  - exact (lex_token_string_open _ _ _ _ _ Hin Hws Hbody Hrest).
  - exact (lex_token_number _ _ _ _ _ Hin Hws Hlexeme Hrest Hdot).
  - rewrite (scanned_lex_token _ _ _ _
               (scan_one_identifier _ _ _ _ _ _ Hin Hws Hc0 Hcs Hrest)).
    unfold identifier_or_keyword.
    rewrite (run_states_is_keyword _ _ Hc0 Hcs).
    apply token_eq. cbn [length]. lia.
  - rewrite (lex_token_punctuation _ _ _ _ _ Hin Hws Hc). apply token_eq. lia.
  - rewrite (lex_token_block_comment_open _ _ _ _ _ Hin Hws Hbody Hclose Hrest).
    apply token_eq. lia.
  - rewrite (scanned_lex_token _ _ _ _
               (scan_one_block_comment _ _ _ _ _ Hin Hws Hbody Hclose)).
    apply token_eq. lia.
  - rewrite (scanned_lex_token _ _ _ _
               (scan_one_dash_dash _ _ _ _ _ Hin Hws Hbody Hrest)).
    apply token_eq. lia.
  - rewrite (scanned_lex_token _ _ _ _
               (scan_one_hash_bang _ _ _ _ _ Hin Hws Hbody Hrest)).
    apply token_eq. lia.
  - exact (failed_lex_token _ _ _ (scan_one_hash_alone _ _ _ _ Hin Hws Hrest)).
  - rewrite (lex_token_operator _ _ _ _ _ Hin Hws Hc). apply token_eq. lia.
  - exact (lex_token_compound_operator _ _ _ _ _ Hin Hws Hc).
  - exact (lex_token_no_rule _ _ _ _ _ Hin Hws Hs Hw).
Qed.

(** ** The rules cover every text that does not start with whitespace *)

Lemma split_while_first (p : Z -> bool) (c : Z) (l : list Z) :
  p 0 = false -> p c = true ->
  exists pre tail,
    c :: l = (c :: pre) ++ tail /\
    Forall (fun c => p c = true) (c :: pre) /\
    p (hd 0 tail) = false.
Proof.
  intros Hp Hc. destruct (split_while p l Hp) as (pre & tail & -> & Hpre & Htail).
  exists pre, tail. repeat split; auto.
Qed.

Lemma token_rule_digit (c : Z) (rest : list Z) :
  is_digit c = true -> exists r, token_rule (c :: rest) r.
Proof.
  intros Hc.
  destruct (split_while_first is_digit c rest eq_refl Hc)
    as (ds & tail & Hl & Hds & Htail).
  rewrite Hl.
  destruct ((hd 0 tail =? ".") && is_digit (hd 0 (tl tail))) eqn:Hfrac.
  - apply andb_true_iff in Hfrac. destruct Hfrac as [Hdot Hd].
    destruct tail as [|dot tail]; [discriminate|].
    cbn [hd tl] in Hdot, Hd. apply Z.eqb_eq in Hdot. subst dot.
    destruct tail as [|d tail]; [discriminate|]. cbn [hd] in Hd.
    destruct (split_while_first is_digit d tail eq_refl Hd)
      as (fs & tail' & Hl' & Hfs & Htail').
    rewrite Hl'.
    exists (Some (sym_number, length ((c :: ds) ++ 46 :: d :: fs))).
    assert (E : (c :: ds) ++ ("." : Z) :: (d :: fs) ++ tail' =
                ((c :: ds) ++ 46 :: d :: fs) ++ tail')
      by (rewrite <- app_assoc; reflexivity).
    rewrite E.
    apply (rule_number ((c :: ds) ++ 46 :: d :: fs) tail').
    + exists (c :: ds), (46 :: d :: fs). repeat split; auto; try discriminate.
      right. exists (d :: fs). repeat split; auto. discriminate.
    + exact Htail'.
    + left. apply in_or_app. right. now left.
  - exists (Some (sym_number, length (c :: ds))).
    apply (rule_number (c :: ds) tail).
    + exists (c :: ds), []. repeat split; auto; try discriminate.
      now rewrite app_nil_r.
    + exact Htail.
    + right. apply andb_false_iff in Hfrac. destruct Hfrac as [Hdot | Hd].
      * left. now apply Z.eqb_neq.
      * now right.
Qed.

Lemma token_rule_identifier (c : Z) (rest : list Z) :
  is_identifier_start c = true -> exists r, token_rule (c :: rest) r.
Proof.
  intros Hc.
  destruct (split_while is_identifier_char rest eq_refl)
    as (cs & tail & -> & Hcs & Htail).
  eexists. now apply rule_identifier.
Qed.

Lemma token_rule_quote (rest : list Z) : exists r, token_rule (34 :: rest) r.
Proof.
  destruct (split_while in_string rest eq_refl)
    as (body & tail & -> & Hbody & Htail).
  destruct tail as [|c tail].
  - eexists. now apply rule_string_open.
  - cbn [hd] in Htail. destruct (Z.eq_dec c 34) as [-> | Hc].
    + eexists. now apply rule_string.
    + eexists. apply rule_string_open; [assumption|].
      cbn [hd]. unfold in_string in Htail.
      rewrite (eqb_false_intro _ _ Hc) in Htail. cbn in Htail.
      apply negb_false_iff in Htail. now apply Z.eqb_eq.
Qed.

Lemma token_rule_parenthesis (rest : list Z) : exists r, token_rule (40 :: rest) r.
Proof.
  destruct (Z.eq_dec (hd 0 rest) "*") as [Hstar | Hstar].
  - destruct rest as [|star rest]; [discriminate|]. cbn [hd] in Hstar.
    subst star.
    destruct (split_block_comment rest)
      as (body & tail & Hbody & Hclose & [-> | [-> Htail]]).
    + eexists. now apply rule_block_comment.
    + eexists. now apply rule_block_comment_open.
  - eexists. apply rule_punctuation. right. now split.
Qed.

Lemma token_rule_dash (rest : list Z) : exists r, token_rule (45 :: rest) r.
Proof.
  destruct (Z.eq_dec (hd 0 rest) "-") as [Hdash | Hdash].
  - destruct rest as [|dash rest]; [discriminate|]. cbn [hd] in Hdash.
    subst dash.
    destruct (split_line_comment rest) as (body & tail & -> & Hbody & Htail).
    eexists. now apply rule_dash_comment.
  - eexists. apply rule_compound_operator. right. now split.
Qed.

Lemma token_rule_hash (rest : list Z) : exists r, token_rule (35 :: rest) r.
Proof.
  destruct (Z.eq_dec (hd 0 rest) "!") as [Hbang | Hbang].
  - destruct rest as [|bang rest]; [discriminate|]. cbn [hd] in Hbang.
    subst bang.
    destruct (split_line_comment rest) as (body & tail & -> & Hbody & Htail).
    eexists. now apply rule_hash_comment.
  - eexists. now apply rule_hash_alone.
Qed.

Lemma token_rule_total (chunk : list Z) :
  is_whitespace (hd 0 chunk) = false -> exists r, token_rule chunk r.
Proof.
  intros Hw. destruct chunk as [|c rest].
  - eexists. apply rule_end.
  - cbn [hd] in Hw. destruct (starts_token c) eqn:Hs.
    + unfold starts_token in Hs. rewrite !orb_true_iff in Hs.
      destruct Hs as [[[[[[[[Hc | Hc] | Hc] | Hc] | Hc] | Hc] | Hc] | Hc] | Hc].
      * now apply token_rule_digit.
      * now apply token_rule_identifier.
      * eexists. apply rule_punctuation. now left.
      * eexists. now apply rule_operator.
      * eexists. apply rule_compound_operator. now left.
      * apply Z.eqb_eq in Hc. subst c. apply token_rule_quote.
      * apply Z.eqb_eq in Hc. subst c. apply token_rule_hash.
      * apply Z.eqb_eq in Hc. subst c. apply token_rule_parenthesis.
      * apply Z.eqb_eq in Hc. subst c. apply token_rule_dash.
    + eexists. now apply rule_none.
Qed.

(** Every call of [ts_lex] is an instance of one rule, applied after the
    whitespace. *)
Lemma lex_token_rule (input : list Z) (cursor : nat) :
  exists ws chunk r,
    skipn cursor input = ws ++ chunk /\
    Forall (fun c => is_whitespace c = true) ws /\
    token_rule chunk r /\
    lex_token input cursor = token_at (cursor + length ws) r.
Proof.
  destruct (split_while is_whitespace (skipn cursor input) eq_refl)
    as (ws & chunk & Hin & Hws & Hchunk).
  destruct (token_rule_total chunk Hchunk) as [r Hrule].
  exists ws, chunk, r. repeat split; auto.
  now apply (lex_token_follows_rule chunk r Hrule).
Qed.

(** The text of a token and the text after it, read off the input. *)
Lemma token_text_at (input : list Z) (cursor : nat) (ws text rest : list Z)
    (s : TSSymbol) (n : nat) :
  skipn cursor input = ws ++ text ++ rest ->
  n = length text ->
  token_text input (mkToken s (cursor + length ws) (cursor + length ws + n)) = text /\
  skipn (cursor + length ws + n) input = rest.
Proof.
  intros Hin ->. split.
  - unfold token_text. cbn [span_start span_end].
    apply (slice_prefix input (cursor + length ws) text rest).
    exact (skipn_after _ _ _ _ Hin).
  - apply (skipn_after input (cursor + length ws) text rest).
    exact (skipn_after _ _ _ _ Hin).
Qed.

(** * What a token of each kind is made of *)

Lemma some_token_eq (t t' : Token) : Some t = Some t' -> t = t'.
Proof. now intros [= ->]. Qed.

(** The rule behind a call that returned a token. *)
Ltac token_rule_of input cursor Hlex :=
  let ws := fresh "ws" in
  let chunk := fresh "chunk" in
  let r := fresh "r" in
  let Hin := fresh "Hin" in
  let Hws := fresh "Hws" in
  let Hrule := fresh "Hrule" in
  let Heq := fresh "Heq" in
  destruct (lex_token_rule input cursor)
    as (ws & chunk & r & Hin & Hws & Hrule & Heq);
  rewrite Heq in Hlex; destruct Hrule;
  cbv beta iota delta [token_at] in Hlex;
  try discriminate Hlex; apply some_token_eq in Hlex;
  match type of Hlex with _ = ?t => subst t end.

Ltac other_kind Hkind :=
  cbn [kind] in Hkind;
  try discriminate Hkind;
  try (match type of Hkind with
       | context [is_keyword ?w] => destruct (is_keyword w); discriminate Hkind
       end).

(** X10: a string token is a double quote, a body that holds neither a
    double quote nor the code point 0, and a double quote: the token ends
    at the first double quote after the opening one. *)
Theorem string_token_text (input : list Z) (cursor : nat) (t : Token) :
  lex_token input cursor = Some t ->
  kind t = sym_string ->
  string_text (token_text input t).
Proof.
  intros Hlex Hkind. token_rule_of input cursor Hlex; other_kind Hkind.
  destruct (token_text_at input cursor ws (34 :: body ++ [34]) rest sym_string
              (length body + 2)) as [Htext _].
  - rewrite Hin. cbn [app]. now rewrite <- app_assoc.
  - cbn [length]. rewrite length_app. cbn [length]. lia.
  - rewrite Htext. exists body. now split.
Qed.

Lemma string_token_text_witness :
  string_text (token_text (32 :: 34 :: codes "a b" ++ 34 :: codes "c")
                 (mkToken sym_string 1 6)).
Proof.
  apply (string_token_text (32 :: 34 :: codes "a b" ++ 34 :: codes "c") 0
           (mkToken sym_string 1 6)).
  - vm_compute. reflexivity.
  - reflexivity.
Defined.

(** X11: a number token is a number lexeme, one or more digits optionally
    followed by a dot and one or more digits, and it is the longest one: no
    digit follows the token, and an integer token is not followed by a dot
    and a digit. *)
Theorem number_token_text (input : list Z) (cursor : nat) (t : Token) :
  lex_token input cursor = Some t ->
  kind t = sym_number ->
  let text := token_text input t in
  let after := skipn (span_end t) input in
  number_lexeme text /\
  is_digit (hd 0 after) = false /\
  (In 46 text \/ hd 0 after <> "." \/ is_digit (hd 0 (tl after)) = false).
Proof.
  intros Hlex Hkind. token_rule_of input cursor Hlex; other_kind Hkind.
  destruct (token_text_at input cursor ws lexeme rest sym_number
              (length lexeme) Hin eq_refl) as [Htext Hafter].
  cbv zeta. cbv beta iota delta [span_end]. rewrite Htext, Hafter. auto.
Qed.

Lemma number_token_text_witness :
  let input := codes "x 12.5.7" in
  let t := mkToken sym_number 2 6 in
  let text := token_text input t in
  let after := skipn (span_end t) input in
  number_lexeme text /\
  is_digit (hd 0 after) = false /\
  (In 46 text \/ hd 0 after <> "." \/ is_digit (hd 0 (tl after)) = false).
Proof.
  apply (number_token_text (codes "x 12.5.7") 1 (mkToken sym_number 2 6)).
  - vm_compute. reflexivity.
  - reflexivity.
Defined.

(** X12: a token of kind identifier or keyword is an identifier run, a
    letter or an underscore followed by letters, digits and underscores, and
    the whole of it: no such character follows the token.  Its kind is
    keyword exactly when the run, without regard to case, is in the
    keyword table. *)
Theorem identifier_token_text (input : list Z) (cursor : nat) (t : Token) :
  lex_token input cursor = Some t ->
  kind t = sym_identifier \/ kind t = sym_keyword ->
  let text := token_text input t in
  identifier_text text /\
  is_identifier_char (hd 0 (skipn (span_end t) input)) = false /\
  (kind t = sym_keyword <-> is_keyword text = true).
Proof.
  intros Hlex Hkind. token_rule_of input cursor Hlex;
    try (destruct Hkind as [Hkind | Hkind]; other_kind Hkind; fail).
  destruct (token_text_at input cursor ws (c0 :: cs) rest
              (if is_keyword (c0 :: cs) then sym_keyword else sym_identifier)
              (S (length cs)) Hin eq_refl) as [Htext Hafter].
  cbv zeta. cbv beta iota delta [span_end kind]. rewrite Htext, Hafter.
  repeat split; auto.
  - exists c0, cs. now repeat split.
  - destruct (is_keyword (c0 :: cs)); [reflexivity | discriminate].
  - now intros ->.
Qed.

Lemma identifier_token_text_witness :
  let input := codes "end tell_1+" in
  let t := mkToken sym_identifier 4 10 in
  let text := token_text input t in
  identifier_text text /\
  is_identifier_char (hd 0 (skipn (span_end t) input)) = false /\
  (kind t = sym_keyword <-> is_keyword text = true).
Proof.
  apply (identifier_token_text (codes "end tell_1+") 3
           (mkToken sym_identifier 4 10)).
  - vm_compute. reflexivity.
  - left. reflexivity.
Defined.

(** X13: a comment token is either a line comment, two dashes or a hash
    and a bang followed by characters other than the newline and the code
    point 0, up to the first of these or the end of the input; or a block
    comment, an opening parenthesis and a star, a body without the code
    point 0 and without closing mark, and the closing mark, a star and a
    closing parenthesis. *)
Theorem comment_token_text (input : list Z) (cursor : nat) (t : Token) :
  lex_token input cursor = Some t ->
  kind t = sym_comment ->
  let text := token_text input t in
  (line_comment_text text /\
   in_line_comment (hd 0 (skipn (span_end t) input)) = false) \/
  block_comment_text text.
Proof.
  intros Hlex Hkind. token_rule_of input cursor Hlex; other_kind Hkind;
    cbv zeta; cbv beta iota delta [span_end].
  - destruct (token_text_at input cursor ws (40 :: 42 :: body ++ [42; 41]) rest
                sym_comment (length body + 4)) as [Htext _].
    + rewrite Hin. cbn [app]. now rewrite <- app_assoc.
    + cbn [length]. rewrite length_app. cbn [length]. lia.
    + rewrite Htext. right. exists body. now repeat split.
  - destruct (token_text_at input cursor ws (45 :: 45 :: body) rest
                sym_comment (2 + length body) Hin eq_refl) as [Htext Hafter].
    rewrite Htext, Hafter. left. split; [|assumption].
    exists body. split; auto.
  - destruct (token_text_at input cursor ws (35 :: 33 :: body) rest
                sym_comment (2 + length body) Hin eq_refl) as [Htext Hafter].
    rewrite Htext, Hafter. left. split; [|assumption].
    exists body. split; auto.
Qed.

Lemma comment_token_text_witness :
  let input := codes "-- a" ++ 10 :: codes "b" in
  let t := mkToken sym_comment 0 4 in
  let text := token_text input t in
  (line_comment_text text /\
   in_line_comment (hd 0 (skipn (span_end t) input)) = false) \/
  block_comment_text text.
Proof.
  apply (comment_token_text (codes "-- a" ++ 10 :: codes "b") 0
           (mkToken sym_comment 0 4)).
  - vm_compute. reflexivity.
  - reflexivity.
Defined.

(** X14: an operator token is one operator character, or a slash, a
    less-than or a greater-than sign followed by an equals sign; no other
    operator has two characters and none has more. *)
Theorem operator_token_text (input : list Z) (cursor : nat) (t : Token) :
  lex_token input cursor = Some t ->
  kind t = sym_operator ->
  operator_text (token_text input t).
Proof.
  intros Hlex Hkind. token_rule_of input cursor Hlex; other_kind Hkind.
  - destruct (token_text_at input cursor ws [c] rest sym_operator 1 Hin eq_refl)
      as [Htext _].
    rewrite Htext. exists c. left. split; auto.
  - destruct ((hd 0 rest =? "=") && char_in compound_operator c) eqn:Hwide;
      cbv beta iota.
    + apply andb_true_iff in Hwide. destruct Hwide as [Hequals Hc].
      destruct rest as [|e rest]; [discriminate|]. cbn [hd] in Hequals.
      apply Z.eqb_eq in Hequals. subst e.
      destruct (token_text_at input cursor ws [c; 61] rest sym_operator 2 Hin
                  eq_refl) as [Htext _].
      rewrite Htext. exists c. right. split; auto.
    + destruct (token_text_at input cursor ws [c] rest sym_operator 1 Hin eq_refl)
        as [Htext _].
      rewrite Htext. exists c. left. split; [reflexivity|].
      destruct H as [Hc | [Hc _]]; auto.
Qed.

Lemma operator_token_text_witness :
  operator_text (token_text (codes "a >== b") (mkToken sym_operator 2 4)).
Proof.
  apply (operator_token_text (codes "a >== b") 1 (mkToken sym_operator 2 4)).
  - vm_compute. reflexivity.
  - reflexivity.
Defined.

(** X15: a punctuation token is one character: one of the quote, the
    closing parenthesis, the comma, the colon, the square brackets and the
    braces, or the opening parenthesis. *)
Theorem punctuation_token_text (input : list Z) (cursor : nat) (t : Token) :
  lex_token input cursor = Some t ->
  kind t = sym_punctuation ->
  punctuation_text (token_text input t).
Proof.
  intros Hlex Hkind. token_rule_of input cursor Hlex; other_kind Hkind.
  - destruct (token_text_at input cursor ws [c] rest sym_punctuation 1 Hin
                eq_refl) as [Htext _].
    rewrite Htext. exists c. split; [reflexivity|].
    destruct H as [Hc | [Hc _]]; auto.
  - destruct (token_text_at input cursor ws [40] (42 :: body ++ rest)
                sym_punctuation 1 Hin eq_refl) as [Htext _].
    rewrite Htext. exists 40. split; [reflexivity|]. now right.
Qed.

Lemma punctuation_token_text_witness :
  punctuation_text (token_text (codes "f(x)") (mkToken sym_punctuation 1 2)).
Proof.
  apply (punctuation_token_text (codes "f(x)") 1 (mkToken sym_punctuation 1 2)).
  - vm_compute. reflexivity.
  - reflexivity.
Defined.

(** X16: the symbol of a token that [ts_lex] returns is one of the
    [TOKEN_COUNT] terminal symbols, never [sym_source_file], [sym__item] or
    the auxiliary symbol; it is named, and visible unless it is the end
    symbol, in [ts_symbol_metadata]. *)
Theorem token_symbol_is_terminal (input : list Z) (cursor : nat) (t : Token) :
  lex_token input cursor = Some t ->
  0 <= symbol_id (kind t) < TOKEN_COUNT /\
  named (ts_symbol_metadata (kind t)) = true /\
  visible (ts_symbol_metadata (kind t)) =
  negb (TSSymbol_eqb (kind t) ts_builtin_sym_end).
Proof.
  intros Hlex. token_rule_of input cursor Hlex; cbn [kind];
    try (destruct (is_keyword (c0 :: cs)));
    (split; [split; [discriminate | reflexivity] | split; reflexivity]).
Qed.

Lemma token_symbol_is_terminal_witness :
  let t := mkToken sym_keyword 0 4 in
  0 <= symbol_id (kind t) < TOKEN_COUNT /\
  named (ts_symbol_metadata (kind t)) = true /\
  visible (ts_symbol_metadata (kind t)) =
  negb (TSSymbol_eqb (kind t) ts_builtin_sym_end).
Proof.
  apply (token_symbol_is_terminal (codes "tell x") 0 (mkToken sym_keyword 0 4)).
  vm_compute. reflexivity.
Defined.

(** X17: [ts_lex] returns [false] in three cases only: after the
    whitespace comes a character that starts no token; or a hash that no
    bang follows; or a double quote whose string reaches the code point 0 or
    the end of the input before a closing double quote.  In particular an
    unterminated block comment is no failure. *)
Theorem lex_failure_causes (input : list Z) (cursor : nat) :
  lex_token input cursor = None <->
  exists ws c rest,
    skipn cursor input = ws ++ c :: rest /\
    Forall (fun c => is_whitespace c = true) ws /\
    ((starts_token c = false /\ is_whitespace c = false) \/
     (c = "#" /\ hd 0 rest <> "!") \/
     (c = 34 /\
      exists body tail,
        rest = body ++ tail /\
        Forall (fun c => in_string c = true) body /\ hd 0 tail = 0)).
Proof.
  split.
  - intros Hlex.
    destruct (lex_token_rule input cursor)
      as (ws & chunk & r & Hin & Hws & Hrule & Heq).
    rewrite Heq in Hlex.
    destruct Hrule; cbv beta iota delta [token_at] in Hlex;
      try discriminate Hlex.
    + exists ws, 34, (body ++ rest). repeat split; auto.
      right. right. split; [reflexivity|]. exists body, rest. now repeat split.
    + exists ws, 35, rest. repeat split; auto.
    + exists ws, c, rest. repeat split; auto.
  - intros (ws & c & rest & Hin & Hws &
            [[Hs Hw] | [[-> Hrest] | [-> (body & tail & -> & Hbody & Htail)]]]).
    + exact (lex_token_no_rule _ _ _ _ _ Hin Hws Hs Hw).
    + exact (failed_lex_token _ _ _ (scan_one_hash_alone _ _ _ _ Hin Hws Hrest)).
    + exact (lex_token_string_open _ _ _ _ _ Hin Hws Hbody Htail).
Qed.

(** * What is skipped *)

(** X19: the lexer skips exactly the six characters from the tab to the
    carriage return (tab, newline, vertical tab, form feed, carriage return)
    and the space, and only in state 0, before a token: a [SKIP] comes from
    no other state, on no other character, not at the end of the input, and
    never together with an accepted token; it always leads back to
    state 0. *)
Theorem skip_exactly_whitespace (state : TSStateId) (eof : bool) (c : Z)
    (accepted : option TSSymbol) (state' : TSStateId) :
  ts_lex_case state eof c = Some (accepted, SKIP state') <->
  state = 0 /\ state' = 0 /\ eof = false /\ accepted = None /\
  (9 <= c <= 13 \/ c = 32).
Proof.
  split.
  - intros H. apply ts_lex_case_skip in H.
    destruct H as (-> & -> & -> & -> & Hw). repeat split.
    unfold is_whitespace in Hw.
    rewrite orb_true_iff, andb_true_iff, !Z.leb_le, Z.eqb_eq in Hw.
    eval_codes_in Hw. tauto.
  - intros (-> & -> & -> & -> & Hc).
    assert (Hcases : c = 9 \/ c = 10 \/ c = 11 \/ c = 12 \/ c = 13 \/ c = 32)
      by lia.
    destruct Hcases as [-> | [-> | [-> | [-> | [-> | ->]]]]]; reflexivity.
Qed.

(** * Characters that start no token *)

Lemma starts_token_non_ascii (c : Z) :
  128 <= c -> ~ In c [0xac; 0x2260; 0x2264; 0x2265] ->
  starts_token c = false /\ is_whitespace c = false.
Proof.
  intros Hc Hop. cbn [In] in Hop.
  unfold starts_token, is_whitespace, is_digit, is_identifier_start, is_letter,
    char_in, single_punctuation, single_operator, compound_operator.
  cbn [existsb]. eval_codes. decide_tests c. split; reflexivity.
Qed.

(** X20: outside ASCII only the four operator code points 0xac, 0x2260,
    0x2264 and 0x2265 start a token: where a token is to start, any other
    code point from 128 on makes [ts_lex] return [false]; the letters of
    identifiers are the ASCII letters only. *)
Theorem non_ascii_starts_no_token (input : list Z) (cursor : nat)
    (ws rest : list Z) (c : Z) :
  skipn cursor input = ws ++ c :: rest ->
  Forall (fun c => is_whitespace c = true) ws ->
  128 <= c -> ~ In c [0xac; 0x2260; 0x2264; 0x2265] ->
  lex_token input cursor = None.
Proof.
  intros Hin Hws Hc Hop.
  destruct (starts_token_non_ascii c Hc Hop) as [Hs Hw].
  exact (lex_token_no_rule _ _ _ _ _ Hin Hws Hs Hw).
Qed.

Lemma non_ascii_starts_no_token_witness :
  lex_token [32; 0xe9; 116; 0xe9] 0 = None.
Proof.
  apply (non_ascii_starts_no_token [32; 0xe9; 116; 0xe9] 0 [32] [116; 0xe9] 0xe9).
  - reflexivity.
  - repeat constructor.
  - lia.
  - cbn [In]. lia.
Defined.

Lemma printable_in_range (c : Z) :
  33 <= c <= 126 -> In c (map Z.of_nat (seq 33 94)).
Proof.
  intros Hc. rewrite <- (Z2Nat.id c) by lia.
  apply in_map, in_seq. lia.
Qed.

(** X21: among the printable ASCII characters other than the hash and the
    double quote, exactly eleven start no token: the exclamation mark, the
    dollar sign, the percent sign, the dot, the semicolon, the question mark,
    the at sign, the backslash, the backquote, the vertical bar and the
    tilde.  Where a token is to start, [ts_lex] returns [false] on each of
    them, whatever follows, and returns a token on every other one. *)
Theorem unused_ascii_characters (input : list Z) (cursor : nat)
    (ws rest : list Z) (c : Z) :
  skipn cursor input = ws ++ c :: rest ->
  Forall (fun c => is_whitespace c = true) ws ->
  33 <= c <= 126 -> c <> "#" -> c <> 34 ->
  (lex_token input cursor = None <-> In c (codes "!$%.;?@\`|~")).
Proof.
  intros Hin Hws Hc Hhash Hquote. split.
  - assert (Hw : is_whitespace c = false)
      by (unfold is_whitespace; eval_codes; decide_tests c; reflexivity).
    destruct (token_rule_total (c :: rest) Hw) as [r Hrule].
    rewrite (lex_token_follows_rule _ _ Hrule _ _ _ Hin Hws).
    intros Hnone.
    inversion Hrule; subst; cbv beta iota delta [token_at] in Hnone;
      try discriminate Hnone; try contradiction.
    assert (Hall : forallb
              (fun c => starts_token c ||
                        existsb (Z.eqb c) (codes "!$%.;?@\`|~"))
              (map Z.of_nat (seq 33 94)) = true) by (vm_compute; reflexivity).
    rewrite forallb_forall in Hall.
    specialize (Hall c (printable_in_range c Hc)).
    match goal with Hs : starts_token c = false |- _ => rewrite Hs in Hall end.
    cbn [orb] in Hall. apply existsb_exists in Hall.
    destruct Hall as (x & Hx & Hcx). apply Z.eqb_eq in Hcx. now subst x.
  - intros Hlist.
    apply (lex_token_no_rule _ _ _ _ _ Hin Hws);
      cbn in Hlist;
      repeat (destruct Hlist as [<- | Hlist]; [reflexivity|]); destruct Hlist.
Qed.

Lemma unused_ascii_characters_witness :
  lex_token (codes "a |b|") 1 = None <-> In 124 (codes "!$%.;?@\`|~").
Proof.
  apply (unused_ascii_characters (codes "a |b|") 1 [32] (codes "b|") "|"%char).
  - reflexivity.
  - repeat constructor.
  - unfold char_code. cbn. lia.
  - discriminate.
  - discriminate.
Defined.
